(** * SMS extraction over adb (mvt/android/modules/adb/sms.py)

    A shallow embedding of the [SMS] extraction module and the proofs of
    its specified properties.

    The module is Python.  Its methods mutate [self.results], raise
    exceptions and talk to collaborators (the adb transport, sqlite3,
    tarfile, zlib, json, the link detector, the timestamp converter).
    The embedding keeps that shape:

    - a method is a computation [M A]: it takes the instance state and
      gives the state it leaves, the events it emitted, and either a value
      or the exception it raised;
    - the collaborators whose code is not part of the module are the
      fields of one record, [Externals];
    - Python values are the inductive [pyval]; a [str] is a [string] read
      as a sequence of code points below 256, a [bytes] is a [list byte].

    Line 144 of the source file lacks its comment mark; it is read as the
    comment it is in the upstream project. *)

From Stdlib Require Import ZArith List String Ascii Bool Lia.
From Stdlib Require Import Strings.Byte.
Import ListNotations.
Local Open Scope string_scope.
Local Open Scope list_scope.
Local Open Scope Z_scope.

(** ** Exceptions and fallible results *)

Inductive exn : Type :=
| InsufficientPrivileges        (* mvt.common.module *)
| TypeError
| AttributeError
| KeyError
| IndexError
| ValueError
| OverflowError
| SqliteError                   (* sqlite3.Error and its subclasses *)
| TarReadError                  (* tarfile.TarError and its subclasses *)
| ZlibError                     (* zlib.error *)
| JSONDecodeError               (* json.JSONDecodeError *)
| BinasciiError                 (* binascii.Error *)
| OtherError (name : string).

Inductive result (A : Type) : Type :=
| Ok (a : A)
| Raise (e : exn).
Arguments Ok {A} a.
Arguments Raise {A} e.

Definition rbind {A B} (r : result A) (k : A -> result B) : result B :=
  match r with
  | Ok a => k a
  | Raise e => Raise e
  end.

Notation "x <~ r ;; k" := (rbind r (fun x => k))
  (at level 61, r at next level, right associativity).

(** ** Python values *)

Definition bytes := list byte.

(** A float is kept symbolic: the text of a literal (a JSON number, a REAL
    column) or the quotient of a true division of two integers.  What the
    interpreter computes from it is asked of [Externals]. *)
Inductive pyfloat : Type :=
| FloatLit (text : string)
| FloatQuot (num den : Z).

(** [datetime.datetime.utcfromtimestamp t] *)
Inductive datetime : Type :=
| UtcFromTimestamp (t : pyfloat).

#[warnings="-register-all"]
Inductive pyval : Type :=
| PNone
| PBool (b : bool)
| PInt (n : Z)
| PFloat (f : pyfloat)
| PStr (s : string)
| PBytes (b : bytes)
| PDatetime (d : datetime)
| PList (l : list pyval)
| PDict (d : list (string * pyval)).

(** A [dict] with [str] keys, in insertion order, one entry per key. *)
Definition dict := list (string * pyval).

Fixpoint dict_get (d : dict) (k : string) : option pyval :=
  match d with
  | [] => None
  | (k', v) :: rest => if String.eqb k' k then Some v else dict_get rest k
  end.

(** [d[k] = v]: replaces the value of an existing key in place, appends a
    new key. *)
Fixpoint dict_set (d : dict) (k : string) (v : pyval) : dict :=
  match d with
  | [] => [(k, v)]
  | (k', v') :: rest =>
      if String.eqb k' k then (k', v) :: rest else (k', v') :: dict_set rest k v
  end.

(** [v[k]] for a [str] key [k]. *)
Definition py_getitem (v : pyval) (k : string) : result pyval :=
  match v with
  | PDict d => match dict_get d k with
               | Some x => Ok x
               | None => Raise KeyError
               end
  | _ => Raise TypeError
  end.

(** [for x in v]: the items the loop visits. *)
Definition py_iter (v : pyval) : result (list pyval) :=
  match v with
  | PList l => Ok l
  | PDict d => Ok (map (fun kv => PStr (fst kv)) d)
  | PStr s => Ok (map (fun c => PStr (String c EmptyString)) (list_ascii_of_string s))
  | PBytes b => Ok (map (fun x => PInt (Z.of_N (Byte.to_N x))) b)
  | _ => Raise TypeError
  end.

(** ** Whitespace, [strip], [int] *)

(** [str.isspace] on the code points below 256. *)
Definition is_space_str (c : ascii) : bool :=
  let n := Z.of_N (N_of_ascii c) in
  ((9 <=? n) && (n <=? 13)) || ((28 <=? n) && (n <=? 32))
  || (n =? 133) || (n =? 160).

(** The whitespace [int(str)] skips: the control characters 28 to 31 are
    not part of it. *)
Definition is_space_int_str (c : ascii) : bool :=
  let n := Z.of_N (N_of_ascii c) in
  ((9 <=? n) && (n <=? 13)) || (n =? 32) || (n =? 133) || (n =? 160).

(** The whitespace of [bytes.strip()] and of [int(bytes)]. *)
Definition is_space_bytes (c : ascii) : bool :=
  let n := Z.of_N (N_of_ascii c) in
  ((9 <=? n) && (n <=? 13)) || (n =? 32).

Fixpoint lstrip (sp : ascii -> bool) (l : list ascii) : list ascii :=
  match l with
  | [] => []
  | c :: rest => if sp c then lstrip sp rest else l
  end.

Definition strip_chars (sp : ascii -> bool) (l : list ascii) : list ascii :=
  rev (lstrip sp (rev (lstrip sp l))).

(** [s.strip()] *)
Definition str_strip (s : string) : string :=
  string_of_list_ascii (strip_chars is_space_str (list_ascii_of_string s)).

Definition ascii_of_bytes (b : bytes) : list ascii := map ascii_of_byte b.

(** [v.strip() == ""] as the filter writes it. *)
Definition strip_is_empty (v : pyval) : result bool :=
  match v with
  | PStr s => Ok (String.eqb (str_strip s) "")
  | PBytes _ => Ok false          (* a bytes object never equals a str *)
  | _ => Raise AttributeError
  end.

Definition digit_value (c : ascii) : option Z :=
  let n := Z.of_N (N_of_ascii c) in
  if (48 <=? n) && (n <=? 57) then Some (n - 48) else None.

(** Decimal digits, single underscores allowed between two digits. *)
Fixpoint digits_value (acc : Z) (after_digit : bool) (l : list ascii) : option Z :=
  match l with
  | [] => if after_digit then Some acc else None
  | c :: rest =>
      match digit_value c with
      | Some d => digits_value (10 * acc + d) true rest
      | None =>
          if Ascii.eqb c "_"%char && after_digit
          then digits_value acc false rest
          else None
      end
  end.

(** [sys.get_int_max_str_digits()] as the interpreter starts. *)
Definition max_str_digits : Z := 4300.

(** The digits of a literal: underscores are not counted, leading zeros
    are. *)
Fixpoint count_digits (l : list ascii) : Z :=
  match l with
  | [] => 0
  | c :: rest =>
      match digit_value c with
      | Some _ => 1 + count_digits rest
      | None => count_digits rest
      end
  end.

(** [int(text)] in base ten: surrounding whitespace, an optional sign,
    digits.  A literal of more than [max_str_digits] digits is refused
    with [ValueError], as a malformed one is. *)
Definition parse_int (sp : ascii -> bool) (l : list ascii) : result Z :=
  let body := strip_chars sp l in
  let signed :=
    match body with
    | "+"%char :: rest => (1, rest)
    | "-"%char :: rest => (-1, rest)
    | _ => (1, body)
    end in
  match digits_value 0 false (snd signed) with
  | Some n =>
      if max_str_digits <? count_digits (snd signed)
      then Raise ValueError
      else Ok (fst signed * n)
  | None => Raise ValueError
  end.

Definition int_of_bytes (b : bytes) : result Z :=
  parse_int is_space_bytes (ascii_of_bytes b).

Definition int_of_str (s : string) : result Z :=
  parse_int is_space_int_str (list_ascii_of_string s).

(** [int(v)] *)
Definition py_int (float_to_int : pyfloat -> result Z) (v : pyval) : result Z :=
  match v with
  | PInt n => Ok n
  | PBool b => Ok (if b then 1 else 0)
  | PFloat f => float_to_int f
  | PStr s => int_of_str s
  | PBytes b => int_of_bytes b
  | _ => Raise TypeError
  end.

(** [n / d] on two integers, [d] not zero: the quotient as a float,
    [OverflowError] when it rounds beyond the largest double. *)
Definition int_truediv (n d : Z) : result pyfloat :=
  if Z.abs d * (2 ^ 1024 - 2 ^ 970) <=? Z.abs n
  then Raise OverflowError
  else Ok (FloatQuot n d).

(** ** [bytes.startswith], [bytes.split], [str.endswith] *)

Definition byte_eqb (a b : byte) : bool := Byte.eqb a b.

Fixpoint bytes_eqb (a b : bytes) : bool :=
  match a, b with
  | [], [] => true
  | x :: a', y :: b' => byte_eqb x y && bytes_eqb a' b'
  | _, _ => false
  end.

Fixpoint startswith (b prefix : bytes) : bool :=
  match prefix, b with
  | [], _ => true
  | p :: prefix', x :: b' => byte_eqb x p && startswith b' prefix'
  | _ :: _, [] => false
  end.

(** [b.split(sep, maxsplit)] for a one-byte separator: at most [maxsplit]
    cuts, the rest of the input is the last field. *)
Fixpoint split_on (sep : byte) (maxsplit : nat) (field : bytes) (b : bytes)
  : list bytes :=
  match maxsplit with
  | O => [rev field ++ b]
  | S m =>
      match b with
      | [] => [rev field]
      | x :: rest =>
          if byte_eqb x sep
          then rev field :: split_on sep m [] rest
          else split_on sep maxsplit (x :: field) rest
      end
  end.

Definition bytes_split (b : bytes) (sep : byte) (maxsplit : nat) : list bytes :=
  split_on sep maxsplit [] b.

Definition endswith (s suffix : string) : bool :=
  let n := String.length s in
  let k := String.length suffix in
  (k <=? n)%nat && String.eqb (substring (n - k) k s) suffix.

(** A bytes literal. *)
Definition b (s : string) : bytes := list_byte_of_string s.

(** ** Collaborators *)

(** What [cur.execute(query)] leaves in the cursor: the column
    descriptions, the rows the iteration yields, and the error that ends
    the iteration early, if any. *)
Record cursor : Type := mkCursor {
  description : option (list string);
  fetched : list (list pyval);
  iteration_error : option exn
}.

(** A cursor on which nothing was executed. *)
Definition fresh_cursor : cursor := mkCursor None [] None.

(** An open sqlite3 database answers queries. *)
Record database : Type := mkDatabase {
  execute : string -> result cursor
}.

(** A member of a tar archive; [content] is what
    [tar.extractfile(member)] reads, [None] for a member that is not a
    regular file. *)
Record tar_member : Type := mkMember {
  name : string;
  content : option bytes
}.

(** The code this module calls and does not contain. *)
Record Externals : Type := mkExternals {
  (* mvt.common.utils; the converter gives a str, or None *)
  check_for_links : pyval -> result (list string);
  convert_timestamp_to_iso : pyval -> result pyval;
  (* AndroidExtraction, the device-command layer *)
  _adb_check_file_exists : string -> result bool;
  adb_copy_file : string -> result string;
  _adb_command : string -> result string;
  (* the standard library *)
  sqlite3_connect : string -> result database;
  b64decode : string -> result bytes;
  tarfile_open : bytes -> result (list tar_member);
  zlib_decompress : bytes -> result bytes;
  json_loads : bytes -> result pyval;
  utcfromtimestamp : pyfloat -> result datetime;
  float_to_int : pyfloat -> result Z;
  float_eq_int : pyfloat -> Z -> bool
}.

(** ** State, events and the computation monad *)

(** A normalized message record, as kept in [self.results]. *)
Definition sms_record := dict.

Record state : Type := mkState {
  results : list sms_record;      (* self.results *)
  SMS_DB_TYPE : option Z        (* self.SMS_DB_TYPE, unset until [run] sets it *)
}.

Inductive level : Type := LvlDebug | LvlInfo | LvlWarning | LvlError.

Inductive event : Type :=
| EvCheckFile (path : string)       (* _adb_check_file_exists(path) *)
| EvCopyFile (path : string)        (* the transfer made by _adb_process_file *)
| EvShell (command : string)        (* _adb_command(command) *)
| EvConnect (db_path : string)      (* sqlite3.connect returned a connection *)
| EvExecute (query : string)        (* cur.execute(query) *)
| EvCursorClose                     (* cur.close() *)
| EvConnClose                       (* conn.close() *)
| EvLog (lvl : level) (text : string).

Record outcome (A : Type) : Type := mkOutcome {
  final : state;
  emitted : list event;
  value : result A
}.
Arguments mkOutcome {A}.
Arguments final {A}.
Arguments emitted {A}.
Arguments value {A}.

Definition M (A : Type) : Type := state -> outcome A.

Definition ret {A} (a : A) : M A := fun st => mkOutcome st [] (Ok a).

Definition raise {A} (e : exn) : M A := fun st => mkOutcome st [] (Raise e).

Definition bind {A B} (m : M A) (k : A -> M B) : M B := fun st =>
  let o := m st in
  match value o with
  | Ok a =>
      let o' := k a (final o) in
      mkOutcome (final o') (emitted o ++ emitted o') (value o')
  | Raise e => mkOutcome (final o) (emitted o) (Raise e)
  end.

Notation "x <- m ;; k" := (bind m (fun x => k))
  (at level 61, m at next level, right associativity).
Notation "m ;; k" := (bind m (fun _ => k))
  (at level 61, right associativity).

(** A pure call that may raise. *)
Definition lift {A} (r : result A) : M A := fun st => mkOutcome st [] r.

Definition emit (ev : event) : M unit := fun st => mkOutcome st [ev] (Ok tt).

(** [log.info(...)], [self.log.warning(...)] and the like.  The instance
    is taken to have been given a logger, so a logging call adds its line
    and does nothing else. *)
Definition log (lvl : level) (text : string) : M unit := emit (EvLog lvl text).

(** [self.results.append(message)] *)
Definition append_result (m : sms_record) : M unit := fun st =>
  mkOutcome (mkState (results st ++ [m]) (SMS_DB_TYPE st)) [] (Ok tt).

(** [self.SMS_DB_TYPE = n] *)
Definition set_SMS_DB_TYPE (n : Z) : M unit := fun st =>
  mkOutcome (mkState (results st) (Some n)) [] (Ok tt).

(** [self.SMS_DB_TYPE]; reading the attribute before it is set raises. *)
Definition get_SMS_DB_TYPE : M Z := fun st =>
  mkOutcome st []
    (match SMS_DB_TYPE st with
     | Some n => Ok n
     | None => Raise AttributeError
     end).

(** [for x in l: body(x)] *)
Fixpoint for_each {A} (l : list A) (body : A -> M unit) : M unit :=
  match l with
  | [] => ret tt
  | x :: rest => body x ;; for_each rest body
  end.

(** [try: m  except InsufficientPrivileges: pass], followed by [after]
    when the exception was caught.  The [try] body of [run] ends in
    [return], so [after] runs on no other path. *)
Definition try_except_privileges (m : M unit) (after : M unit) : M unit :=
  fun st =>
    let o := m st in
    match value o with
    | Raise InsufficientPrivileges =>
        let o' := after (final o) in
        mkOutcome (final o') (emitted o ++ emitted o') (value o')
    | _ => o
    end.

(** ** The two message stores *)

Definition SMS_BUGLE_PATH : string :=
  "data/data/com.google.android.apps.messaging/databases/bugle_db".

Definition SMS_BUGLE_QUERY : string := "
SELECT
    ppl.normalized_destination AS address,
    p.timestamp AS timestamp,
CASE WHEN m.sender_id IN
(SELECT _id FROM participants WHERE contact_id=-1)
THEN 2 ELSE 1 END incoming, p.text AS body
FROM messages m, conversations c, parts p,
        participants ppl, conversation_participants cp
WHERE (m.conversation_id = c._id)
    AND (m._id = p.message_id)
    AND (cp.conversation_id = c._id)
    AND (cp.participant_id = ppl._id);
".

Definition SMS_MMSSMS_PATH : string :=
  "data/data/com.android.providers.telephony/databases/mmssms.db".

Definition SMS_MMSMS_QUERY : string := "
SELECT
    address AS address,
    date_sent AS timestamp,
    type as incoming,
    body AS body
FROM sms;
".

(** The column names both queries give their results. *)
Definition query_columns : list string :=
  ["address"; "timestamp"; "incoming"; "body"].

(** What the two queries compute, on the tables they read.  Key columns
    hold an integer or NULL; the other columns hold any sqlite value.
    Comparisons follow SQL's three-valued logic.  The rows come in the
    order of a nested loop over the FROM clause; SQL fixes no order. *)
Module Sql.

Definition eq (x y : option Z) : option bool :=
  match x, y with
  | Some a, Some c => Some (a =? c)
  | _, _ => None
  end.

Definition and (x y : option bool) : option bool :=
  match x, y with
  | Some false, _ | _, Some false => Some false
  | Some true, Some true => Some true
  | _, _ => None
  end.

(** [x IN (l)] *)
Definition isin (x : option Z) (l : list (option Z)) : option bool :=
  match l with
  | [] => Some false
  | _ =>
      match x with
      | None => None
      | Some a =>
          if existsb (fun y => match y with Some c => a =? c | None => false end) l
          then Some true
          else if existsb (fun y => match y with None => true | Some _ => false end) l
               then None
               else Some false
      end
  end.

(** A condition selects when it is true, not when it is false or
    unknown. *)
Definition holds (c : option bool) : bool :=
  match c with
  | Some true => true
  | _ => false
  end.

Record message_row : Type := mkMessage {
  m_id : option Z;
  m_conversation_id : option Z;
  m_sender_id : option Z
}.

Record conversation_row : Type := mkConversation {
  c_id : option Z
}.

Record part_row : Type := mkPart {
  p_message_id : option Z;
  p_timestamp : pyval;
  p_text : pyval
}.

Record participant_row : Type := mkParticipant {
  ppl_id : option Z;
  ppl_normalized_destination : pyval;
  ppl_contact_id : option Z
}.

Record conversation_participant_row : Type := mkConversationParticipant {
  cp_conversation_id : option Z;
  cp_participant_id : option Z
}.

Record bugle_tables : Type := mkBugle {
  messages : list message_row;
  conversations : list conversation_row;
  parts : list part_row;
  participants : list participant_row;
  conversation_participants : list conversation_participant_row
}.

(** [SELECT _id FROM participants WHERE contact_id=-1] *)
Definition contact_minus_one (t : bugle_tables) : list (option Z) :=
  map ppl_id
    (filter (fun r => holds (eq (ppl_contact_id r) (Some (-1)))) (participants t)).

(** [m.sender_id IN (SELECT ...)] as the CASE reads it. *)
Definition sender_in_subselect (t : bugle_tables) (m : message_row) : bool :=
  holds (isin (m_sender_id m) (contact_minus_one t)).

(** The WHERE clause. *)
Definition bugle_where (m : message_row) (c : conversation_row) (p : part_row)
    (ppl : participant_row) (cp : conversation_participant_row) : bool :=
  holds (and (and (and (eq (m_conversation_id m) (c_id c))
                       (eq (m_id m) (p_message_id p)))
                  (eq (cp_conversation_id cp) (c_id c)))
             (eq (cp_participant_id cp) (ppl_id ppl))).

(** The SELECT list: address, timestamp, incoming, body. *)
Definition bugle_select (t : bugle_tables) (m : message_row) (p : part_row)
    (ppl : participant_row) : list pyval :=
  [ ppl_normalized_destination ppl;
    p_timestamp p;
    PInt (if sender_in_subselect t m then 2 else 1);
    p_text p ].

Definition bugle_rows (t : bugle_tables) : list (list pyval) :=
  flat_map (fun m =>
  flat_map (fun c =>
  flat_map (fun p =>
  flat_map (fun ppl =>
  flat_map (fun cp =>
    if bugle_where m c p ppl cp then [bugle_select t m p ppl] else [])
    (conversation_participants t))
    (participants t))
    (parts t))
    (conversations t))
    (messages t).

(** A bugle_db file: it answers the bugle query, and has no [sms]
    table. *)
Definition bugle_db (t : bugle_tables) : database :=
  mkDatabase (fun q =>
    if String.eqb q SMS_BUGLE_QUERY
    then Ok (mkCursor (Some query_columns) (bugle_rows t) None)
    else Raise SqliteError).

Record sms_row : Type := mkSms {
  sms_address : pyval;
  sms_date_sent : pyval;
  sms_type : pyval;
  sms_body : pyval
}.

Definition mmssms_rows (sms : list sms_row) : list (list pyval) :=
  map (fun r => [sms_address r; sms_date_sent r; sms_type r; sms_body r]) sms.

(** An mmssms.db file. *)
Definition mmssms_db (sms : list sms_row) : database :=
  mkDatabase (fun q =>
    if String.eqb q SMS_MMSMS_QUERY
    then Ok (mkCursor (Some query_columns) (mmssms_rows sms) None)
    else Raise SqliteError).

End Sql.

(** ** The methods of [SMS] *)

Module SMS.
Section Methods.

Variable E : Externals.

(** [os.path.join("/", path)] for a relative [path]. *)
Definition os_path_join_root (path : string) : string :=
  String.append "/" path.

(** Modelled from the spec: [_adb_process_file] of the extraction base
    ([AndroidExtraction], whose file is not part of the sources), the
    "check file exists, copy/stream file, parse" workflow: it copies the
    device file to a local path, raising the insufficient-privilege
    signal when the device refuses, and calls the routine on the copy. *)
Definition _adb_process_file (remote_path : string)
    (process_routine : string -> M unit) : M unit :=
  emit (EvCopyFile remote_path) ;;
  local_path <- lift (adb_copy_file E remote_path) ;;
  process_routine local_path.

(** [s.replace("\n", "\\n")]: every newline becomes a backslash and
    the letter n. *)
Fixpoint escape_newlines (s : string) : string :=
  match s with
  | EmptyString => EmptyString
  | String c rest =>
      if Ascii.eqb c "010"%char
      then String "092"%char (String "n"%char (escape_newlines rest))
      else String c (escape_newlines rest)
  end.

(** [record["body"].replace("\n", "\\n")]: a [str] has the method; the
    [replace] of [bytes] and of [datetime] refuse these arguments; the
    other values have no such method. *)
Definition replace_newlines (body : pyval) : result string :=
  match body with
  | PStr s => Ok (escape_newlines s)
  | PBytes _ | PDatetime _ => Raise TypeError
  | _ => Raise AttributeError
  end.

(** [f"{v}"]: a [str] is its own text; [format_other] is the text the
    interpreter gives the other values. *)
Definition py_format (format_other : pyval -> string) (v : pyval) : string :=
  match v with
  | PStr s => s
  | _ => format_other v
  end.

(** [serialize], lines 59-66, on an instance of [SMS] itself (the
    [module] entry is the name of the class). *)
Definition serialize (format_other : pyval -> string) (record : dict)
    : result dict :=
  raw_body <~ py_getitem (PDict record) "body" ;;
  body <~ replace_newlines raw_body ;;
  isodate <~ py_getitem (PDict record) "isodate" ;;
  direction <~ py_getitem (PDict record) "direction" ;;
  address <~ py_getitem (PDict record) "address" ;;
  Ok [("timestamp", isodate);
      ("module", PStr "SMS");
      ("event", PStr (String.append "sms_" (py_format format_other direction)));
      ("data",
       PStr (String.append (py_format format_other address)
               (String.append ": "
                  (String "034"%char
                     (String.append body (String "034"%char EmptyString))))))].

(** The loop of [check_indicators], lines 72-78, over [self.results];
    [check_domains] is the method of [self.indicators], [detected] is
    [self.detected]. *)
Fixpoint check_messages (check_domains : list string -> result bool)
    (messages detected : list sms_record) : list sms_record * result unit :=
  match messages with
  | [] => (detected, Ok tt)
  | message :: rest =>
      match dict_get message "body" with
      | None => check_messages check_domains rest detected
      | Some body =>
          match check_for_links E body with
          | Raise e => (detected, Raise e)
          | Ok message_links =>
              match check_domains message_links with
              | Raise e => (detected, Raise e)
              | Ok true => check_messages check_domains rest (detected ++ [message])
              | Ok false => check_messages check_domains rest detected
              end
          end
      end
  end.

(** [check_indicators], lines 68-78: [indicators] is [self.indicators],
    [None] when no indicators were loaded.  It gives [self.detected] as it
    leaves it, and how it ended. *)
Definition check_indicators
    (indicators : option (list string -> result bool))
    (messages detected : list sms_record) : list sms_record * result unit :=
  match indicators with
  | None => (detected, Ok tt)
  | Some check_domains => check_messages check_domains messages detected
  end.

(** [v == n] for an integer literal [n]. *)
Definition py_eq_int (v : pyval) (n : Z) : bool :=
  match v with
  | PInt k => k =? n
  | PBool c => (if c then 1 else 0) =? n
  | PFloat f => float_eq_int E f n
  | _ => false
  end.

(** Lines 97-99: [message[names[index]] = value] over [enumerate(item)]. *)
Fixpoint fill_message (names : list string) (index : nat) (item : list pyval)
    (message : dict) : result dict :=
  match item with
  | [] => Ok message
  | value :: rest =>
      match nth_error names index with
      | Some column => fill_message names (S index) rest (dict_set message column value)
      | None => Raise IndexError
      end
  end.

(** Lines 97-102: the record built from one row, before the filter. *)
Definition normalize_row (names : list string) (item : list pyval)
    : result sms_record :=
  message <~ fill_message names 0 item [] ;;
  incoming <~ py_getitem (PDict message) "incoming" ;;
  let message :=
    dict_set message "direction"
      (PStr (if py_eq_int incoming 1 then "received" else "sent")) in
  timestamp <~ py_getitem (PDict message) "timestamp" ;;
  isodate <~ convert_timestamp_to_iso E timestamp ;;
  Ok (dict_set message "isodate" isodate).

(** Lines 106 and 132-133:
    [check_for_links(message["body"]) or message["body"].strip() == ""]. *)
Definition links_or_empty (message : dict) : result bool :=
  body <~ py_getitem (PDict message) "body" ;;
  message_links <~ check_for_links E body ;;
  match message_links with
  | _ :: _ => Ok true
  | [] =>
      body <~ py_getitem (PDict message) "body" ;;
      strip_is_empty body
  end.

(** Lines 104-107 and 132-134: the filter and the append. *)
Definition append_if_kept (message : dict) : M unit :=
  keep <- lift (links_or_empty message) ;;
  if keep then append_result message else ret tt.

(** The body of the loop of [_parse_db], lines 97-107. *)
Definition parse_db_item (names : list string) (item : list pyval) : M unit :=
  message <- lift (normalize_row names item) ;;
  append_if_kept message.

(** [names = [description[0] for description in cur.description]] *)
Definition description_names (cur : cursor) : result (list string) :=
  match description cur with
  | Some names => Ok names
  | None => Raise TypeError
  end.

Definition _parse_db (db_path : string) : M unit :=
  conn <- lift (sqlite3_connect E db_path) ;;
  emit (EvConnect db_path) ;;
  db_type <- get_SMS_DB_TYPE ;;
  cur <- (if db_type =? 1 then
            emit (EvExecute SMS_BUGLE_QUERY) ;;
            lift (execute conn SMS_BUGLE_QUERY)
          else if db_type =? 2 then
            emit (EvExecute SMS_MMSMS_QUERY) ;;
            lift (execute conn SMS_MMSMS_QUERY)
          else ret fresh_cursor) ;;
  names <- lift (description_names cur) ;;
  for_each (fetched cur) (parse_db_item names) ;;
  match iteration_error cur with
  | Some e => raise e
  | None =>
      emit EvCursorClose ;;
      emit EvConnClose ;;
      log LvlInfo "Extracted a total of %d SMS messages containing links"
  end.

(** Lines 128-130: the record built from one message object of the
    backup, before the filter. *)
Definition normalize_backup_message (message : dict) : result sms_record :=
  date <~ py_getitem (PDict message) "date" ;;
  milliseconds <~ py_int (float_to_int E) date ;;
  seconds <~ int_truediv milliseconds 1000 ;;
  utc_timestamp <~ utcfromtimestamp E seconds ;;
  isodate <~ convert_timestamp_to_iso E (PDatetime utc_timestamp) ;;
  let message := dict_set message "isodate" isodate in
  date_sent <~ py_getitem (PDict message) "date_sent" ;;
  sent <~ py_int (float_to_int E) date_sent ;;
  Ok (dict_set message "direction"
        (PStr (if sent =? 0 then "received" else "sent"))).

(** The body of the inner loop of [_extract_sms_from_backup_tar], lines
    128-134.  Only a [dict] can be subscripted by ["date"]. *)
Definition parse_backup_message (item : pyval) : M unit :=
  match item with
  | PDict message =>
      message <- lift (normalize_backup_message message) ;;
      append_if_kept message
  | _ => raise TypeError
  end.

(** The body of the outer loop, lines 119-134. *)
Definition parse_backup_member (member : tar_member) : M unit :=
  if negb (endswith (name member) "_sms_backup") then ret tt
  else
    log LvlDebug "Extracting SMS messages from backup file %s" ;;
    raw <- lift (match content member with
                 | Some data => Ok data
                 | None => Raise AttributeError
                 end) ;;
    sms_part_zlib <- lift (zlib_decompress E raw) ;;
    json_data <- lift (json_loads E sms_part_zlib) ;;
    items <- lift (py_iter json_data) ;;
    for_each items parse_backup_message.

(** [tarfile_open] stands for [tarfile.open] followed by
    [tar.getmembers()]: nothing happens between the two. *)
Definition _extract_sms_from_backup_tar (tar_data : bytes) : M unit :=
  members <- lift (tarfile_open E tar_data) ;;
  for_each members parse_backup_member ;;
  log LvlInfo "Extracted a total of %d SMS messages containing links".

Definition backup_command : string :=
  "/system/bin/bu backup -nocompress com.android.providers.telephony | base64".

(** The text of the warning of line 145: it ends in a space and the BEL
    character, written [\a] in the source. *)
Definition backup_prompt_text : string :=
  String.append
    "Please check phone and accept Android backup prompt. Do not set an encryption password. "
    (String "007"%char EmptyString).

(** Line 155: [encryption != b"none" or int(is_compressed)]. *)
Definition encrypted_or_compressed (encryption is_compressed : bytes)
    : result bool :=
  if negb (bytes_eqb encryption (b "none")) then Ok true
  else
    n <~ int_of_bytes is_compressed ;;
    Ok (negb (n =? 0)).

Definition _extract_sms_adb : M unit :=
  log LvlWarning backup_prompt_text ;;
  emit (EvShell backup_command) ;;
  backup_output_b64 <- lift (_adb_command E backup_command) ;;
  backup_output <- lift (b64decode E backup_output_b64) ;;
  if negb (startswith backup_output (b "ANDROID BACKUP")) then
    log LvlError
      "Extracting SMS via Android backup failed. No valid backup data found."
  else
    match bytes_split backup_output x0a 4 with
    | [magic_header; version; is_compressed; encryption; tar_data] =>
        unsupported <- lift (encrypted_or_compressed encryption is_compressed) ;;
        if unsupported then
          log LvlError
            "The backup is encrypted or compressed and cannot be parsed. [version: %s, encryption: %s, compression: %s]"
        else _extract_sms_from_backup_tar tar_data
    | _ => raise ValueError
    end.

(** The body of the [try] of [run], lines 164-170. *)
Definition direct_access : M unit :=
  emit (EvCheckFile (os_path_join_root SMS_BUGLE_PATH)) ;;
  found <- lift (_adb_check_file_exists E (os_path_join_root SMS_BUGLE_PATH)) ;;
  if found then
    set_SMS_DB_TYPE 1 ;;
    _adb_process_file (os_path_join_root SMS_BUGLE_PATH) _parse_db
  else
    emit (EvCheckFile (os_path_join_root SMS_MMSSMS_PATH)) ;;
    found <- lift (_adb_check_file_exists E (os_path_join_root SMS_MMSSMS_PATH)) ;;
    if found then
      set_SMS_DB_TYPE 2 ;;
      _adb_process_file (os_path_join_root SMS_MMSSMS_PATH) _parse_db
    else ret tt.

Definition run : M unit :=
  try_except_privileges direct_access
    (log LvlWarning
       "No SMS database found. Trying extraction of SMS data using Android backup feature." ;;
     _extract_sms_adb).

End Methods.
End SMS.

(** The paths [run] probes. *)
Definition bugle_path : string := SMS.os_path_join_root SMS_BUGLE_PATH.
Definition mmssms_path : string := SMS.os_path_join_root SMS_MMSSMS_PATH.

(** ** Instances and the default accumulator *)

(** [self.results] is a reference to a list object.  List objects live in
    a store; [run] on an instance works on the list its reference names. *)
Module Instances.

Definition ref := nat.
Definition store := list (list sms_record).

(** The list that [results=[]] in the signature of [__init__] denotes:
    one object, made when the [def] is evaluated. *)
Definition default_results : ref := 0%nat.

(** The store when the module has been imported. *)
Definition initial_store : store := [[]].

Record instance : Type := mkInstance {
  results_ref : ref;
  db_type : option Z
}.

Definition deref (h : store) (r : ref) : list sms_record := nth r h [].

Fixpoint assign (h : store) (r : ref) (l : list sms_record) : store :=
  match h, r with
  | [], _ => []
  | _ :: rest, O => l :: rest
  | x :: rest, S r' => x :: assign rest r' l
  end.

(** Modelled from the spec: the constructor of the module base class
    ([mvt.common.module], whose file is not part of the sources) gives the
    instance "the single result accumulator owned by the run",
    [self.results = results if results else []]: the list it is handed
    when that list holds something, a new empty list otherwise.  The
    default list of [__init__] is empty, so an instance made with the
    default arguments starts a list of its own and the default list is
    never appended to. *)
Definition base_init (h : store) (results : ref) : store * instance :=
  match deref h results with
  | _ :: _ => (h, mkInstance results None)
  | [] => (h ++ [[]], mkInstance (List.length h) None)
  end.

(** [SMS.__init__], lines 53-57; [None] is a call that leaves [results]
    out. *)
Definition __init__ (h : store) (results : option ref) : store * instance :=
  base_init h (match results with
               | Some r => r
               | None => default_results
               end).

(** [self.run()] *)
Definition run (E : Externals) (self : instance) (h : store)
    : store * instance * result unit :=
  let o := SMS.run E (mkState (deref h (results_ref self)) (db_type self)) in
  (assign h (results_ref self) (results (final o)),
   mkInstance (results_ref self) (SMS_DB_TYPE (final o)),
   value o).

(** [self.results] as a caller reads it. *)
Definition output (h : store) (self : instance) : list sms_record :=
  deref h (results_ref self).

(** [a = SMS(); b = SMS(); a.run(); b.run()]: the store when both runs
    have ended, and the two instances. *)
Definition made_then_run (E : Externals) : store * instance * instance :=
  let '(h, a) := __init__ initial_store None in
  let '(h, b) := __init__ h None in
  let '(h, a, _) := run E a h in
  let '(h, b, _) := run E b h in
  (h, a, b).

(** [a = SMS(); a.run(); b = SMS(); b.run()] *)
Definition made_and_run_in_turn (E : Externals) : store * instance * instance :=
  let '(h, a) := __init__ initial_store None in
  let '(h, a, _) := run E a h in
  let '(h, b) := __init__ h None in
  let '(h, b, _) := run E b h in
  (h, a, b).

(** [(a.results, b.results)] at the end. *)
Definition outputs (at_end : store * instance * instance)
    : list sms_record * list sms_record :=
  let '(h, a, b) := at_end in (output h a, output h b).


End Instances.

(** ** A concrete device, for examples *)

Module Sample.

(** A stand-in for the link detector: a text that mentions an http or
    https URL is its own link. *)
Definition find_links (v : pyval) : result (list string) :=
  match v with
  | PStr s =>
      match index 0 "http://" s, index 0 "https://" s with
      | None, None => Ok []
      | _, _ => Ok [s]
      end
  | _ => Raise TypeError
  end.

(** A stand-in for the timestamp converter: it formats a [datetime] and
    gives [None] for every other value, the integer of a store column
    included. *)
Definition to_iso (v : pyval) : result pyval :=
  match v with
  | PDatetime _ => Ok (PStr "2022-02-23 12:00:00.000000")
  | _ => Ok PNone
  end.

Definition b64_value (c : ascii) : option N :=
  let n := N_of_ascii c in
  if ((65 <=? n) && (n <=? 90))%N then Some (n - 65)%N
  else if ((97 <=? n) && (n <=? 122))%N then Some (n - 71)%N
  else if ((48 <=? n) && (n <=? 57))%N then Some (n + 4)%N
  else if (n =? 43)%N then Some 62%N
  else if (n =? 47)%N then Some 63%N
  else None.

Definition byte_of_N (n : N) : byte :=
  match Byte.of_N (n mod 256) with
  | Some x => x
  | None => x00
  end.

Fixpoint b64_groups (l : list ascii) : result bytes :=
  match l with
  | [] => Ok []
  | c1 :: c2 :: c3 :: c4 :: rest =>
      match b64_value c1, b64_value c2 with
      | Some v1, Some v2 =>
          let b1 := byte_of_N (v1 * 4 + v2 / 16) in
          match b64_value c3, b64_value c4 with
          | Some v3, Some v4 =>
              tail <~ b64_groups rest ;;
              Ok (b1 :: byte_of_N (v2 * 16 + v3 / 4)
                     :: byte_of_N (v3 * 64 + v4) :: tail)
          | Some v3, None =>
              match rest with
              | [] => if Ascii.eqb c4 "=" then
                        Ok [b1; byte_of_N (v2 * 16 + v3 / 4)]
                      else Raise BinasciiError
              | _ => Raise BinasciiError
              end
          | None, _ =>
              match rest with
              | [] => if Ascii.eqb c3 "=" && Ascii.eqb c4 "=" then Ok [b1]
                      else Raise BinasciiError
              | _ => Raise BinasciiError
              end
          end
      | _, _ => Raise BinasciiError
      end
  | _ => Raise BinasciiError
  end.

(** Base64 decoding of padded input; characters outside the alphabet
    are skipped. *)
Definition b64decode (s : string) : result bytes :=
  b64_groups
    (filter (fun c => match b64_value c with
                      | Some _ => true
                      | None => Ascii.eqb c "="
                      end)
            (list_ascii_of_string s)).

Definition trunc (f : pyfloat) : result Z :=
  match f with
  | FloatQuot n d => if d =? 0 then Raise ValueError else Ok (Z.quot n d)
  | FloatLit _ => Raise ValueError
  end.

Definition float_is (f : pyfloat) (k : Z) : bool :=
  match f with
  | FloatQuot n d => negb (d =? 0) && (n =? k * d)
  | FloatLit _ => false
  end.

(** A device is given by what its collaborators answer. *)
Definition device
    (exists_on_device : string -> result bool)
    (copy : string -> result string)
    (connect : string -> result database)
    (shell : string -> result string)
    (untar : bytes -> result (list tar_member))
    (inflate : bytes -> result bytes)
    (loads : bytes -> result pyval) : Externals :=
  mkExternals find_links to_iso exists_on_device copy shell connect
    b64decode untar inflate loads
    (fun t => Ok (UtcFromTimestamp t)) trunc float_is.

End Sample.

(** ** Devices used in the examples *)

Module Fixtures.

Definition local_copy : string := "/tmp/mvt/sms.db".

Definition unused {A} : result A := Raise (OtherError "not reached").

(** A device that grants direct access and holds one store, at [path]. *)
Definition rooted (path : string) (db : database) : Externals :=
  Sample.device
    (fun p => Ok (String.eqb p path))
    (fun _ => Ok local_copy)
    (fun _ => Ok db)
    (fun _ => unused) (fun _ => unused) (fun _ => unused) (fun _ => unused).

(** A bugle_db with one conversation: participant 1 has contact_id -1
    and sends message 100 to participant 2. *)
Definition chat : Sql.bugle_tables :=
  Sql.mkBugle
    [Sql.mkMessage (Some 100) (Some 10) (Some 1)]
    [Sql.mkConversation (Some 10)]
    [Sql.mkPart (Some 100) (PInt 1645617600000) (PStr "click http://evil.example")]
    [Sql.mkParticipant (Some 1) (PStr "+15550001") (Some (-1));
     Sql.mkParticipant (Some 2) (PStr "+15550002") (Some 7)]
    [Sql.mkConversationParticipant (Some 10) (Some 2)].

Definition chat_message : Sql.message_row := Sql.mkMessage (Some 100) (Some 10) (Some 1).
Definition chat_part : Sql.part_row :=
  Sql.mkPart (Some 100) (PInt 1645617600000) (PStr "click http://evil.example").
Definition chat_peer : Sql.participant_row :=
  Sql.mkParticipant (Some 2) (PStr "+15550002") (Some 7).

Definition chat_device : Externals := rooted bugle_path (Sql.bugle_db chat).

(** The record the chat row becomes. *)
Definition chat_record : sms_record :=
  [("address", PStr "+15550002");
   ("timestamp", PInt 1645617600000);
   ("incoming", PInt 2);
   ("body", PStr "click http://evil.example");
   ("direction", PStr "sent");
   ("isodate", PNone)].

(** An mmssms.db with one received message that carries a link. *)
Definition inbox : list Sql.sms_row :=
  [Sql.mkSms (PStr "+1555") (PInt 0) (PInt 1) (PStr "click http://evil.example")].

Definition inbox_device : Externals := rooted mmssms_path (Sql.mmssms_db inbox).

Definition inbox_record : sms_record :=
  [("address", PStr "+1555");
   ("timestamp", PInt 0);
   ("incoming", PInt 1);
   ("body", PStr "click http://evil.example");
   ("direction", PStr "received");
   ("isodate", PNone)].

(** An mmssms.db whose only row has a NULL body. *)
Definition null_body_row : list pyval := [PStr "+1555"; PInt 0; PInt 1; PNone].

Definition null_body_record : sms_record :=
  [("address", PStr "+1555");
   ("timestamp", PInt 0);
   ("incoming", PInt 1);
   ("body", PNone);
   ("direction", PStr "received");
   ("isodate", PNone)].

Definition null_body_device : Externals :=
  rooted mmssms_path
    (Sql.mmssms_db [Sql.mkSms (PStr "+1555") (PInt 0) (PInt 1) PNone]).

(** The archive of a backup: the bytes [TAR] stand for a tar archive with
    one SMS member, [ZLIB] for its deflated content, a list of one
    message. *)
Definition sms_member : tar_member :=
  mkMember "apps/com.android.providers.telephony/d_f/000000_sms_backup"
           (Some (b "ZLIB")).

Definition untar (data : bytes) : result (list tar_member) :=
  if bytes_eqb data (b "TAR") then Ok [sms_member] else Raise TarReadError.

Definition inflate (data : bytes) : result bytes :=
  if bytes_eqb data (b "ZLIB") then Ok (b "JSON") else Raise ZlibError.

Definition backup_message : dict :=
  [("address", PStr "+1555");
   ("body", PStr "click http://evil.example");
   ("date", PStr "1645617600000");
   ("date_sent", PStr "0")].

(** The record the backup message becomes. *)
Definition backup_record : sms_record :=
  [("address", PStr "+1555");
   ("body", PStr "click http://evil.example");
   ("date", PStr "1645617600000");
   ("date_sent", PStr "0");
   ("isodate", PStr "2022-02-23 12:00:00.000000");
   ("direction", PStr "received")].

Definition loads (data : bytes) : result pyval :=
  if bytes_eqb data (b "JSON") then Ok (PList [PDict backup_message])
  else Raise JSONDecodeError.

(** A device that refuses direct access; its backup command prints
    [backup_b64]. *)
Definition locked (backup_b64 : string) : Externals :=
  Sample.device
    (fun _ => Raise InsufficientPrivileges)
    (fun _ => Raise InsufficientPrivileges)
    (fun _ => unused)
    (fun _ => Ok backup_b64)
    untar inflate loads.

(** The base64 text of some backup streams. *)
Definition stream_with_archive : string :=       (* ANDROID BACKUP\n5\n0\nnone\nTAR *)
  "QU5EUk9JRCBCQUNLVVAKNQowCm5vbmUKVEFS".
Definition stream_with_empty_archive : string := (* ANDROID BACKUP\n5\n0\nnone\n *)
  "QU5EUk9JRCBCQUNLVVAKNQowCm5vbmUK".
Definition stream_compressed_x : string :=       (* ANDROID BACKUP\n5\nx\nnone\nTAR *)
  "QU5EUk9JRCBCQUNLVVAKNQp4Cm5vbmUKVEFS".
Definition stream_compressed_00 : string :=      (* ANDROID BACKUP\n5\n00\nnone\nTAR *)
  "QU5EUk9JRCBCQUNLVVAKNQowMApub25lClRBUg==".
Definition stream_encrypted : string :=          (* ANDROID BACKUP\n5\n0\nAES-256\nTAR *)
  "QU5EUk9JRCBCQUNLVVAKNQowCkFFUy0yNTYKVEFS".
Definition stream_compressed_1 : string :=       (* ANDROID BACKUP\n5\n1\nnone\nTAR *)
  "QU5EUk9JRCBCQUNLVVAKNQoxCm5vbmUKVEFS".
Definition stream_not_a_backup : string :=       (* NOT A BACKUP\n *)
  "Tk9UIEEgQkFDS1VQCg==".

Definition locked_with_archive : Externals := locked stream_with_archive.

(** A fresh instance state: no results, [SMS_DB_TYPE] not set. *)
Definition fresh : state := mkState [] None.

End Fixtures.

(** ** The vocabulary of the properties *)

(** The retention policy in the words of the specification: the link
    detector finds a link in the body, or the body, trimmed of whitespace,
    is empty. *)
Definition finds_link (E : Externals) (body : pyval) : bool :=
  match check_for_links E body with
  | Ok (_ :: _) => true
  | _ => false
  end.

Definition empty_after_trim (body : pyval) : bool :=
  match body with
  | PStr s => String.eqb (str_strip s) ""
  | _ => false
  end.

Definition retain (E : Externals) (body : pyval) : bool :=
  finds_link E body || empty_after_trim body.

(** A record that the policy retains. *)
Definition retained (E : Externals) (m : sms_record) : Prop :=
  exists body, dict_get m "body" = Some body /\ retain E body = true.

(** The result list after a row, by the policy: the record is appended
    when its body is retained, and only then.  A row on which the
    normalization or the detector raises appends nothing. *)
Definition results_after (E : Externals) (before : list sms_record)
    (normalized : result sms_record) : list sms_record :=
  match normalized with
  | Ok m =>
      match dict_get m "body" with
      | Some body =>
          match check_for_links E body with
          | Ok _ => if retain E body then before ++ [m] else before
          | Raise _ => before
          end
      | None => before
      end
  | Raise _ => before
  end.

(** A computation respects an invariant [T] of [SMS_DB_TYPE], emits only
    events in [P], and only appends records in [Q] to the results. *)
Definition respects (T : option Z -> Prop) (P : event -> Prop)
    (Q : sms_record -> Prop) {A} (m : M A) : Prop :=
  forall st, T (SMS_DB_TYPE st) ->
    T (SMS_DB_TYPE (final (m st))) /\
    Forall P (emitted (m st)) /\
    exists new, results (final (m st)) = results st ++ new /\ Forall Q new.

(** An event other than a probe of the device and a query. *)
Definition routine (ev : event) : Prop :=
  match ev with
  | EvCheckFile _ | EvExecute _ => False
  | _ => True
  end.

(** An outcome after the events [evs]. *)
Definition prepend {A} (evs : list event) (o : outcome A) : outcome A :=
  mkOutcome (final o) (evs ++ emitted o) (value o).

(** Events that are not a probe; events whose queries, if any, are [q]. *)
Definition no_probe (ev : event) : Prop :=
  match ev with
  | EvCheckFile _ => False
  | _ => True
  end.

Definition queries_only (q : string) (ev : event) : Prop :=
  match ev with
  | EvCheckFile _ => False
  | EvExecute q' => q' = q
  | _ => True
  end.

(** What [run] does after the [except] clause, lines 174-175. *)
Definition backup_fallback (E : Externals) : M unit :=
  log LvlWarning
    "No SMS database found. Trying extraction of SMS data using Android backup feature." ;;
  SMS._extract_sms_adb E.

(** The line both extraction paths log when they are done. *)
Definition rows_extracted : event :=
  EvLog LvlInfo "Extracted a total of %d SMS messages containing links".

(** The two errors the container checks log. *)
Definition no_valid_backup : event :=
  EvLog LvlError
    "Extracting SMS via Android backup failed. No valid backup data found.".

Definition unsupported_backup : event :=
  EvLog LvlError
    "The backup is encrypted or compressed and cannot be parsed. [version: %s, encryption: %s, compression: %s]".

(** The line logged for each SMS member of the archive. *)
Definition extracting_member : event :=
  EvLog LvlDebug "Extracting SMS messages from backup file %s".

(** The two warnings on the way to the backup. *)
Definition fallback_warning : event :=
  EvLog LvlWarning
    "No SMS database found. Trying extraction of SMS data using Android backup feature.".

Definition backup_prompt : event :=
  EvLog LvlWarning SMS.backup_prompt_text.

(** The connections that a sequence of events leaves open. *)
Definition open_connections (evs : list event) : nat :=
  fold_left (fun n ev =>
               match ev with
               | EvConnect _ => S n
               | EvConnClose => pred n
               | _ => n
               end) evs 0%nat.

(** A computation that returned to its caller without an exception. *)
Definition completes {A} (o : outcome A) : Prop :=
  exists a, value o = Ok a.

(** The header of a backup stream that the container checks let through:
    the magic literal, five fields, no encryption, a compression flag that
    reads as zero. *)
Definition accepted_container (stream tar_data : bytes) : Prop :=
  startswith stream (b "ANDROID BACKUP") = true /\
  exists magic_header version is_compressed,
    bytes_split stream x0a 4 =
      [magic_header; version; is_compressed; b "none"; tar_data] /\
    int_of_bytes is_compressed = Ok 0.

(** The payload of a backup fails to decode with [e]: it is not a tar
    archive, or the first SMS member of the archive is not a DEFLATE
    stream, or inflates to malformed JSON. *)
Inductive decode_failure (E : Externals) (tar_data : bytes) (e : exn) : Prop :=
| invalid_tar :
    tarfile_open E tar_data = Raise e ->
    decode_failure E tar_data e
| not_deflate (skipped rest : list tar_member) (member : tar_member) (raw : bytes) :
    tarfile_open E tar_data = Ok (skipped ++ member :: rest) ->
    Forall (fun m => endswith (name m) "_sms_backup" = false) skipped ->
    endswith (name member) "_sms_backup" = true ->
    content member = Some raw ->
    zlib_decompress E raw = Raise e ->
    decode_failure E tar_data e
| malformed_json (skipped rest : list tar_member) (member : tar_member)
    (raw text : bytes) :
    tarfile_open E tar_data = Ok (skipped ++ member :: rest) ->
    Forall (fun m => endswith (name m) "_sms_backup" = false) skipped ->
    endswith (name member) "_sms_backup" = true ->
    content member = Some raw ->
    zlib_decompress E raw = Ok text ->
    json_loads E text = Raise e ->
    decode_failure E tar_data e.

(** [sep.join(fields)] *)
Definition bytes_join (sep : byte) (fields : list bytes) : bytes :=
  match fields with
  | [] => []
  | first :: rest => first ++ flat_map (fun field => sep :: field) rest
  end.

(** The occurrences of a byte. *)
Definition count_byte (x : byte) (s : bytes) : nat :=
  List.length (filter (byte_eqb x) s).

(** A record as the two normalizations leave it: built from a row or from
    a message object of the backup, and let through by the filter. *)
Definition produced (E : Externals) (m : sms_record) : Prop :=
  ((exists names item, SMS.normalize_row E names item = Ok m) \/
   (exists d, SMS.normalize_backup_message E d = Ok m)) /\
  SMS.links_or_empty E m = Ok true.

(** The events of the direct-access path on the store. *)
Definition store_event (ev : event) : Prop :=
  match ev with
  | EvCopyFile _ | EvConnect _ | EvExecute _ | EvCursorClose | EvConnClose => True
  | _ => False
  end.

(** Events that send the device nothing but the backup command. *)
Definition backup_command_only (ev : event) : Prop :=
  match ev with
  | EvShell command => command = SMS.backup_command
  | _ => True
  end.

(** Events that send the device no command. *)
Definition no_command (ev : event) : Prop :=
  match ev with
  | EvShell _ => False
  | _ => True
  end.


(** The records of the rows that the filter keeps, in the order of the
    rows. *)
Definition kept_rows (E : Externals) (names : list string)
    (rows : list (list pyval)) : list sms_record :=
  flat_map (fun item => results_after E [] (SMS.normalize_row E names item)) rows.

(** A message that [check_indicators] flags: it has a body, the detector
    gives its links, and the indicators match them. *)
Definition flagged (E : Externals) (check_domains : list string -> result bool)
    (m : sms_record) : Prop :=
  exists body links,
    dict_get m "body" = Some body /\
    check_for_links E body = Ok links /\
    check_domains links = Ok true.

Definition flaggedb (E : Externals) (check_domains : list string -> result bool)
    (m : sms_record) : bool :=
  match dict_get m "body" with
  | Some body =>
      match check_for_links E body with
      | Ok links =>
          match check_domains links with
          | Ok true => true
          | _ => false
          end
      | Raise _ => false
      end
  | None => false
  end.

(** * Properties *)

(** ** Dictionaries *)

Lemma dict_get_set_same (d : dict) (k : string) (v : pyval) :
  dict_get (dict_set d k v) k = Some v.
Proof.
  induction d as [|[k' v'] d IH]; simpl.
  - now rewrite String.eqb_refl.
  - destruct (String.eqb k' k) eqn:Hk; simpl; rewrite Hk; auto.
Qed.

Lemma dict_get_set_other (d : dict) (k k' : string) (v : pyval) :
  k <> k' -> dict_get (dict_set d k v) k' = dict_get d k'.
Proof.
  intros Hne.
  induction d as [|[k0 v0] d IH]; simpl.
  - destruct (String.eqb_spec k k'); congruence.
  - destruct (String.eqb_spec k0 k) as [->|Hk]; simpl.
    + destruct (String.eqb_spec k k'); congruence.
    + now rewrite IH.
Qed.

(** ** Reasoning about computations *)

Lemma bind_raise {A B} (m : M A) (k : A -> M B) (st : state) (e : exn) :
  value (m st) = Raise e ->
  bind m k st = mkOutcome (final (m st)) (emitted (m st)) (Raise e).
Proof. intros H. unfold bind. now rewrite H. Qed.

(** One step of a computation, as an equation. *)

Lemma emit_bind {B} (ev : event) (k : M B) (st : state) :
  (emit ev ;; k) st =
  mkOutcome (final (k st)) (ev :: emitted (k st)) (value (k st)).
Proof. unfold bind, emit; simpl. reflexivity. Qed.

Lemma lift_ok_bind {A B} (a : A) (k : A -> M B) (st : state) :
  (x <- lift (Ok a) ;; k x) st = k a st.
Proof. unfold bind, lift; simpl. now destruct (k a st). Qed.

Lemma lift_raise_bind {A B} (e : exn) (k : A -> M B) (st : state) :
  (x <- lift (Raise e) ;; k x) st = mkOutcome st [] (Raise e).
Proof. reflexivity. Qed.

Lemma set_bind {B} (n : Z) (k : M B) (st : state) :
  (set_SMS_DB_TYPE n ;; k) st = k (mkState (results st) (Some n)).
Proof.
  unfold bind, set_SMS_DB_TYPE; simpl.
  now destruct (k (mkState (results st) (Some n))).
Qed.

Lemma ret_bind {A B} (a : A) (k : A -> M B) (st : state) :
  (x <- ret a ;; k x) st = k a st.
Proof. exact (lift_ok_bind a k st). Qed.

Lemma get_bind {B} (k : Z -> M B) (st : state) :
  (n <- get_SMS_DB_TYPE ;; k n) st =
  match SMS_DB_TYPE st with
  | Some n => k n st
  | None => mkOutcome st [] (Raise AttributeError)
  end.
Proof.
  unfold bind, get_SMS_DB_TYPE; cbn [value final emitted].
  destruct (SMS_DB_TYPE st) as [n|]; auto.
  now destruct (k n st).
Qed.

Lemma bind_assoc {A B C} (m : M A) (k : A -> M B) (h : B -> M C) (st : state) :
  (y <- (x <- m ;; k x) ;; h y) st = (x <- m ;; y <- k x ;; h y) st.
Proof.
  unfold bind. destruct (value (m st)) as [a|e]; cbn [value final emitted]; auto.
  destruct (value (k a (final (m st)))) as [c|e]; cbn [value final emitted]; auto.
  now rewrite app_assoc.
Qed.

Lemma silent_bind {B} (m : M unit) (k : M B) (st : state) :
  emitted (m st) = [] ->
  (m ;; k) st =
  match value (m st) with
  | Ok _ => k (final (m st))
  | Raise e => mkOutcome (final (m st)) [] (Raise e)
  end.
Proof.
  intros Hsilent. unfold bind. rewrite Hsilent.
  destruct (value (m st)); auto.
  now destruct (k (final (m st))).
Qed.

Lemma Forall_False_nil {A} (l : list A) : Forall (fun _ => False) l -> l = [].
Proof. destruct l; auto. intros H. inversion H. contradiction. Qed.

(** ** The invariant of the methods *)

Section Respects.

Variable T : option Z -> Prop.
Variable P : event -> Prop.
Variable Q : sms_record -> Prop.

Lemma respects_pure {A} (r : result A) : respects T P Q (lift r).
Proof.
  intros st HT; simpl. repeat split; auto.
  exists []. now rewrite app_nil_r.
Qed.

Lemma respects_ret {A} (a : A) : respects T P Q (ret a).
Proof. exact (respects_pure (Ok a)). Qed.

Lemma respects_raise {A} (e : exn) : respects T P Q (@raise A e).
Proof. exact (respects_pure (Raise e)). Qed.

Lemma respects_emit (ev : event) : P ev -> respects T P Q (emit ev).
Proof.
  intros HP st HT; simpl. repeat split; auto.
  exists []. now rewrite app_nil_r.
Qed.

Lemma respects_append (m : sms_record) : Q m -> respects T P Q (append_result m).
Proof.
  intros HQ st HT; simpl. repeat split; auto.
  exists [m]. auto.
Qed.

Lemma respects_bind {A B} (m : M A) (k : A -> M B) :
  respects T P Q m -> (forall a, respects T P Q (k a)) -> respects T P Q (bind m k).
Proof.
  intros Hm Hk st HT.
  destruct (Hm st HT) as (HT1 & HP1 & new1 & Hr1 & HQ1).
  unfold bind. destruct (value (m st)) as [a|e] eqn:Hv; simpl.
  - destruct (Hk a (final (m st)) HT1) as (HT2 & HP2 & new2 & Hr2 & HQ2).
    repeat split; auto.
    + apply Forall_app; auto.
    + exists (new1 ++ new2). rewrite Hr2, Hr1, app_assoc. split; auto.
      apply Forall_app; auto.
  - repeat split; auto. exists new1; auto.
Qed.

Lemma respects_get (k : Z -> M unit) :
  (forall n, T (Some n) -> respects T P Q (k n)) -> respects T P Q (bind get_SMS_DB_TYPE k).
Proof.
  intros Hk st HT. unfold bind, get_SMS_DB_TYPE; simpl.
  destruct (SMS_DB_TYPE st) as [n|] eqn:Hty; simpl.
  - assert (HTst : T (SMS_DB_TYPE st)) by (rewrite Hty; exact HT).
    destruct (Hk n HT st HTst) as (HT2 & HP2 & new2 & Hr2 & HQ2).
    repeat split; eauto.
  - split; [rewrite Hty; exact HT|]. split; [constructor|].
    exists []. now rewrite app_nil_r.
Qed.

Lemma respects_set (n : Z) : T (Some n) -> respects T P Q (set_SMS_DB_TYPE n).
Proof.
  intros HTn st HT; simpl. repeat split; auto.
  exists []. now rewrite app_nil_r.
Qed.

Lemma respects_for_each {A} (l : list A) (body : A -> M unit) :
  (forall x, respects T P Q (body x)) -> respects T P Q (for_each l body).
Proof.
  intros Hbody. induction l as [|x l IH]; simpl.
  - apply respects_ret.
  - apply respects_bind; auto.
Qed.

Lemma respects_try (m after : M unit) :
  respects T P Q m -> respects T P Q after -> respects T P Q (try_except_privileges m after).
Proof.
  intros Hm Ha st HT.
  destruct (Hm st HT) as (HT1 & HP1 & new1 & Hr1 & HQ1).
  unfold try_except_privileges.
  destruct (value (m st)) as [a|e] eqn:Hv; [repeat split; eauto|].
  destruct e; try (repeat split; eauto; fail).
  destruct (Ha (final (m st)) HT1) as (HT2 & HP2 & new2 & Hr2 & HQ2); simpl.
  repeat split; auto.
  - apply Forall_app; auto.
  - exists (new1 ++ new2). rewrite Hr2, Hr1, app_assoc. split; auto.
    apply Forall_app; auto.
Qed.

End Respects.

(** ** The retention filter *)

(** The condition of the code is the policy. *)
Lemma links_or_empty_retain (E : Externals) (m : sms_record) (body : pyval) :
  dict_get m "body" = Some body ->
  match check_for_links E body with
  | Ok _ =>
      match SMS.links_or_empty E m with
      | Ok keep => keep = retain E body
      | Raise _ => retain E body = false
      end
  | Raise e => SMS.links_or_empty E m = Raise e
  end.
Proof.
  intros Hbody. unfold SMS.links_or_empty, retain, finds_link; simpl.
  rewrite Hbody; simpl.
  destruct (check_for_links E body) as [[|l ls]|e]; simpl; auto.
  destruct body; simpl; auto.
Qed.

Lemma links_or_empty_true (E : Externals) (m : sms_record) :
  SMS.links_or_empty E m = Ok true -> retained E m.
Proof.
  intros Hkeep. unfold retained.
  destruct (dict_get m "body") as [body|] eqn:Hbody.
  - exists body. split; auto.
    pose proof (links_or_empty_retain E m body Hbody) as H.
    destruct (check_for_links E body); rewrite Hkeep in H; congruence.
  - unfold SMS.links_or_empty in Hkeep; simpl in Hkeep.
    rewrite Hbody in Hkeep. discriminate.
Qed.

Lemma append_if_kept_results (E : Externals) (m : sms_record) (st : state) :
  results (final (SMS.append_if_kept E m st)) = results_after E (results st) (Ok m).
Proof.
  unfold SMS.append_if_kept, results_after, bind, lift; simpl.
  destruct (dict_get m "body") as [body|] eqn:Hbody.
  - pose proof (links_or_empty_retain E m body Hbody) as H.
    destruct (check_for_links E body) as [links|e].
    + destruct (SMS.links_or_empty E m) as [keep|e']; simpl.
      * subst keep. destruct (retain E body); reflexivity.
      * now rewrite H.
    + now rewrite H.
  - unfold SMS.links_or_empty; simpl. now rewrite Hbody.
Qed.

Lemma parse_db_item_results (E : Externals) (names : list string)
    (item : list pyval) (st : state) :
  results (final (SMS.parse_db_item E names item st)) =
  results_after E (results st) (SMS.normalize_row E names item).
Proof.
  unfold SMS.parse_db_item, bind, lift; simpl.
  destruct (SMS.normalize_row E names item) as [m|e]; simpl; auto.
  apply append_if_kept_results.
Qed.

Lemma parse_backup_message_results (E : Externals) (item : pyval) (st : state) :
  results (final (SMS.parse_backup_message E item st)) =
  match item with
  | PDict d => results_after E (results st) (SMS.normalize_backup_message E d)
  | _ => results st
  end.
Proof.
  destruct item; try reflexivity.
  unfold SMS.parse_backup_message, bind, lift; simpl.
  destruct (SMS.normalize_backup_message E d) as [m|e]; simpl; auto.
  apply append_if_kept_results.
Qed.

(** ** What the methods preserve *)

(** Every method below [run] keeps [SMS_DB_TYPE] as it is, executes the
    query that [SMS_DB_TYPE] selects and no other, and appends retained
    records only. *)
Section MethodsRespect.

Variable E : Externals.
Variable T : option Z -> Prop.
Variable P : event -> Prop.

Hypothesis P_routine : forall ev, routine ev -> P ev.
Hypothesis P_bugle : T (Some 1) -> P (EvExecute SMS_BUGLE_QUERY).
Hypothesis P_mmssms : T (Some 2) -> P (EvExecute SMS_MMSMS_QUERY).

Local Abbreviation ok m := (respects T P (retained E) m).

Ltac routine_step :=
  lazymatch goal with
  | |- forall _, _ => intro
  | |- respects _ _ _ (bind _ _) => apply respects_bind
  | |- respects _ _ _ (lift _) => apply respects_pure
  | |- respects _ _ _ (ret _) => apply respects_ret
  | |- respects _ _ _ (raise _) => apply respects_raise
  | |- respects _ _ _ (for_each _ _) => apply respects_for_each
  | |- respects _ _ _ (emit _) => apply respects_emit; apply P_routine; exact I
  end.

Ltac routine_steps := repeat routine_step.

Lemma append_if_kept_respects (m : sms_record) : ok (SMS.append_if_kept E m).
Proof.
  intros st HT. unfold SMS.append_if_kept, bind, lift; simpl.
  destruct (SMS.links_or_empty E m) as [[|]|e] eqn:Hkeep; simpl;
    repeat split; auto.
  - exists [m]. split; auto. constructor; auto.
    now apply links_or_empty_true.
  - exists []. now rewrite app_nil_r.
  - exists []. now rewrite app_nil_r.
Qed.

Lemma parse_db_item_respects (names : list string) (item : list pyval) :
  ok (SMS.parse_db_item E names item).
Proof.
  unfold SMS.parse_db_item. apply respects_bind; [apply respects_pure|].
  intro m. apply append_if_kept_respects.
Qed.

Lemma parse_backup_message_respects (item : pyval) :
  ok (SMS.parse_backup_message E item).
Proof.
  unfold SMS.parse_backup_message.
  destruct item; try apply respects_raise.
  apply respects_bind; [apply respects_pure|].
  intro m. apply append_if_kept_respects.
Qed.

Lemma parse_backup_member_respects (member : tar_member) :
  ok (SMS.parse_backup_member E member).
Proof.
  unfold SMS.parse_backup_member, log.
  destruct (negb (endswith (name member) "_sms_backup")).
  - apply respects_ret.
  - routine_steps. apply parse_backup_message_respects.
Qed.

Lemma _extract_sms_from_backup_tar_respects (tar_data : bytes) :
  ok (SMS._extract_sms_from_backup_tar E tar_data).
Proof.
  unfold SMS._extract_sms_from_backup_tar, log.
  routine_steps. apply parse_backup_member_respects.
Qed.

Lemma _extract_sms_adb_respects : ok (SMS._extract_sms_adb E).
Proof.
  unfold SMS._extract_sms_adb, log.
  routine_steps.
  destruct (negb (startswith _ _)); [routine_steps|].
  destruct (bytes_split _ _ _) as [|f1 [|f2 [|f3 [|f4 [|f5 [|f6 fs]]]]]];
    try apply respects_raise.
  routine_steps.
  match goal with |- context [if ?c then _ else _] => destruct c end.
  - routine_steps.
  - apply _extract_sms_from_backup_tar_respects.
Qed.

Lemma _parse_db_respects (db_path : string) : ok (SMS._parse_db E db_path).
Proof.
  unfold SMS._parse_db, log.
  apply respects_bind; [apply respects_pure|]. intro conn.
  apply respects_bind; [apply respects_emit, P_routine; exact I|]. intros _.
  apply respects_get. intros n HTn.
  apply respects_bind.
  - destruct (Z.eqb_spec n 1) as [->|_];
      [|destruct (Z.eqb_spec n 2) as [->|_]].
    + apply respects_bind; [apply respects_emit; auto|intro; apply respects_pure].
    + apply respects_bind; [apply respects_emit; auto|intro; apply respects_pure].
    + apply respects_ret.
  - intro cur. routine_steps.
    + apply parse_db_item_respects.
    + destruct (iteration_error cur); routine_steps.
Qed.

Lemma _adb_process_file_respects (remote_path : string) :
  ok (SMS._adb_process_file E remote_path (SMS._parse_db E)).
Proof.
  unfold SMS._adb_process_file. routine_steps. apply _parse_db_respects.
Qed.

Lemma backup_fallback_respects : ok (backup_fallback E).
Proof.
  unfold backup_fallback, log. routine_steps. apply _extract_sms_adb_respects.
Qed.

End MethodsRespect.

(** [run] as a whole appends retained records only. *)
Lemma run_appends_retained (E : Externals) :
  respects (fun _ => True) (fun _ => True) (retained E) (SMS.run E).
Proof.
  unfold SMS.run. apply respects_try.
  - unfold SMS.direct_access.
    apply respects_bind; [now apply respects_emit|]. intros _.
    apply respects_bind; [apply respects_pure|]. intros [|].
    + apply respects_bind; [now apply respects_set|]. intros _.
      now apply _adb_process_file_respects.
    + apply respects_bind; [now apply respects_emit|]. intros _.
      apply respects_bind; [apply respects_pure|]. intros [|].
      * apply respects_bind; [now apply respects_set|]. intros _.
        now apply _adb_process_file_respects.
      * apply respects_ret.
  - now apply backup_fallback_respects.
Qed.

(** C1. For every row of the direct-access path and every message object
    of the backup path, the record is appended to the results exactly when
    the link detector finds a link in its body or the body, trimmed of
    whitespace, is empty ([results_after] states the policy, the methods
    are the code of both loops; an item of the backup that is not an
    object appends nothing); consequently every record that [run] appends
    has a body with a link or an empty trimmed body. *)
Theorem retention_filter_decides_results (E : Externals) :
  (forall names item st,
     results (final (SMS.parse_db_item E names item st)) =
     results_after E (results st) (SMS.normalize_row E names item)) /\
  (forall item st,
     results (final (SMS.parse_backup_message E item st)) =
     match item with
     | PDict d => results_after E (results st) (SMS.normalize_backup_message E d)
     | _ => results st
     end) /\
  (forall st, exists new,
     results (final (SMS.run E st)) = results st ++ new /\
     Forall (fun m => exists body,
               dict_get m "body" = Some body /\
               (finds_link E body = true \/ empty_after_trim body = true)) new).
Proof.
  split; [|split].
  - intros. apply parse_db_item_results.
  - intros. apply parse_backup_message_results.
  - intros st.
    destruct (run_appends_retained E st I) as (_ & _ & new & Hres & Hnew).
    exists new. split; auto.
    eapply Forall_impl; [|exact Hnew].
    intros m (body & Hbody & Hkeep). exists body. split; auto.
    unfold retain in Hkeep. now apply orb_true_iff in Hkeep.
Qed.

(** ** Direction of the rows of the chat store *)

(** The record that [normalize_row] builds from a row of the bugle
    query. *)
Lemma normalize_bugle_row (E : Externals) (t : Sql.bugle_tables)
    (m : Sql.message_row) (p : Sql.part_row) (ppl : Sql.participant_row) :
  SMS.normalize_row E query_columns (Sql.bugle_select t m p ppl) =
  (isodate <~ convert_timestamp_to_iso E (Sql.p_timestamp p) ;;
   Ok [("address", Sql.ppl_normalized_destination ppl);
       ("timestamp", Sql.p_timestamp p);
       ("incoming", PInt (if Sql.sender_in_subselect t m then 2 else 1));
       ("body", Sql.p_text p);
       ("direction",
        PStr (if Sql.sender_in_subselect t m then "sent" else "received"));
       ("isodate", isodate)]).
Proof.
  unfold SMS.normalize_row, Sql.bugle_select; simpl.
  destruct (Sql.sender_in_subselect t m); simpl;
    destruct (convert_timestamp_to_iso E (Sql.p_timestamp p)); reflexivity.
Qed.

(** The rows of the bugle query are the SELECT list at the combinations
    that the WHERE clause lets through. *)
Lemma bugle_rows_select (t : Sql.bugle_tables) (row : list pyval) :
  In row (Sql.bugle_rows t) <->
  exists m c p ppl cp,
    In m (Sql.messages t) /\ In c (Sql.conversations t) /\
    In p (Sql.parts t) /\ In ppl (Sql.participants t) /\
    In cp (Sql.conversation_participants t) /\
    Sql.bugle_where m c p ppl cp = true /\
    row = Sql.bugle_select t m p ppl.
Proof.
  unfold Sql.bugle_rows. split.
  - intros H.
    apply in_flat_map in H as (m & Hm & H).
    apply in_flat_map in H as (c & Hc & H).
    apply in_flat_map in H as (p & Hp & H).
    apply in_flat_map in H as (ppl & Hppl & H).
    apply in_flat_map in H as (cp & Hcp & H).
    exists m, c, p, ppl, cp.
    destruct (Sql.bugle_where m c p ppl cp); simpl in H; [|contradiction].
    destruct H as [H|[]]. repeat split; auto.
  - intros (m & c & p & ppl & cp & Hm & Hc & Hp & Hppl & Hcp & Hw & ->).
    apply in_flat_map; exists m; split; auto.
    apply in_flat_map; exists c; split; auto.
    apply in_flat_map; exists p; split; auto.
    apply in_flat_map; exists ppl; split; auto.
    apply in_flat_map; exists cp; split; auto.
    rewrite Hw. now left.
Qed.

(** C2, as the code has it. For every row of the bugle query whose sender
    is in the [contact_id = -1] subselect, the record produced has
    direction [sent]. *)
Theorem chat_sender_in_subselect_is_sent (E : Externals) (t : Sql.bugle_tables)
    (m : Sql.message_row) (p : Sql.part_row) (ppl : Sql.participant_row)
    (record : sms_record) :
  Sql.sender_in_subselect t m = true ->
  SMS.normalize_row E query_columns (Sql.bugle_select t m p ppl) = Ok record ->
  dict_get record "direction" = Some (PStr "sent").
Proof.
  intros Hin Hrow. rewrite normalize_bugle_row, Hin in Hrow.
  destruct (convert_timestamp_to_iso E (Sql.p_timestamp p)); simpl in Hrow;
    [|discriminate].
  injection Hrow as <-. reflexivity.
Qed.

Lemma chat_sender_in_subselect_is_sent_witness :
  Sql.sender_in_subselect Fixtures.chat Fixtures.chat_message = true /\
  SMS.normalize_row Fixtures.chat_device query_columns
    (Sql.bugle_select Fixtures.chat Fixtures.chat_message Fixtures.chat_part
       Fixtures.chat_peer) = Ok Fixtures.chat_record /\
  dict_get Fixtures.chat_record "direction" = Some (PStr "sent").
Proof.
  split; [reflexivity|]. split; [reflexivity|].
  apply (chat_sender_in_subselect_is_sent Fixtures.chat_device Fixtures.chat
           Fixtures.chat_message Fixtures.chat_part Fixtures.chat_peer);
    reflexivity.
Defined.

(** C2, as the claim has it, fails: in the chat fixture the sender of the
    message is in the subselect, the query gives the row, [run] produces
    its record, and the direction of the record is not [received]. *)
Lemma chat_sender_in_subselect_not_received :
  Sql.sender_in_subselect Fixtures.chat Fixtures.chat_message = true /\
  Sql.bugle_rows Fixtures.chat =
    [Sql.bugle_select Fixtures.chat Fixtures.chat_message Fixtures.chat_part
       Fixtures.chat_peer] /\
  results (final (SMS.run Fixtures.chat_device Fixtures.fresh)) =
    [Fixtures.chat_record] /\
  dict_get Fixtures.chat_record "direction" = Some (PStr "sent") /\
  dict_get Fixtures.chat_record "direction" <> Some (PStr "received").
Proof.
  repeat split; try reflexivity. discriminate.
Qed.

(** The other rows of the bugle query give [received]. *)
Lemma chat_sender_outside_subselect_is_received (E : Externals)
    (t : Sql.bugle_tables) (m : Sql.message_row) (p : Sql.part_row)
    (ppl : Sql.participant_row) (record : sms_record) :
  Sql.sender_in_subselect t m = false ->
  SMS.normalize_row E query_columns (Sql.bugle_select t m p ppl) = Ok record ->
  dict_get record "direction" = Some (PStr "received").
Proof.
  intros Hin Hrow. rewrite normalize_bugle_row, Hin in Hrow.
  destruct (convert_timestamp_to_iso E (Sql.p_timestamp p)); simpl in Hrow;
    [|discriminate].
  injection Hrow as <-. reflexivity.
Qed.

(** ** Messages of the backup archive *)

Lemma int_truediv_quotient (n d : Z) (f : pyfloat) :
  int_truediv n d = Ok f -> f = FloatQuot n d.
Proof.
  unfold int_truediv.
  destruct (Z.abs d * (2 ^ 1024 - 2 ^ 970) <=? Z.abs n); congruence.
Qed.

(** C7. For every message object of a backup member that the
    normalization accepts, [isodate] is the ISO conversion of the UTC
    datetime of [int(date) / 1000], and [direction] is [sent] exactly when
    [int(date_sent)] is not zero, [received] otherwise. *)
Theorem backup_message_isodate_and_direction (E : Externals) (d : dict)
    (record : sms_record) :
  SMS.normalize_backup_message E d = Ok record ->
  exists date milliseconds utc_timestamp isodate date_sent sent,
    dict_get d "date" = Some date /\
    py_int (float_to_int E) date = Ok milliseconds /\
    utcfromtimestamp E (FloatQuot milliseconds 1000) = Ok utc_timestamp /\
    convert_timestamp_to_iso E (PDatetime utc_timestamp) = Ok isodate /\
    dict_get record "isodate" = Some isodate /\
    dict_get d "date_sent" = Some date_sent /\
    py_int (float_to_int E) date_sent = Ok sent /\
    (sent <> 0 -> dict_get record "direction" = Some (PStr "sent")) /\
    (sent = 0 -> dict_get record "direction" = Some (PStr "received")).
Proof.
  unfold SMS.normalize_backup_message; simpl.
  destruct (dict_get d "date") as [date|] eqn:Hdate; simpl; [|discriminate].
  destruct (py_int (float_to_int E) date) as [ms|] eqn:Hms; simpl; [|discriminate].
  destruct (int_truediv ms 1000) as [seconds|] eqn:Hdiv; simpl; [|discriminate].
  apply int_truediv_quotient in Hdiv; subst seconds.
  destruct (utcfromtimestamp E (FloatQuot ms 1000)) as [t|] eqn:Ht; simpl;
    [|discriminate].
  destruct (convert_timestamp_to_iso E (PDatetime t)) as [iso|] eqn:Hiso; simpl;
    [|discriminate].
  rewrite dict_get_set_other by discriminate.
  destruct (dict_get d "date_sent") as [date_sent|] eqn:Hsent; simpl;
    [|discriminate].
  destruct (py_int (float_to_int E) date_sent) as [sent|] eqn:Hn; simpl;
    [|discriminate].
  intros Hrecord. injection Hrecord as <-.
  exists date, ms, t, iso, date_sent, sent.
  repeat split; auto.
  - rewrite dict_get_set_other by discriminate. apply dict_get_set_same.
  - intros Hne. rewrite dict_get_set_same.
    destruct (Z.eqb_spec sent 0); congruence.
  - intros ->. now rewrite dict_get_set_same.
Qed.

Lemma backup_message_isodate_and_direction_witness :
  SMS.normalize_backup_message Fixtures.locked_with_archive
    Fixtures.backup_message = Ok Fixtures.backup_record /\
  exists date milliseconds utc_timestamp isodate date_sent sent,
    dict_get Fixtures.backup_message "date" = Some date /\
    py_int (float_to_int Fixtures.locked_with_archive) date = Ok milliseconds /\
    utcfromtimestamp Fixtures.locked_with_archive (FloatQuot milliseconds 1000) =
      Ok utc_timestamp /\
    convert_timestamp_to_iso Fixtures.locked_with_archive
      (PDatetime utc_timestamp) = Ok isodate /\
    dict_get Fixtures.backup_record "isodate" = Some isodate /\
    dict_get Fixtures.backup_message "date_sent" = Some date_sent /\
    py_int (float_to_int Fixtures.locked_with_archive) date_sent = Ok sent /\
    (sent <> 0 ->
     dict_get Fixtures.backup_record "direction" = Some (PStr "sent")) /\
    (sent = 0 ->
     dict_get Fixtures.backup_record "direction" = Some (PStr "received")).
Proof.
  split; [reflexivity|].
  apply (backup_message_isodate_and_direction
           (Fixtures.locked_with_archive)
           Fixtures.backup_message Fixtures.backup_record).
  reflexivity.
Defined.

(** A message whose [date_sent] is the text of a non-zero number is
    [sent]. *)
Example backup_message_sent :
  SMS.normalize_backup_message (Fixtures.locked_with_archive)
    [("body", PStr ""); ("date", PInt 1645617600000); ("date_sent", PStr "1645617601000")]
  = Ok [("body", PStr ""); ("date", PInt 1645617600000);
        ("date_sent", PStr "1645617601000");
        ("isodate", PStr "2022-02-23 12:00:00.000000");
        ("direction", PStr "sent")].
Proof. reflexivity. Qed.

(** ** Rows with a NULL body *)

(** C10. For a row of the direct-access path whose body is NULL (None in
    Python), the retention filter raises: the row is neither discarded
    nor retained, and the loop over the rows ends there.  (The link
    detector, given None, finds no link: it raises or returns nothing.) *)
Theorem null_body_fails_the_filter (E : Externals) (names : list string)
    (item : list pyval) (record : sms_record) (st : state) :
  SMS.normalize_row E names item = Ok record ->
  dict_get record "body" = Some PNone ->
  finds_link E PNone = false ->
  exists e,
    value (SMS.parse_db_item E names item st) = Raise e /\
    results (final (SMS.parse_db_item E names item st)) = results st /\
    forall rest, value (for_each (item :: rest) (SMS.parse_db_item E names) st) = Raise e.
Proof.
  intros Hrow Hbody Hlink.
  assert (Hitem : exists e,
             value (SMS.parse_db_item E names item st) = Raise e /\
             results (final (SMS.parse_db_item E names item st)) = results st).
  { unfold SMS.parse_db_item, SMS.append_if_kept, SMS.links_or_empty, bind, lift.
    rewrite Hrow; simpl. rewrite Hbody; simpl.
    unfold finds_link in Hlink.
    destruct (check_for_links E PNone) as [[|l ls]|e]; simpl; try discriminate; eauto. }
  destruct Hitem as (e & Hvalue & Hresults).
  exists e. repeat split; auto.
  intros rest. simpl. unfold bind at 1. now rewrite Hvalue.
Qed.

Lemma null_body_fails_the_filter_witness :
  SMS.normalize_row Fixtures.null_body_device query_columns
    Fixtures.null_body_row = Ok Fixtures.null_body_record /\
  dict_get Fixtures.null_body_record "body" = Some PNone /\
  finds_link Fixtures.null_body_device PNone = false /\
  exists e,
    value (SMS.parse_db_item Fixtures.null_body_device query_columns
             Fixtures.null_body_row Fixtures.fresh) = Raise e /\
    results (final (SMS.parse_db_item Fixtures.null_body_device query_columns
                      Fixtures.null_body_row Fixtures.fresh)) =
      results Fixtures.fresh /\
    forall rest,
      value (for_each (Fixtures.null_body_row :: rest)
               (SMS.parse_db_item Fixtures.null_body_device query_columns)
               Fixtures.fresh) = Raise e.
Proof.
  split; [reflexivity|]. split; [reflexivity|]. split; [reflexivity|].
  apply (null_body_fails_the_filter Fixtures.null_body_device query_columns
           Fixtures.null_body_row Fixtures.null_body_record Fixtures.fresh);
    reflexivity.
Defined.

(** ** The fallback of [run] *)

(** The backup extraction starts by asking the device for a backup. *)
Lemma _extract_sms_adb_issues_command (E : Externals) (st : state) :
  exists rest,
    emitted (SMS._extract_sms_adb E st) =
    backup_prompt :: EvShell SMS.backup_command :: rest.
Proof.
  unfold SMS._extract_sms_adb, log.
  rewrite emit_bind; cbn [emitted]. rewrite emit_bind; cbn [emitted].
  unfold backup_prompt. eauto.
Qed.

(** [run] when the direct-access path raised the privilege signal. *)
Lemma run_after_denial (E : Externals) (st : state) :
  value (SMS.direct_access E st) = Raise InsufficientPrivileges ->
  SMS.run E st =
  let denied := SMS.direct_access E st in
  let backup := SMS._extract_sms_adb E (final denied) in
  mkOutcome (final backup)
            (emitted denied ++ fallback_warning :: emitted backup)
            (value backup).
Proof.
  intros Hdenied. unfold SMS.run, try_except_privileges.
  rewrite Hdenied. cbv beta iota zeta. unfold log. rewrite emit_bind.
  reflexivity.
Qed.

(** [run] when the direct-access path did anything else. *)
Lemma run_without_denial (E : Externals) (st : state) :
  value (SMS.direct_access E st) <> Raise InsufficientPrivileges ->
  SMS.run E st = SMS.direct_access E st.
Proof.
  intros Hother. unfold SMS.run, try_except_privileges.
  destruct (value (SMS.direct_access E st)) as [u|e]; auto.
  destruct e; auto. congruence.
Qed.

(** C6. If the direct-access extraction raises the insufficient-privilege
    signal, [run] catches it and goes on with the backup extraction, from
    the state the direct path left: the warning is logged, the backup
    command is sent to the device, and [run] ends as the backup
    extraction ends. *)
Theorem privilege_denial_falls_back_to_backup (E : Externals) (st : state) :
  value (SMS.direct_access E st) = Raise InsufficientPrivileges ->
  value (SMS.run E st) =
    value (SMS._extract_sms_adb E (final (SMS.direct_access E st))) /\
  final (SMS.run E st) =
    final (SMS._extract_sms_adb E (final (SMS.direct_access E st))) /\
  exists rest,
    emitted (SMS.run E st) =
    emitted (SMS.direct_access E st)
      ++ fallback_warning :: backup_prompt :: EvShell SMS.backup_command :: rest.
Proof.
  intros Hdenied. rewrite (run_after_denial E st Hdenied).
  cbv zeta; cbn [value final emitted].
  repeat split.
  destruct (_extract_sms_adb_issues_command E (final (SMS.direct_access E st)))
    as (rest & ->).
  eauto.
Qed.

Lemma privilege_denial_falls_back_to_backup_witness :
  value (SMS.direct_access Fixtures.locked_with_archive Fixtures.fresh) =
    Raise InsufficientPrivileges /\
  value (SMS.run Fixtures.locked_with_archive Fixtures.fresh) =
    value (SMS._extract_sms_adb Fixtures.locked_with_archive
             (final (SMS.direct_access Fixtures.locked_with_archive Fixtures.fresh))) /\
  final (SMS.run Fixtures.locked_with_archive Fixtures.fresh) =
    final (SMS._extract_sms_adb Fixtures.locked_with_archive
             (final (SMS.direct_access Fixtures.locked_with_archive Fixtures.fresh))) /\
  exists rest,
    emitted (SMS.run Fixtures.locked_with_archive Fixtures.fresh) =
    emitted (SMS.direct_access Fixtures.locked_with_archive Fixtures.fresh)
      ++ fallback_warning :: backup_prompt :: EvShell SMS.backup_command :: rest.
Proof.
  split; [reflexivity|].
  apply (privilege_denial_falls_back_to_backup Fixtures.locked_with_archive
           Fixtures.fresh).
  reflexivity.
Defined.

(** On that device the backup yields the record of its one message. *)
Example locked_device_backup_record :
  value (SMS.run Fixtures.locked_with_archive Fixtures.fresh) = Ok tt /\
  results (final (SMS.run Fixtures.locked_with_archive Fixtures.fresh)) =
    [Fixtures.backup_record].
Proof. split; reflexivity. Qed.

(** ** Probing for the store *)

Lemma try_prepend (evs : list event) (m after : M unit) (st st' : state) :
  try_except_privileges (fun _ => prepend evs (m st')) after st =
  prepend evs (try_except_privileges m after st').
Proof.
  unfold try_except_privileges, prepend; cbn [value final emitted].
  destruct (value (m st')) as [u|e] eqn:Hv.
  - now rewrite Hv.
  - destruct e; cbn [value final emitted]; rewrite ?Hv; auto.
    now rewrite app_assoc.
Qed.

(** What the [try] body of [run] does, by what the probes answer. *)
Lemma direct_access_shape (E : Externals) (st : state) :
  SMS.direct_access E st =
  match _adb_check_file_exists E bugle_path with
  | Ok true =>
      prepend [EvCheckFile bugle_path]
        (SMS._adb_process_file E bugle_path (SMS._parse_db E)
           (mkState (results st) (Some 1)))
  | Ok false =>
      match _adb_check_file_exists E mmssms_path with
      | Ok true =>
          prepend [EvCheckFile bugle_path; EvCheckFile mmssms_path]
            (SMS._adb_process_file E mmssms_path (SMS._parse_db E)
               (mkState (results st) (Some 2)))
      | Ok false =>
          mkOutcome st [EvCheckFile bugle_path; EvCheckFile mmssms_path] (Ok tt)
      | Raise e =>
          mkOutcome st [EvCheckFile bugle_path; EvCheckFile mmssms_path] (Raise e)
      end
  | Raise e => mkOutcome st [EvCheckFile bugle_path] (Raise e)
  end.
Proof.
  unfold SMS.direct_access. fold bugle_path mmssms_path.
  rewrite emit_bind.
  destruct (_adb_check_file_exists E bugle_path) as [[|]|e].
  - rewrite lift_ok_bind, set_bind. reflexivity.
  - rewrite lift_ok_bind, emit_bind.
    destruct (_adb_check_file_exists E mmssms_path) as [[|]|e].
    + rewrite lift_ok_bind, set_bind. reflexivity.
    + rewrite lift_ok_bind. reflexivity.
    + rewrite lift_raise_bind. reflexivity.
  - rewrite lift_raise_bind. reflexivity.
Qed.

Lemma try_same_body (m m' after : M unit) (st : state) :
  m st = m' st ->
  try_except_privileges m after st = try_except_privileges m' after st.
Proof. intros H. unfold try_except_privileges. now rewrite H. Qed.

Lemma run_chat_found (E : Externals) (st : state) :
  _adb_check_file_exists E bugle_path = Ok true ->
  SMS.run E st =
  prepend [EvCheckFile bugle_path]
    (try_except_privileges
       (SMS._adb_process_file E bugle_path (SMS._parse_db E))
       (backup_fallback E) (mkState (results st) (Some 1))).
Proof.
  intros Hchat. rewrite <- try_prepend with (st := st).
  apply try_same_body. now rewrite direct_access_shape, Hchat.
Qed.

Lemma run_legacy_found (E : Externals) (st : state) :
  _adb_check_file_exists E bugle_path = Ok false ->
  _adb_check_file_exists E mmssms_path = Ok true ->
  SMS.run E st =
  prepend [EvCheckFile bugle_path; EvCheckFile mmssms_path]
    (try_except_privileges
       (SMS._adb_process_file E mmssms_path (SMS._parse_db E))
       (backup_fallback E) (mkState (results st) (Some 2))).
Proof.
  intros Hchat Hlegacy. rewrite <- try_prepend with (st := st).
  apply try_same_body. now rewrite direct_access_shape, Hchat, Hlegacy.
Qed.

Lemma routine_no_probe (ev : event) : routine ev -> no_probe ev.
Proof. destruct ev; simpl; auto. Qed.

Lemma routine_queries_only (q : string) (ev : event) :
  routine ev -> queries_only q ev.
Proof. destruct ev; simpl; auto; contradiction. Qed.

(** After the probes, [run] queries what [SMS_DB_TYPE] selects and probes
    no more. *)
Lemma extraction_after_probe (E : Externals) (path : string) (n : Z) (q : string)
    (st : state) :
  (n = 1 -> q = SMS_BUGLE_QUERY) ->
  (n = 2 -> q = SMS_MMSMS_QUERY) ->
  SMS_DB_TYPE st = Some n ->
  let o := try_except_privileges
             (SMS._adb_process_file E path (SMS._parse_db E))
             (backup_fallback E) st in
  SMS_DB_TYPE (final o) = Some n /\ Forall (queries_only q) (emitted o).
Proof.
  intros H1 H2 Hty o.
  assert (Hrespects :
            respects (eq (Some n)) (queries_only q) (retained E)
              (try_except_privileges
                 (SMS._adb_process_file E path (SMS._parse_db E))
                 (backup_fallback E))).
  { apply respects_try.
    - apply _adb_process_file_respects.
      + apply routine_queries_only.
      + intros Hn. simpl. symmetry. apply H1. congruence.
      + intros Hn. simpl. symmetry. apply H2. congruence.
    - apply backup_fallback_respects, routine_queries_only. }
  destruct (Hrespects st (eq_sym Hty)) as (HT & HP & _).
  split; auto.
Qed.

Lemma fallback_no_probe (E : Externals) (st : state) :
  Forall no_probe (emitted (backup_fallback E st)).
Proof.
  assert (Hrespects :
            respects (fun _ => True) no_probe (retained E) (backup_fallback E)).
  { apply backup_fallback_respects, routine_no_probe. }
  now destruct (Hrespects st I) as (_ & HP & _).
Qed.

Lemma Forall_queries_only (q : string) (evs : list event) :
  Forall (queries_only q) evs ->
  (forall path, ~ In (EvCheckFile path) evs) /\
  (forall q', In (EvExecute q') evs -> q' = q).
Proof.
  intros Hall. rewrite Forall_forall in Hall. split.
  - intros path Hin. exact (Hall _ Hin).
  - intros q' Hin. exact (Hall _ Hin).
Qed.

Lemma probes_differ : EvCheckFile bugle_path <> EvCheckFile mmssms_path.
Proof. discriminate. Qed.

Lemma run_starts_with_chat_probe (E : Externals) (st : state) :
  exists rest, emitted (SMS.run E st) = EvCheckFile bugle_path :: rest.
Proof.
  assert (Hdirect : exists rest,
             emitted (SMS.direct_access E st) = EvCheckFile bugle_path :: rest).
  { unfold SMS.direct_access. fold bugle_path. rewrite emit_bind.
    cbn [emitted]. eauto. }
  destruct Hdirect as (rest & Hrest).
  unfold SMS.run, try_except_privileges.
  destruct (value (SMS.direct_access E st)) as [u|e]; eauto.
  destruct e; eauto.
  cbn [emitted]. rewrite Hrest. simpl. eauto.
Qed.

Lemma legacy_probe_only_after_chat_absent (E : Externals) (st : state) :
  In (EvCheckFile mmssms_path) (emitted (SMS.run E st)) ->
  _adb_check_file_exists E bugle_path = Ok false.
Proof.
  destruct (_adb_check_file_exists E bugle_path) as [[|]|e] eqn:Hchat; auto.
  - rewrite (run_chat_found E st Hchat). cbn [prepend emitted].
    destruct (extraction_after_probe E bugle_path 1 SMS_BUGLE_QUERY
                (mkState (results st) (Some 1))) as (_ & Hevents);
      auto; try discriminate.
    apply Forall_queries_only in Hevents as (Hprobe & _).
    simpl. intros [Heq|Hin].
    + now apply probes_differ in Heq.
    + now apply Hprobe in Hin.
  - assert (Hrun : SMS.run E st =
                   try_except_privileges
                     (fun _ => mkOutcome st [EvCheckFile bugle_path] (Raise e))
                     (backup_fallback E) st).
    { apply try_same_body. now rewrite direct_access_shape, Hchat. }
    rewrite Hrun. unfold try_except_privileges. cbn [value final emitted].
    pose proof (fallback_no_probe E st) as Hquiet.
    rewrite Forall_forall in Hquiet.
    destruct e; cbn [emitted]; simpl; intros Hin;
      try (destruct Hin as [Heq|[]]; now apply probes_differ in Heq).
    destruct Hin as [Heq|Hin].
    + now apply probes_differ in Heq.
    + now apply Hquiet in Hin.
Qed.

(** C8. [run] probes the chat store first and the legacy store only when
    the chat store is absent; the first store found sets [SMS_DB_TYPE],
    which stays as set to the end of the run, and every query executed in
    the run is the query of that store. *)
Theorem schema_variant_fixed_by_first_probe (E : Externals) (st : state) :
  (exists rest, emitted (SMS.run E st) = EvCheckFile bugle_path :: rest) /\
  (In (EvCheckFile mmssms_path) (emitted (SMS.run E st)) ->
   _adb_check_file_exists E bugle_path = Ok false) /\
  (_adb_check_file_exists E bugle_path = Ok true ->
   SMS_DB_TYPE (final (SMS.run E st)) = Some 1 /\
   forall q, In (EvExecute q) (emitted (SMS.run E st)) -> q = SMS_BUGLE_QUERY) /\
  (_adb_check_file_exists E bugle_path = Ok false ->
   _adb_check_file_exists E mmssms_path = Ok true ->
   SMS_DB_TYPE (final (SMS.run E st)) = Some 2 /\
   forall q, In (EvExecute q) (emitted (SMS.run E st)) -> q = SMS_MMSMS_QUERY).
Proof.
  split; [apply run_starts_with_chat_probe|].
  split; [apply legacy_probe_only_after_chat_absent|].
  split.
  - intros Hchat. rewrite (run_chat_found E st Hchat). cbn [prepend final emitted].
    destruct (extraction_after_probe E bugle_path 1 SMS_BUGLE_QUERY
                (mkState (results st) (Some 1))) as (Hty & Hevents);
      auto; try discriminate.
    split; auto.
    apply Forall_queries_only in Hevents as (_ & Hquery).
    simpl. intros q [Heq|Hin]; [discriminate|auto].
  - intros Hchat Hlegacy. rewrite (run_legacy_found E st Hchat Hlegacy).
    cbn [prepend final emitted].
    destruct (extraction_after_probe E mmssms_path 2 SMS_MMSMS_QUERY
                (mkState (results st) (Some 2))) as (Hty & Hevents);
      auto; try discriminate.
    split; auto.
    apply Forall_queries_only in Hevents as (_ & Hquery).
    simpl. intros q [Heq|[Heq|Hin]]; [discriminate|discriminate|auto].
Qed.

Lemma schema_variant_fixed_by_first_probe_witness :
  _adb_check_file_exists Fixtures.chat_device bugle_path = Ok true /\
  SMS_DB_TYPE (final (SMS.run Fixtures.chat_device Fixtures.fresh)) = Some 1 /\
  (forall q,
     In (EvExecute q) (emitted (SMS.run Fixtures.chat_device Fixtures.fresh)) ->
     q = SMS_BUGLE_QUERY) /\
  _adb_check_file_exists Fixtures.inbox_device bugle_path = Ok false /\
  _adb_check_file_exists Fixtures.inbox_device mmssms_path = Ok true /\
  SMS_DB_TYPE (final (SMS.run Fixtures.inbox_device Fixtures.fresh)) = Some 2 /\
  (forall q,
     In (EvExecute q) (emitted (SMS.run Fixtures.inbox_device Fixtures.fresh)) ->
     q = SMS_MMSMS_QUERY).
Proof.
  split; [reflexivity|].
  destruct (schema_variant_fixed_by_first_probe Fixtures.chat_device Fixtures.fresh)
    as (_ & _ & Hchat & _).
  destruct (schema_variant_fixed_by_first_probe Fixtures.inbox_device Fixtures.fresh)
    as (_ & _ & _ & Hlegacy).
  split; [apply Hchat; reflexivity|].
  split; [apply Hchat; reflexivity|].
  split; [reflexivity|]. split; [reflexivity|].
  split; apply Hlegacy; reflexivity.
Defined.

(** The probes and the query of a run on each store. *)
Example chat_store_run_events :
  emitted (SMS.run Fixtures.chat_device Fixtures.fresh) =
  [EvCheckFile bugle_path; EvCopyFile bugle_path;
   EvConnect Fixtures.local_copy; EvExecute SMS_BUGLE_QUERY;
   EvCursorClose; EvConnClose;
   EvLog LvlInfo "Extracted a total of %d SMS messages containing links"].
Proof. reflexivity. Qed.

Example legacy_store_run_events :
  emitted (SMS.run Fixtures.inbox_device Fixtures.fresh) =
  [EvCheckFile bugle_path; EvCheckFile mmssms_path; EvCopyFile mmssms_path;
   EvConnect Fixtures.local_copy; EvExecute SMS_MMSMS_QUERY;
   EvCursorClose; EvConnClose;
   EvLog LvlInfo "Extracted a total of %d SMS messages containing links"].
Proof. reflexivity. Qed.

(** ** The connection to the store *)

(** The loop over the rows emits nothing. *)
Lemma parse_db_rows_silent (E : Externals) (names : list string)
    (rows : list (list pyval)) (st : state) :
  emitted (for_each rows (SMS.parse_db_item E names) st) = [].
Proof.
  apply Forall_False_nil.
  assert (Hrespects :
            respects (fun _ => True) (fun _ => False) (retained E)
              (for_each rows (SMS.parse_db_item E names))).
  { apply respects_for_each. intro item. apply parse_db_item_respects. }
  now destruct (Hrespects st I) as (_ & HP & _).
Qed.

(** [_parse_db] from the column names on: the events are those of the
    two [close] calls and the log line when it returns, none when it
    raises. *)
Lemma parse_db_rows_events (E : Externals) (cur : cursor) (st : state) :
  let o :=
    (names <- lift (SMS.description_names cur) ;;
     for_each (fetched cur) (SMS.parse_db_item E names) ;;
     match iteration_error cur with
     | Some e => raise e
     | None =>
         emit EvCursorClose ;;
         emit EvConnClose ;;
         log LvlInfo "Extracted a total of %d SMS messages containing links"
     end) st in
  emitted o =
  match value o with
  | Ok _ => [EvCursorClose; EvConnClose; rows_extracted]
  | Raise _ => []
  end.
Proof.
  cbv zeta.
  destruct (SMS.description_names cur) as [names|e];
    [rewrite lift_ok_bind | now rewrite lift_raise_bind].
  rewrite silent_bind by apply parse_db_rows_silent.
  destruct (value (for_each (fetched cur) (SMS.parse_db_item E names) st));
    [|reflexivity].
  destruct (iteration_error cur); reflexivity.
Qed.

(** The events of [_parse_db]: the connection, the query if one is
    executed, and what follows. *)
Lemma _parse_db_events (E : Externals) (db_path : string) (st : state) :
  let o := SMS._parse_db E db_path st in
  match sqlite3_connect E db_path with
  | Raise _ => emitted o = []
  | Ok _ =>
      exists queries,
        Forall (fun ev => exists q, ev = EvExecute q) queries /\
        emitted o =
        EvConnect db_path :: queries ++
        match value o with
        | Ok _ => [EvCursorClose; EvConnClose; rows_extracted]
        | Raise _ => []
        end
  end.
Proof.
  cbv zeta. unfold SMS._parse_db.
  destruct (sqlite3_connect E db_path) as [conn|e];
    [|now rewrite lift_raise_bind].
  rewrite lift_ok_bind, emit_bind, get_bind. cbn [emitted value].
  destruct (SMS_DB_TYPE st) as [n|]; [|exists []; split; auto].
  destruct (n =? 1); [|destruct (n =? 2)].
  - rewrite bind_assoc, emit_bind. cbn [emitted value].
    exists [EvExecute SMS_BUGLE_QUERY]. split; [repeat constructor; eauto|].
    destruct (execute conn SMS_BUGLE_QUERY) as [cur|e];
      [rewrite lift_ok_bind | now rewrite lift_raise_bind].
    now rewrite (parse_db_rows_events E cur st).
  - rewrite bind_assoc, emit_bind. cbn [emitted value].
    exists [EvExecute SMS_MMSMS_QUERY]. split; [repeat constructor; eauto|].
    destruct (execute conn SMS_MMSMS_QUERY) as [cur|e];
      [rewrite lift_ok_bind | now rewrite lift_raise_bind].
    now rewrite (parse_db_rows_events E cur st).
  - (* nothing executed: the cursor has no description *)
    exists []. split; auto.
Qed.

Lemma open_connections_queries (db_path : string) (queries tail : list event) :
  Forall (fun ev => exists q, ev = EvExecute q) queries ->
  open_connections (EvConnect db_path :: queries ++ tail) =
  fold_left (fun n ev =>
               match ev with
               | EvConnect _ => S n
               | EvConnClose => pred n
               | _ => n
               end) tail 1%nat.
Proof.
  intros Hq. unfold open_connections. simpl. rewrite fold_left_app. f_equal.
  induction Hq as [|ev queries (q & ->) _ IH]; simpl; auto.
Qed.

(** C9, as the code has it. The connection that [_parse_db] opens is
    closed when [_parse_db] returns normally; when the query, the
    iteration over the rows or the normalization of a row raises, the
    exception leaves [_parse_db] with the connection open. *)
Theorem connection_closed_on_normal_return (E : Externals) (db_path : string)
    (st : state) :
  (completes (SMS._parse_db E db_path st) ->
   open_connections (emitted (SMS._parse_db E db_path st)) = 0%nat) /\
  (forall conn e,
     sqlite3_connect E db_path = Ok conn ->
     value (SMS._parse_db E db_path st) = Raise e ->
     open_connections (emitted (SMS._parse_db E db_path st)) = 1%nat).
Proof.
  pose proof (_parse_db_events E db_path st) as Hevents. cbv zeta in Hevents.
  split.
  - intros (u & Hvalue).
    destruct (sqlite3_connect E db_path) as [conn|e].
    + destruct Hevents as (queries & Hq & ->).
      rewrite Hvalue. now rewrite open_connections_queries.
    + now rewrite Hevents.
  - intros conn e Hconn Hvalue. rewrite Hconn in Hevents.
    destruct Hevents as (queries & Hq & ->).
    rewrite Hvalue. now rewrite open_connections_queries.
Qed.

Lemma connection_closed_on_normal_return_witness :
  completes (SMS._parse_db Fixtures.inbox_device Fixtures.local_copy
               (mkState [] (Some 2))) /\
  open_connections
    (emitted (SMS._parse_db Fixtures.inbox_device Fixtures.local_copy
                (mkState [] (Some 2)))) = 0%nat /\
  sqlite3_connect Fixtures.null_body_device Fixtures.local_copy =
    Ok (Sql.mmssms_db [Sql.mkSms (PStr "+1555") (PInt 0) (PInt 1) PNone]) /\
  value (SMS._parse_db Fixtures.null_body_device Fixtures.local_copy
           (mkState [] (Some 2))) = Raise TypeError /\
  open_connections
    (emitted (SMS._parse_db Fixtures.null_body_device Fixtures.local_copy
                (mkState [] (Some 2)))) = 1%nat.
Proof.
  assert (Hreturns : completes (SMS._parse_db Fixtures.inbox_device
                                  Fixtures.local_copy (mkState [] (Some 2))))
    by (exists tt; reflexivity).
  split; [exact Hreturns|].
  split.
  - apply (connection_closed_on_normal_return Fixtures.inbox_device
             Fixtures.local_copy (mkState [] (Some 2))).
    exact Hreturns.
  - split; [reflexivity|]. split; [reflexivity|].
    eapply (connection_closed_on_normal_return Fixtures.null_body_device
              Fixtures.local_copy (mkState [] (Some 2))); reflexivity.
Defined.

(** C9, as the claim has it, fails: on a store whose one row has a NULL
    body the filter raises, and [_parse_db] is left with the connection
    opened and not closed. *)
Lemma connection_left_open_on_error :
  emitted (SMS._parse_db Fixtures.null_body_device Fixtures.local_copy
             (mkState [] (Some 2))) =
    [EvConnect Fixtures.local_copy; EvExecute SMS_MMSMS_QUERY] /\
  value (SMS._parse_db Fixtures.null_body_device Fixtures.local_copy
           (mkState [] (Some 2))) = Raise TypeError /\
  open_connections
    (emitted (SMS._parse_db Fixtures.null_body_device Fixtures.local_copy
                (mkState [] (Some 2)))) <> 0%nat.
Proof.
  repeat split. discriminate.
Qed.

(** ** The backup container *)

Lemma bytes_eqb_eq (x y : bytes) : bytes_eqb x y = true <-> x = y.
Proof.
  revert y. induction x as [|c x IH]; intros [|d y]; simpl;
    try (split; congruence).
  rewrite andb_true_iff, IH. unfold byte_eqb. split.
  - intros [Hc ->]. now apply Byte.byte_dec_bl in Hc as ->.
  - intros H. injection H as -> ->. split; auto. now apply Byte.byte_dec_lb.
Qed.

(** The backup extraction on a stream without the magic header. *)
Lemma _extract_sms_adb_bad_magic (E : Externals) (st : state)
    (text : string) (stream : bytes) :
  _adb_command E SMS.backup_command = Ok text ->
  b64decode E text = Ok stream ->
  startswith stream (b "ANDROID BACKUP") = false ->
  SMS._extract_sms_adb E st =
  mkOutcome st [backup_prompt; EvShell SMS.backup_command; no_valid_backup]
    (Ok tt).
Proof.
  intros Hshell Hb64 Hmagic. unfold SMS._extract_sms_adb, log.
  rewrite emit_bind, emit_bind, Hshell, lift_ok_bind, Hb64, lift_ok_bind, Hmagic.
  reflexivity.
Qed.

(** The backup extraction on a stream with the magic header and its five
    fields. *)
Lemma _extract_sms_adb_five_fields (E : Externals) (st : state)
    (text : string) (stream magic_header version is_compressed encryption
       tar_data : bytes) :
  _adb_command E SMS.backup_command = Ok text ->
  b64decode E text = Ok stream ->
  startswith stream (b "ANDROID BACKUP") = true ->
  bytes_split stream x0a 4 =
    [magic_header; version; is_compressed; encryption; tar_data] ->
  SMS._extract_sms_adb E st =
  prepend [backup_prompt; EvShell SMS.backup_command]
    match SMS.encrypted_or_compressed encryption is_compressed with
    | Ok true => mkOutcome st [unsupported_backup] (Ok tt)
    | Ok false => SMS._extract_sms_from_backup_tar E tar_data st
    | Raise e => mkOutcome st [] (Raise e)
    end.
Proof.
  intros Hshell Hb64 Hmagic Hsplit. unfold SMS._extract_sms_adb, log.
  rewrite emit_bind, emit_bind, Hshell, lift_ok_bind, Hb64, lift_ok_bind, Hmagic.
  cbn [negb]. rewrite Hsplit.
  destruct (SMS.encrypted_or_compressed encryption is_compressed) as [[|]|e].
  - rewrite lift_ok_bind. reflexivity.
  - rewrite lift_ok_bind. reflexivity.
  - rewrite lift_raise_bind. reflexivity.
Qed.

(** C4, as the code has it. For every backup stream that passes the
    magic-header check and has its five fields: if the encryption field is
    not [none], or the isCompressed field reads as a non-zero integer, the
    decoder logs the stream as unsupported and returns, without raising
    and with the state (so the results) as it was. *)
Theorem unsupported_container_rejected (E : Externals) (st : state)
    (text : string) (stream magic_header version is_compressed encryption
       tar_data : bytes) :
  _adb_command E SMS.backup_command = Ok text ->
  b64decode E text = Ok stream ->
  startswith stream (b "ANDROID BACKUP") = true ->
  bytes_split stream x0a 4 =
    [magic_header; version; is_compressed; encryption; tar_data] ->
  encryption <> b "none" \/
  (exists n, int_of_bytes is_compressed = Ok n /\ n <> 0) ->
  SMS._extract_sms_adb E st =
  mkOutcome st
    [backup_prompt; EvShell SMS.backup_command; unsupported_backup] (Ok tt).
Proof.
  intros Hshell Hb64 Hmagic Hsplit Hunsupported.
  rewrite (_extract_sms_adb_five_fields E st _ _ _ _ _ _ _
             Hshell Hb64 Hmagic Hsplit).
  assert (Hcheck : SMS.encrypted_or_compressed encryption is_compressed = Ok true).
  { unfold SMS.encrypted_or_compressed.
    destruct (bytes_eqb encryption (b "none")) eqn:Hnone; auto.
    apply bytes_eqb_eq in Hnone.
    destruct Hunsupported as [Hencrypted|(n & Hn & Hnonzero)]; [contradiction|].
    cbn [negb]. rewrite Hn. cbn [rbind].
    destruct (Z.eqb_spec n 0); [contradiction|reflexivity]. }
  now rewrite Hcheck.
Qed.

Lemma unsupported_container_rejected_witness :
  _adb_command (Fixtures.locked Fixtures.stream_encrypted) SMS.backup_command =
    Ok Fixtures.stream_encrypted /\
  b64decode (Fixtures.locked Fixtures.stream_encrypted) Fixtures.stream_encrypted =
    Ok (b "ANDROID BACKUP" ++ x0a :: b "5" ++ x0a :: b "0" ++ x0a
          :: b "AES-256" ++ x0a :: b "TAR") /\
  SMS._extract_sms_adb (Fixtures.locked Fixtures.stream_encrypted) Fixtures.fresh =
  mkOutcome Fixtures.fresh
    [backup_prompt; EvShell SMS.backup_command; unsupported_backup] (Ok tt).
Proof.
  split; [reflexivity|]. split; [reflexivity|].
  apply (unsupported_container_rejected
           (Fixtures.locked Fixtures.stream_encrypted) Fixtures.fresh
           Fixtures.stream_encrypted
           (b "ANDROID BACKUP" ++ x0a :: b "5" ++ x0a :: b "0" ++ x0a
              :: b "AES-256" ++ x0a :: b "TAR")
           (b "ANDROID BACKUP") (b "5") (b "0") (b "AES-256") (b "TAR"));
    try reflexivity.
  left. discriminate.
Defined.

(** C4, as the claim has it, fails: a stream whose isCompressed field is
    [x], not [0], passes the magic-header check and is not rejected with a
    log line: reading the field as an integer raises [ValueError]. *)
Lemma compression_flag_not_a_number_raises :
  b64decode (Fixtures.locked Fixtures.stream_compressed_x)
    Fixtures.stream_compressed_x =
    Ok (b "ANDROID BACKUP" ++ x0a :: b "5" ++ x0a :: b "x" ++ x0a
          :: b "none" ++ x0a :: b "TAR") /\
  startswith (b "ANDROID BACKUP" ++ x0a :: b "5" ++ x0a :: b "x" ++ x0a
                :: b "none" ++ x0a :: b "TAR") (b "ANDROID BACKUP") = true /\
  bytes_split (b "ANDROID BACKUP" ++ x0a :: b "5" ++ x0a :: b "x" ++ x0a
                 :: b "none" ++ x0a :: b "TAR") x0a 4 =
    [b "ANDROID BACKUP"; b "5"; b "x"; b "none"; b "TAR"] /\
  b "x" <> b "0" /\
  value (SMS._extract_sms_adb (Fixtures.locked Fixtures.stream_compressed_x)
           Fixtures.fresh) = Raise ValueError /\
  ~ completes (SMS._extract_sms_adb (Fixtures.locked Fixtures.stream_compressed_x)
                 Fixtures.fresh).
Proof.
  repeat split; try discriminate.
  intros (u & Hu). discriminate Hu.
Qed.

(** A stream whose isCompressed field is [00], not [0], is not rejected
    either: the field reads as zero and the archive is decoded. *)
Example compression_flag_00_accepted :
  SMS.encrypted_or_compressed (b "none") (b "00") = Ok false /\
  results (final (SMS._extract_sms_adb
                    (Fixtures.locked Fixtures.stream_compressed_00)
                    Fixtures.fresh)) = [Fixtures.backup_record].
Proof. split; reflexivity. Qed.

(** ** Errors of the backup decoder *)

(** Members that are not SMS backups are passed over. *)
Lemma skip_other_members (E : Externals) (skipped rest : list tar_member)
    (st : state) :
  Forall (fun m => endswith (name m) "_sms_backup" = false) skipped ->
  for_each (skipped ++ rest) (SMS.parse_backup_member E) st =
  for_each rest (SMS.parse_backup_member E) st.
Proof.
  induction 1 as [|m skipped Hm _ IH]; simpl; auto.
  unfold SMS.parse_backup_member at 1. rewrite Hm. cbn [negb].
  now rewrite ret_bind.
Qed.

(** An SMS member that does not inflate, or inflates to malformed JSON,
    ends the loop over the members with the error of the library. *)
Lemma member_decode_error (E : Externals) (member : tar_member)
    (rest : list tar_member) (raw : bytes) (e : exn) (st : state) :
  endswith (name member) "_sms_backup" = true ->
  content member = Some raw ->
  zlib_decompress E raw = Raise e \/
  (exists text, zlib_decompress E raw = Ok text /\ json_loads E text = Raise e) ->
  for_each (member :: rest) (SMS.parse_backup_member E) st =
  mkOutcome st [extracting_member] (Raise e).
Proof.
  intros Hname Hcontent Herror.
  assert (Hmember : SMS.parse_backup_member E member st =
                    mkOutcome st [extracting_member] (Raise e)).
  { unfold SMS.parse_backup_member, log. rewrite Hname. cbn [negb].
    rewrite emit_bind, Hcontent, lift_ok_bind.
    destruct Herror as [Hzlib|(text & Hzlib & Hjson)]; rewrite Hzlib.
    - now rewrite lift_raise_bind.
    - now rewrite lift_ok_bind, Hjson, lift_raise_bind. }
  simpl. unfold bind at 1. now rewrite Hmember.
Qed.

Lemma decode_failure_raises (E : Externals) (tar_data : bytes) (e : exn)
    (st : state) :
  decode_failure E tar_data e ->
  value (SMS._extract_sms_from_backup_tar E tar_data st) = Raise e /\
  final (SMS._extract_sms_from_backup_tar E tar_data st) = st.
Proof.
  intros Hfail. unfold SMS._extract_sms_from_backup_tar.
  destruct Hfail as [Htar | skipped rest member raw Htar Hskip Hname Hraw Hzlib
                          | skipped rest member raw text Htar Hskip Hname Hraw
                              Hzlib Hjson];
    rewrite Htar.
  - now rewrite lift_raise_bind.
  - rewrite lift_ok_bind.
    assert (Hloop : for_each (skipped ++ member :: rest)
                      (SMS.parse_backup_member E) st =
                    mkOutcome st [extracting_member] (Raise e)).
    { rewrite (skip_other_members E skipped _ st Hskip).
      apply (member_decode_error E member rest raw e st Hname Hraw). auto. }
    rewrite (bind_raise _ _ st e) by now rewrite Hloop.
    rewrite Hloop. split; reflexivity.
  - rewrite lift_ok_bind.
    assert (Hloop : for_each (skipped ++ member :: rest)
                      (SMS.parse_backup_member E) st =
                    mkOutcome st [extracting_member] (Raise e)).
    { rewrite (skip_other_members E skipped _ st Hskip).
      apply (member_decode_error E member rest raw e st Hname Hraw). eauto. }
    rewrite (bind_raise _ _ st e) by now rewrite Hloop.
    rewrite Hloop. split; reflexivity.
Qed.

(** C3, as the code has it. [run] returns normally when the direct-access
    path does, and, after a privilege denial, when the backup stream lacks
    the magic header.  When the container is accepted and its payload is
    not a tar archive, or the first SMS member is not a DEFLATE stream or
    inflates to malformed JSON, the error of the decoder leaves [run]; the
    results are those accumulated before. *)
Theorem backup_decode_errors_escape_run (E : Externals) (st : state) :
  (completes (SMS.direct_access E st) -> completes (SMS.run E st)) /\
  (value (SMS.direct_access E st) = Raise InsufficientPrivileges ->
   forall text stream,
     _adb_command E SMS.backup_command = Ok text ->
     b64decode E text = Ok stream ->
     (startswith stream (b "ANDROID BACKUP") = false ->
      completes (SMS.run E st) /\
      results (final (SMS.run E st)) = results (final (SMS.direct_access E st))) /\
     (forall tar_data e,
        accepted_container stream tar_data ->
        decode_failure E tar_data e ->
        value (SMS.run E st) = Raise e /\
        results (final (SMS.run E st)) =
          results (final (SMS.direct_access E st)))).
Proof.
  split.
  - intros (u & Hu). rewrite run_without_denial by congruence. now exists u.
  - intros Hdenied text stream Hshell Hb64.
    rewrite (run_after_denial E st Hdenied). cbv zeta. cbn [value final].
    split.
    + intros Hmagic.
      rewrite (_extract_sms_adb_bad_magic E _ text stream Hshell Hb64 Hmagic).
      split; [now exists tt|reflexivity].
    + intros tar_data e (Hmagic & magic_header & version & is_compressed
                          & Hsplit & Hflag) Hfail.
      rewrite (_extract_sms_adb_five_fields E _ text stream _ _ _ _ _
                 Hshell Hb64 Hmagic Hsplit).
      assert (Hcheck : SMS.encrypted_or_compressed (b "none") is_compressed =
                       Ok false).
      { unfold SMS.encrypted_or_compressed. now rewrite Hflag. }
      rewrite Hcheck. cbn [prepend value final].
      destruct (decode_failure_raises E tar_data e
                  (final (SMS.direct_access E st)) Hfail) as (-> & ->).
      split; reflexivity.
Qed.

Lemma backup_decode_errors_escape_run_witness :
  value (SMS.direct_access (Fixtures.locked Fixtures.stream_with_empty_archive)
           Fixtures.fresh) = Raise InsufficientPrivileges /\
  accepted_container
    (b "ANDROID BACKUP" ++ x0a :: b "5" ++ x0a :: b "0" ++ x0a
       :: b "none" ++ [x0a]) [] /\
  decode_failure (Fixtures.locked Fixtures.stream_with_empty_archive) []
    TarReadError /\
  value (SMS.run (Fixtures.locked Fixtures.stream_with_empty_archive)
           Fixtures.fresh) = Raise TarReadError /\
  results (final (SMS.run (Fixtures.locked Fixtures.stream_with_empty_archive)
                    Fixtures.fresh)) =
    results (final (SMS.direct_access
                      (Fixtures.locked Fixtures.stream_with_empty_archive)
                      Fixtures.fresh)).
Proof.
  assert (Haccepted :
            accepted_container
              (b "ANDROID BACKUP" ++ x0a :: b "5" ++ x0a :: b "0" ++ x0a
                 :: b "none" ++ [x0a]) []).
  { split; [reflexivity|]. exists (b "ANDROID BACKUP"), (b "5"), (b "0").
    split; reflexivity. }
  assert (Hfail :
            decode_failure (Fixtures.locked Fixtures.stream_with_empty_archive)
              [] TarReadError)
    by (apply invalid_tar; reflexivity).
  split; [reflexivity|]. split; [exact Haccepted|]. split; [exact Hfail|].
  destruct (backup_decode_errors_escape_run
              (Fixtures.locked Fixtures.stream_with_empty_archive)
              Fixtures.fresh) as (_ & Hdenied).
  eapply Hdenied; try reflexivity; eassumption.
Defined.

(** C3, as the claim has it, fails: on a device that refuses direct
    access and whose backup holds an empty payload, opening the archive
    raises and the error leaves [run]. *)
Lemma run_raises_on_invalid_tar :
  value (SMS.run (Fixtures.locked Fixtures.stream_with_empty_archive)
           Fixtures.fresh) = Raise TarReadError /\
  ~ completes (SMS.run (Fixtures.locked Fixtures.stream_with_empty_archive)
                 Fixtures.fresh).
Proof.
  split; [reflexivity|]. intros (u & Hu). discriminate Hu.
Qed.

(** Other inputs on which an error leaves [run]: a backup stream cut
    after the magic header, and a store with a NULL body. *)
Example run_raises_on_truncated_header :
  value (SMS.run (Fixtures.locked "QU5EUk9JRCBCQUNLVVA=") Fixtures.fresh) =
  Raise ValueError.
Proof. reflexivity. Qed.

Example run_raises_on_null_body :
  value (SMS.run Fixtures.null_body_device Fixtures.fresh) = Raise TypeError.
Proof. reflexivity. Qed.

(** ** The records a run over a store ends with *)

Lemma results_after_app (E : Externals) (before : list sms_record)
    (normalized : result sms_record) :
  results_after E before normalized = before ++ results_after E [] normalized.
Proof.
  unfold results_after.
  destruct normalized as [m|e]; [|now rewrite app_nil_r].
  destruct (dict_get m "body") as [body|]; [|now rewrite app_nil_r].
  destruct (check_for_links E body); [|now rewrite app_nil_r].
  destruct (retain E body); [reflexivity|now rewrite app_nil_r].
Qed.

(** The loop over the rows, when no row raises: the records kept, in the
    order of the rows, after the results there were. *)
Lemma parse_db_rows_results (E : Externals) (names : list string)
    (rows : list (list pyval)) (st : state) :
  value (for_each rows (SMS.parse_db_item E names) st) = Ok tt ->
  results (final (for_each rows (SMS.parse_db_item E names) st)) =
  results st ++ kept_rows E names rows.
Proof.
  revert st. induction rows as [|item rows IH]; intros st; simpl.
  - intros _. now rewrite app_nil_r.
  - unfold bind.
    destruct (value (SMS.parse_db_item E names item st)) as [[]|e] eqn:Hitem;
      cbn [value final]; [|discriminate].
    intros Hrest. rewrite (IH _ Hrest), parse_db_item_results.
    rewrite results_after_app. unfold kept_rows. simpl.
    now rewrite app_assoc.
Qed.

(** When [_parse_db] returns normally, the results are the results there
    were followed by the records of the rows that the filter keeps. *)
Lemma _parse_db_results (E : Externals) (db_path : string)
    (conn : database) (query : string) (cur : cursor) (names : list string)
    (st : state) :
  sqlite3_connect E db_path = Ok conn ->
  (SMS_DB_TYPE st = Some 1 /\ query = SMS_BUGLE_QUERY \/
   SMS_DB_TYPE st = Some 2 /\ query = SMS_MMSMS_QUERY) ->
  execute conn query = Ok cur ->
  description cur = Some names ->
  value (SMS._parse_db E db_path st) = Ok tt ->
  results (final (SMS._parse_db E db_path st)) =
  results st ++ kept_rows E names (fetched cur).
Proof.
  intros Hconn Hvariant Hexec Hnames.
  unfold SMS._parse_db.
  rewrite Hconn, lift_ok_bind, emit_bind, get_bind. cbn [value final].
  destruct Hvariant as [(Hty & ->)|(Hty & ->)]; rewrite Hty; cbn [Z.eqb Pos.eqb];
    rewrite bind_assoc, emit_bind, Hexec, lift_ok_bind; cbn [value final];
    unfold SMS.description_names; rewrite Hnames, lift_ok_bind;
    rewrite silent_bind by apply parse_db_rows_silent;
    (destruct (value (for_each (fetched cur) (SMS.parse_db_item E names) st))
       as [[]|e] eqn:Hloop; cbn [value final]; [|discriminate]);
    intros Hret;
    rewrite <- (parse_db_rows_results E names (fetched cur) st Hloop);
    (destruct (iteration_error cur); [discriminate|reflexivity]).
Qed.


(** ** Two instances made with the default arguments *)



(** The same on the chat store. *)
Example default_instances_chat :
  Instances.outputs (Instances.made_then_run Fixtures.chat_device) =
    ([Fixtures.chat_record], [Fixtures.chat_record]) /\
  Instances.outputs (Instances.made_and_run_in_turn Fixtures.chat_device) =
    ([Fixtures.chat_record], [Fixtures.chat_record]).
Proof. split; reflexivity. Qed.

(** An instance that is handed a list holding a record keeps that list
    and appends to it. *)
Example handed_list_is_appended_to :
  Instances.__init__ [[]; [Fixtures.chat_record]] (Some 1%nat) =
    ([[]; [Fixtures.chat_record]], Instances.mkInstance 1%nat None) /\
  Instances.run Fixtures.inbox_device (Instances.mkInstance 1%nat None)
    [[]; [Fixtures.chat_record]] =
    ([[]; [Fixtures.chat_record; Fixtures.inbox_record]],
     Instances.mkInstance 1%nat (Some 2), Ok tt).
Proof. split; reflexivity. Qed.

(** * Further properties of the module *)

(** ** Bodies of whitespace *)

Lemma lstrip_nil (sp : ascii -> bool) (l : list ascii) :
  lstrip sp l = [] <-> forallb sp l = true.
Proof.
  induction l as [|c l IH]; simpl; [tauto|].
  destruct (sp c); simpl; [exact IH|]. split; discriminate.
Qed.

Lemma lstrip_all (sp : ascii -> bool) (l : list ascii) :
  forallb sp l = true -> lstrip sp l = [].
Proof. apply lstrip_nil. Qed.

(** What [lstrip] leaves starts with a character that is not
    whitespace. *)
Lemma lstrip_head (sp : ascii -> bool) (l : list ascii) (c : ascii)
    (rest : list ascii) :
  lstrip sp l = c :: rest -> sp c = false.
Proof.
  induction l as [|x l IH]; simpl; [discriminate|].
  destruct (sp x) eqn:Hx; auto. intros H. injection H as -> _. exact Hx.
Qed.

Lemma strip_chars_nil (sp : ascii -> bool) (l : list ascii) :
  strip_chars sp l = [] <-> forallb sp l = true.
Proof.
  unfold strip_chars. split.
  - intros H. apply lstrip_nil.
    destruct (lstrip sp l) as [|c rest] eqn:Hl; auto.
    apply (f_equal (@rev ascii)) in H. rewrite rev_involutive in H.
    simpl in H. apply lstrip_nil in H.
    rewrite forallb_app in H. simpl in H.
    rewrite (lstrip_head sp l c rest Hl) in H.
    rewrite andb_false_r in H. discriminate.
  - intros H. now rewrite (lstrip_all sp l H).
Qed.

Lemma string_of_list_ascii_nil (l : list ascii) :
  String.eqb (string_of_list_ascii l) "" = true <-> l = [].
Proof.
  destruct l; simpl; split; auto; discriminate.
Qed.

Lemma empty_after_trim_whitespace (s : string) :
  empty_after_trim (PStr s) = forallb is_space_str (list_ascii_of_string s).
Proof.
  unfold empty_after_trim, str_strip.
  destruct (forallb is_space_str (list_ascii_of_string s)) eqn:Hall.
  - apply string_of_list_ascii_nil, strip_chars_nil, Hall.
  - destruct (String.eqb _ "") eqn:Hempty; auto.
    apply string_of_list_ascii_nil, strip_chars_nil in Hempty. congruence.
Qed.

(** X1. A record whose body is a [str] in which the detector finds no
    link is appended exactly when every character of the body is
    whitespace (the empty body included); a body with one other character
    is dropped. *)
Theorem linkless_body_kept_iff_whitespace (E : Externals) (m : sms_record)
    (s : string) (st : state) :
  dict_get m "body" = Some (PStr s) ->
  check_for_links E (PStr s) = Ok [] ->
  value (SMS.append_if_kept E m st) = Ok tt /\
  results (final (SMS.append_if_kept E m st)) =
    if forallb is_space_str (list_ascii_of_string s)
    then results st ++ [m]
    else results st.
Proof.
  intros Hbody Hlinks.
  unfold SMS.append_if_kept, SMS.links_or_empty, bind, lift; simpl.
  rewrite Hbody; simpl. rewrite Hlinks; simpl.
  fold (empty_after_trim (PStr s)). rewrite empty_after_trim_whitespace.
  destruct (forallb is_space_str (list_ascii_of_string s)); split; reflexivity.
Qed.

Lemma linkless_body_kept_iff_whitespace_witness :
  dict_get [("body", PStr "   ")] "body" = Some (PStr "   ") /\
  check_for_links Fixtures.inbox_device (PStr "   ") = Ok [] /\
  value (SMS.append_if_kept Fixtures.inbox_device [("body", PStr "   ")]
           Fixtures.fresh) = Ok tt /\
  results (final (SMS.append_if_kept Fixtures.inbox_device
                    [("body", PStr "   ")] Fixtures.fresh)) =
    if forallb is_space_str (list_ascii_of_string "   ")
    then results Fixtures.fresh ++ [[("body", PStr "   ")]]
    else results Fixtures.fresh.
Proof.
  split; [reflexivity|]. split; [reflexivity|].
  apply (linkless_body_kept_iff_whitespace Fixtures.inbox_device
           [("body", PStr "   ")] "   " Fixtures.fresh); reflexivity.
Defined.

(** ** The fields of the backup stream *)

Lemma split_on_not_nil (sep : byte) (n : nat) (field s : bytes) :
  split_on sep n field s <> [].
Proof.
  revert n field. induction s as [|x s IH]; intros [|n] field; simpl;
    try discriminate.
  destruct (byte_eqb x sep); [discriminate|apply IH].
Qed.

Lemma bytes_join_cons (sep : byte) (first : bytes) (rest : list bytes) :
  rest <> [] ->
  bytes_join sep (first :: rest) = first ++ sep :: bytes_join sep rest.
Proof.
  destruct rest as [|second rest]; [congruence|]. intros _. reflexivity.
Qed.

Lemma split_on_join (sep : byte) (n : nat) (field s : bytes) :
  bytes_join sep (split_on sep n field s) = rev field ++ s.
Proof.
  revert n field. induction s as [|x s IH]; intros [|n] field; simpl;
    rewrite ?app_nil_r; auto.
  destruct (byte_eqb x sep) eqn:Hx.
  - apply Byte.byte_dec_bl in Hx as ->.
    rewrite bytes_join_cons by apply split_on_not_nil.
    now rewrite IH.
  - rewrite IH. simpl. now rewrite <- app_assoc.
Qed.

(** The fields cut off before the last hold no separator. *)
Lemma split_on_fields (sep : byte) (n : nat) (field s : bytes) :
  ~ In sep field ->
  Forall (fun f => ~ In sep f) (removelast (split_on sep n field s)).
Proof.
  revert n field. induction s as [|x s IH]; intros [|n] field Hfield; simpl;
    auto.
  destruct (byte_eqb x sep) eqn:Hx.
  - pose proof (split_on_not_nil sep n [] s) as Hne.
    pose proof (IH n [] (fun H => H)) as Hrest.
    destruct (split_on sep n [] s) as [|f fs]; [congruence|].
    constructor; [now rewrite <- in_rev | exact Hrest].
  - apply IH. intros [Heq|Hin]; auto.
    subst x. unfold byte_eqb in Hx.
    rewrite (Byte.byte_dec_lb (eq_refl sep)) in Hx. discriminate.
Qed.

Lemma split_on_length (sep : byte) (n : nat) (field s : bytes) :
  List.length (split_on sep n field s) = S (Nat.min n (count_byte sep s)).
Proof.
  unfold count_byte.
  revert n field. induction s as [|x s IH]; intros [|n] field; simpl; auto.
  unfold byte_eqb at 1 2. 
  destruct (Byte.eqb x sep) eqn:Hx.
  - apply Byte.byte_dec_bl in Hx as ->.
    rewrite (Byte.byte_dec_lb (eq_refl sep)). simpl. now rewrite IH.
  - assert (Hsym : Byte.eqb sep x = false).
    { destruct (Byte.eqb sep x) eqn:Hs; auto.
      apply Byte.byte_dec_bl in Hs as ->.
      rewrite (Byte.byte_dec_lb (eq_refl x)) in Hx. discriminate. }
    rewrite Hsym. apply (IH (S n)).
Qed.

(** X2. When the backup stream splits into five fields, the stream is the
    five fields joined by newlines, and none of the four header fields
    holds a newline: the payload is all that follows the fourth newline,
    taken as it is. *)
Theorem container_fields_are_the_stream (stream magic_header version
    is_compressed encryption tar_data : bytes) :
  bytes_split stream x0a 4 =
    [magic_header; version; is_compressed; encryption; tar_data] ->
  stream = magic_header ++ x0a :: version ++ x0a :: is_compressed ++ x0a
             :: encryption ++ x0a :: tar_data /\
  Forall (fun f => ~ In x0a f) [magic_header; version; is_compressed; encryption].
Proof.
  intros Hsplit. split.
  - pose proof (split_on_join x0a 4 [] stream) as Hjoin.
    unfold bytes_split in Hsplit. rewrite Hsplit in Hjoin.
    simpl in Hjoin. rewrite !app_nil_r in Hjoin. now rewrite <- Hjoin.
  - pose proof (split_on_fields x0a 4 [] stream (fun H => H)) as Hfields.
    unfold bytes_split in Hsplit. now rewrite Hsplit in Hfields.
Qed.

Lemma container_fields_are_the_stream_witness :
  bytes_split (b "ANDROID BACKUP" ++ x0a :: b "5" ++ x0a :: b "0" ++ x0a
                 :: b "none" ++ x0a :: [x0a; x0a]) x0a 4 =
    [b "ANDROID BACKUP"; b "5"; b "0"; b "none"; [x0a; x0a]] /\
  b "ANDROID BACKUP" ++ x0a :: b "5" ++ x0a :: b "0" ++ x0a
    :: b "none" ++ x0a :: [x0a; x0a] =
  b "ANDROID BACKUP" ++ x0a :: b "5" ++ x0a :: b "0" ++ x0a
    :: b "none" ++ x0a :: [x0a; x0a] /\
  Forall (fun f => ~ In x0a f) [b "ANDROID BACKUP"; b "5"; b "0"; b "none"].
Proof.
  split; [reflexivity|].
  apply (container_fields_are_the_stream
           (b "ANDROID BACKUP" ++ x0a :: b "5" ++ x0a :: b "0" ++ x0a
              :: b "none" ++ x0a :: [x0a; x0a])).
  reflexivity.
Defined.

(** ** The container checks, case by case *)

(** X3. A backup stream that has the magic header and fewer than four
    newlines makes the backup extraction raise [ValueError] (the five-way
    unpacking fails); nothing is logged as an error and the state is as it
    was. *)
Theorem truncated_container_raises (E : Externals) (st : state) (text : string)
    (stream : bytes) :
  _adb_command E SMS.backup_command = Ok text ->
  b64decode E text = Ok stream ->
  startswith stream (b "ANDROID BACKUP") = true ->
  (count_byte x0a stream < 4)%nat ->
  SMS._extract_sms_adb E st =
  mkOutcome st [backup_prompt; EvShell SMS.backup_command] (Raise ValueError).
Proof.
  intros Hshell Hb64 Hmagic Hcount. unfold SMS._extract_sms_adb, log.
  rewrite emit_bind, emit_bind, Hshell, lift_ok_bind, Hb64, lift_ok_bind, Hmagic.
  cbn [negb].
  pose proof (split_on_length x0a 4 [] stream) as Hlen.
  fold (bytes_split stream x0a 4) in Hlen.
  rewrite Nat.min_r in Hlen by lia.
  destruct (bytes_split stream x0a 4) as [|f1 [|f2 [|f3 [|f4 [|f5 [|f6 fs]]]]]];
    simpl in Hlen; try reflexivity; lia.
Qed.

Lemma truncated_container_raises_witness :
  _adb_command (Fixtures.locked "QU5EUk9JRCBCQUNLVVAKNQowCg==") SMS.backup_command =
    Ok "QU5EUk9JRCBCQUNLVVAKNQowCg==" /\
  b64decode (Fixtures.locked "QU5EUk9JRCBCQUNLVVAKNQowCg==")
    "QU5EUk9JRCBCQUNLVVAKNQowCg==" =
    Ok (b "ANDROID BACKUP" ++ x0a :: b "5" ++ x0a :: b "0" ++ [x0a]) /\
  SMS._extract_sms_adb (Fixtures.locked "QU5EUk9JRCBCQUNLVVAKNQowCg==")
    Fixtures.fresh =
  mkOutcome Fixtures.fresh [backup_prompt; EvShell SMS.backup_command]
    (Raise ValueError).
Proof.
  split; [reflexivity|]. split; [reflexivity|].
  apply (truncated_container_raises
           (Fixtures.locked "QU5EUk9JRCBCQUNLVVAKNQowCg==") Fixtures.fresh
           "QU5EUk9JRCBCQUNLVVAKNQowCg=="
           (b "ANDROID BACKUP" ++ x0a :: b "5" ++ x0a :: b "0" ++ [x0a]));
    try reflexivity.
  vm_compute. lia.
Defined.

(** X4. A backup stream with the magic header, five fields, encryption
    [none] and a compression flag that reads as zero is handed to the
    archive decoder: the backup extraction ends as the decoding of the
    payload ends, after the prompt and the backup command.  When the flag,
    with encryption [none], is no integer literal, the extraction raises
    [ValueError] and logs no error. *)
Theorem container_accepted_or_flag_unreadable (E : Externals) (st : state)
    (text : string) (stream magic_header version is_compressed tar_data : bytes) :
  _adb_command E SMS.backup_command = Ok text ->
  b64decode E text = Ok stream ->
  startswith stream (b "ANDROID BACKUP") = true ->
  bytes_split stream x0a 4 =
    [magic_header; version; is_compressed; b "none"; tar_data] ->
  (int_of_bytes is_compressed = Ok 0 ->
   SMS._extract_sms_adb E st =
   prepend [backup_prompt; EvShell SMS.backup_command]
     (SMS._extract_sms_from_backup_tar E tar_data st)) /\
  (forall e, int_of_bytes is_compressed = Raise e ->
   e = ValueError /\
   SMS._extract_sms_adb E st =
   mkOutcome st [backup_prompt; EvShell SMS.backup_command] (Raise ValueError)).
Proof.
  intros Hshell Hb64 Hmagic Hsplit.
  rewrite (_extract_sms_adb_five_fields E st _ _ _ _ _ _ _
             Hshell Hb64 Hmagic Hsplit).
  unfold SMS.encrypted_or_compressed.
  replace (bytes_eqb (b "none") (b "none")) with true by reflexivity.
  cbn [negb]. split.
  - intros ->. reflexivity.
  - intros e He.
    assert (e = ValueError) as ->.
    { unfold int_of_bytes, parse_int in He.
      destruct (digits_value 0 false _); [destruct (_ <? _)|]; congruence. }
    rewrite He. split; reflexivity.
Qed.

Lemma container_accepted_or_flag_unreadable_witness :
  bytes_split (b "ANDROID BACKUP" ++ x0a :: b "5" ++ x0a :: b "0" ++ x0a
                 :: b "none" ++ x0a :: b "TAR") x0a 4 =
    [b "ANDROID BACKUP"; b "5"; b "0"; b "none"; b "TAR"] /\
  int_of_bytes (b "0") = Ok 0 /\
  SMS._extract_sms_adb Fixtures.locked_with_archive Fixtures.fresh =
  prepend [backup_prompt; EvShell SMS.backup_command]
    (SMS._extract_sms_from_backup_tar Fixtures.locked_with_archive (b "TAR")
       Fixtures.fresh) /\
  int_of_bytes (b "x") = Raise ValueError /\
  SMS._extract_sms_adb (Fixtures.locked Fixtures.stream_compressed_x)
    Fixtures.fresh =
  mkOutcome Fixtures.fresh [backup_prompt; EvShell SMS.backup_command]
    (Raise ValueError).
Proof.
  split; [reflexivity|]. split; [reflexivity|]. split.
  - apply (container_accepted_or_flag_unreadable Fixtures.locked_with_archive
             Fixtures.fresh Fixtures.stream_with_archive
             (b "ANDROID BACKUP" ++ x0a :: b "5" ++ x0a :: b "0" ++ x0a
                :: b "none" ++ x0a :: b "TAR")
             (b "ANDROID BACKUP") (b "5") (b "0") (b "TAR"));
      reflexivity.
  - split; [reflexivity|].
    apply (container_accepted_or_flag_unreadable
             (Fixtures.locked Fixtures.stream_compressed_x)
             Fixtures.fresh Fixtures.stream_compressed_x
             (b "ANDROID BACKUP" ++ x0a :: b "5" ++ x0a :: b "x" ++ x0a
                :: b "none" ++ x0a :: b "TAR")
             (b "ANDROID BACKUP") (b "5") (b "x") (b "TAR") eq_refl eq_refl
             eq_refl eq_refl) with (e := ValueError).
    reflexivity.
Defined.

Lemma digits_value_zeros (k : nat) (after_digit : bool) :
  digits_value 0 after_digit (repeat "0"%char (S k)) = Some 0.
Proof.
  revert after_digit. induction k as [|k IH]; intros after_digit.
  - reflexivity.
  - change (repeat "0"%char (S (S k))) with ("0"%char :: repeat "0"%char (S k)).
    cbn [digits_value]. change (digit_value "0") with (Some 0). apply IH.
Qed.

Lemma rev_repeat_same {A} (x : A) (n : nat) : rev (repeat x n) = repeat x n.
Proof.
  induction n as [|n IH]; simpl; auto.
  rewrite IH. clear IH. induction n as [|n IH]; simpl; auto. now rewrite IH.
Qed.

Lemma count_digits_zeros (n : nat) :
  count_digits (repeat "0"%char n) = Z.of_nat n.
Proof.
  induction n as [|n IH]; [reflexivity|].
  change (repeat "0"%char (S n)) with ("0"%char :: repeat "0"%char n).
  cbn [count_digits]. change (digit_value "0") with (Some 0).
  rewrite IH. lia.
Qed.

Lemma int_of_bytes_zeros (k : nat) :
  int_of_bytes (repeat "0"%byte (S k)) =
  if max_str_digits <? Z.of_nat (S k) then Raise ValueError else Ok 0.
Proof.
  unfold int_of_bytes, parse_int, ascii_of_bytes.
  rewrite map_repeat. change (ascii_of_byte "0") with "0"%char.
  assert (Hstrip : strip_chars is_space_bytes (repeat "0"%char (S k)) =
                   repeat "0"%char (S k)).
  { unfold strip_chars.
    change (lstrip is_space_bytes (repeat "0"%char (S k)))
      with (repeat "0"%char (S k)).
    rewrite rev_repeat_same.
    change (lstrip is_space_bytes (repeat "0"%char (S k)))
      with (repeat "0"%char (S k)).
    apply rev_repeat_same. }
  rewrite Hstrip.
  change (repeat "0"%char (S k)) with ("0"%char :: repeat "0"%char k).
  cbv iota. cbn [snd fst].
  change ("0"%char :: repeat "0"%char k) with (repeat "0"%char (S k)).
  rewrite digits_value_zeros, count_digits_zeros.
  destruct (max_str_digits <? Z.of_nat (S k)); reflexivity.
Qed.

(** X5. The compression flag is read as a number, within the digit limit
    of [int]: a flag made of zeros only, at most 4300 of them, reads as
    zero, so with encryption [none] the stream is not rejected; a flag of
    more than 4300 zeros is no number for [int], and the test of the
    container raises [ValueError]. *)
Theorem compression_flag_of_zeros (k : nat) :
  (Z.of_nat (S k) <= 4300 ->
   int_of_bytes (repeat "0"%byte (S k)) = Ok 0 /\
   SMS.encrypted_or_compressed (b "none") (repeat "0"%byte (S k)) = Ok false) /\
  (4300 < Z.of_nat (S k) ->
   int_of_bytes (repeat "0"%byte (S k)) = Raise ValueError /\
   SMS.encrypted_or_compressed (b "none") (repeat "0"%byte (S k)) =
     Raise ValueError).
Proof.
  unfold SMS.encrypted_or_compressed.
  replace (bytes_eqb (b "none") (b "none")) with true by reflexivity.
  cbn [negb]. rewrite int_of_bytes_zeros. unfold max_str_digits.
  split; intros Hk.
  - destruct (Z.ltb_spec 4300 (Z.of_nat (S k))); [lia|]. split; reflexivity.
  - destruct (Z.ltb_spec 4300 (Z.of_nat (S k))); [|lia]. split; reflexivity.
Qed.

Lemma compression_flag_of_zeros_witness :
  (Z.of_nat 2 <= 4300 /\
   int_of_bytes (repeat "0"%byte 2) = Ok 0 /\
   SMS.encrypted_or_compressed (b "none") (repeat "0"%byte 2) = Ok false) /\
  (4300 < Z.of_nat 4301 /\
   int_of_bytes (repeat "0"%byte 4301) = Raise ValueError /\
   SMS.encrypted_or_compressed (b "none") (repeat "0"%byte 4301) =
     Raise ValueError).
Proof.
  split.
  - split; [lia|]. apply (compression_flag_of_zeros 1). lia.
  - split; [lia|]. apply (compression_flag_of_zeros 4300). lia.
Defined.

(** ** Archives and their members *)

(** X6. An archive that opens and has no member whose name ends in
    [_sms_backup] gives no record: the decoder logs its closing line and
    returns, the state as it was. *)
Theorem archive_without_sms_member (E : Externals) (tar_data : bytes)
    (members : list tar_member) (st : state) :
  tarfile_open E tar_data = Ok members ->
  Forall (fun m => endswith (name m) "_sms_backup" = false) members ->
  SMS._extract_sms_from_backup_tar E tar_data st =
  mkOutcome st [rows_extracted] (Ok tt).
Proof.
  intros Hopen Hnone. unfold SMS._extract_sms_from_backup_tar.
  rewrite Hopen, lift_ok_bind.
  assert (Hloop : for_each members (SMS.parse_backup_member E) st =
                  mkOutcome st [] (Ok tt)).
  { rewrite <- (app_nil_r members).
    now rewrite (skip_other_members E members [] st Hnone). }
  unfold bind. rewrite Hloop. reflexivity.
Qed.

Lemma archive_without_sms_member_witness :
  tarfile_open
    (Sample.device (fun _ => Fixtures.unused) (fun _ => Fixtures.unused)
       (fun _ => Fixtures.unused) (fun _ => Fixtures.unused)
       (fun _ => Ok [mkMember "apps/com.android.providers.telephony/_manifest"
                       (Some [])])
       Fixtures.inflate Fixtures.loads) (b "TAR") =
    Ok [mkMember "apps/com.android.providers.telephony/_manifest" (Some [])] /\
  SMS._extract_sms_from_backup_tar
    (Sample.device (fun _ => Fixtures.unused) (fun _ => Fixtures.unused)
       (fun _ => Fixtures.unused) (fun _ => Fixtures.unused)
       (fun _ => Ok [mkMember "apps/com.android.providers.telephony/_manifest"
                       (Some [])])
       Fixtures.inflate Fixtures.loads) (b "TAR") Fixtures.fresh =
  mkOutcome Fixtures.fresh [rows_extracted] (Ok tt).
Proof.
  split; [reflexivity|].
  apply (archive_without_sms_member _ (b "TAR")
           [mkMember "apps/com.android.providers.telephony/_manifest" (Some [])]).
  - reflexivity.
  - repeat constructor.
Defined.

(** The loop over the items of a string or of the keys of an object
    stops at its first item: a [str] has no ["date"]. *)
Lemma for_each_first_not_object (E : Externals) (item : pyval)
    (rest : list pyval) (st : state) :
  (forall d, item <> PDict d) ->
  for_each (item :: rest) (SMS.parse_backup_message E) st =
  mkOutcome st [] (Raise TypeError).
Proof.
  intros Hitem. simpl. unfold bind.
  destruct item; try reflexivity. now destruct (Hitem d).
Qed.

(** X7. An SMS member whose JSON text is not a list gives no record: when
    the value is empty (an empty object or string) the member is passed
    over; otherwise the loop over the member raises [TypeError].  In both
    cases the results are as they were. *)
Theorem member_json_not_a_list (E : Externals) (member : tar_member)
    (raw text : bytes) (json_data : pyval) (st : state) :
  endswith (name member) "_sms_backup" = true ->
  content member = Some raw ->
  zlib_decompress E raw = Ok text ->
  json_loads E text = Ok json_data ->
  (forall l, json_data <> PList l) ->
  results (final (SMS.parse_backup_member E member st)) = results st /\
  value (SMS.parse_backup_member E member st) =
    match json_data with
    | PDict [] | PStr EmptyString | PBytes [] => Ok tt
    | _ => Raise TypeError
    end.
Proof.
  intros Hname Hraw Hzlib Hjson Hlist.
  unfold SMS.parse_backup_member, log. rewrite Hname. cbn [negb].
  rewrite emit_bind, Hraw, lift_ok_bind, Hzlib, lift_ok_bind, Hjson, lift_ok_bind.
  cbn [final value].
  destruct json_data as [| | | |s|bs| |l|d]; try (split; reflexivity).
  - destruct s as [|c s]; [split; reflexivity|].
    simpl py_iter. rewrite lift_ok_bind.
    cbn [list_ascii_of_string map].
    rewrite for_each_first_not_object by (intros d; discriminate).
    split; reflexivity.
  - destruct bs as [|x bs]; [split; reflexivity|].
    simpl py_iter. rewrite lift_ok_bind.
    rewrite for_each_first_not_object by (intros d; discriminate).
    split; reflexivity.
  - now destruct (Hlist l).
  - destruct d as [|[k v] d]; [split; reflexivity|].
    simpl py_iter. rewrite lift_ok_bind.
    rewrite for_each_first_not_object by (intros d'; discriminate).
    split; reflexivity.
Qed.

Lemma member_json_not_a_list_witness :
  endswith (name Fixtures.sms_member) "_sms_backup" = true /\
  content Fixtures.sms_member = Some (b "ZLIB") /\
  results (final (SMS.parse_backup_member
                    (Sample.device (fun _ => Fixtures.unused)
                       (fun _ => Fixtures.unused) (fun _ => Fixtures.unused)
                       (fun _ => Fixtures.unused) Fixtures.untar
                       Fixtures.inflate
                       (fun _ => Ok (PDict [("date", PStr "0")])))
                    Fixtures.sms_member Fixtures.fresh)) =
    results Fixtures.fresh /\
  value (SMS.parse_backup_member
           (Sample.device (fun _ => Fixtures.unused)
              (fun _ => Fixtures.unused) (fun _ => Fixtures.unused)
              (fun _ => Fixtures.unused) Fixtures.untar Fixtures.inflate
              (fun _ => Ok (PDict [("date", PStr "0")])))
           Fixtures.sms_member Fixtures.fresh) = Raise TypeError.
Proof.
  split; [reflexivity|]. split; [reflexivity|].
  apply (member_json_not_a_list
           (Sample.device (fun _ => Fixtures.unused)
              (fun _ => Fixtures.unused) (fun _ => Fixtures.unused)
              (fun _ => Fixtures.unused) Fixtures.untar Fixtures.inflate
              (fun _ => Ok (PDict [("date", PStr "0")])))
           Fixtures.sms_member (b "ZLIB") (b "JSON")
           (PDict [("date", PStr "0")]) Fixtures.fresh);
    try reflexivity.
  intros l. discriminate.
Defined.

(** A message object that normalizes has its [date] and [date_sent], and
    the record has the body of the object. *)
Lemma backup_message_isodate_direction_keys (E : Externals) (d : dict)
    (m : sms_record) :
  SMS.normalize_backup_message E d = Ok m ->
  exists date date_sent,
    dict_get d "date" = Some date /\
    dict_get d "date_sent" = Some date_sent /\
    dict_get m "body" = dict_get d "body".
Proof.
  unfold SMS.normalize_backup_message; simpl.
  destruct (dict_get d "date") as [date|]; simpl; [|discriminate].
  destruct (py_int (float_to_int E) date); simpl; [|discriminate].
  destruct (int_truediv _ 1000); simpl; [|discriminate].
  destruct (utcfromtimestamp E _); simpl; [|discriminate].
  destruct (convert_timestamp_to_iso E _); simpl; [|discriminate].
  rewrite dict_get_set_other by discriminate.
  destruct (dict_get d "date_sent") as [date_sent|]; simpl; [|discriminate].
  destruct (py_int (float_to_int E) date_sent); simpl; [|discriminate].
  intros H. injection H as <-.
  exists date, date_sent. repeat split.
  now rewrite !dict_get_set_other by discriminate.
Qed.

(** X8. A message object of the backup that lacks one of the keys
    [date], [date_sent] and [body] is never appended: its processing
    raises, and the results are as they were. *)
Theorem backup_message_lacking_a_key (E : Externals) (d : dict) (st : state) :
  dict_get d "date" = None \/ dict_get d "date_sent" = None \/
  dict_get d "body" = None ->
  (exists e, value (SMS.parse_backup_message E (PDict d) st) = Raise e) /\
  results (final (SMS.parse_backup_message E (PDict d) st)) = results st.
Proof.
  intros Hmissing.
  assert (Hraise : exists e,
             value (SMS.parse_backup_message E (PDict d) st) = Raise e).
  { unfold SMS.parse_backup_message, bind, lift. cbn [value final].
    destruct (SMS.normalize_backup_message E d) as [m|e] eqn:Hnorm;
      cbn [value]; [|eauto].
    destruct (backup_message_isodate_direction_keys E d m Hnorm)
      as (date & date_sent & Hdate & Hsent & Hbody).
    destruct Hmissing as [H|[H|H]]; try congruence.
    unfold SMS.append_if_kept, SMS.links_or_empty, bind, lift.
    cbn [py_getitem rbind value]. rewrite Hbody, H. cbn. eauto. }
  split; auto.
  destruct Hraise as (e & He).
  pose proof (parse_backup_message_results E (PDict d) st) as Hres.
  cbv iota in Hres. rewrite Hres. unfold results_after.
  destruct (SMS.normalize_backup_message E d) as [m|e'] eqn:Hnorm; auto.
  destruct (backup_message_isodate_direction_keys E d m Hnorm)
    as (date & date_sent & Hdate & Hsent & Hbody).
  destruct Hmissing as [H|[H|H]]; try congruence.
  now rewrite Hbody, H.
Qed.

Lemma backup_message_lacking_a_key_witness :
  (dict_get [("body", PStr ""); ("date", PStr "0")] "date" = None \/
   dict_get [("body", PStr ""); ("date", PStr "0")] "date_sent" = None \/
   dict_get [("body", PStr ""); ("date", PStr "0")] "body" = None) /\
  (exists e,
     value (SMS.parse_backup_message Fixtures.locked_with_archive
              (PDict [("body", PStr ""); ("date", PStr "0")]) Fixtures.fresh) =
     Raise e) /\
  results (final (SMS.parse_backup_message Fixtures.locked_with_archive
                    (PDict [("body", PStr ""); ("date", PStr "0")])
                    Fixtures.fresh)) = results Fixtures.fresh.
Proof.
  assert (Hmissing :
            dict_get [("body", PStr ""); ("date", PStr "0")] "date" = None \/
            dict_get [("body", PStr ""); ("date", PStr "0")] "date_sent" = None \/
            dict_get [("body", PStr ""); ("date", PStr "0")] "body" = None)
    by (right; left; reflexivity).
  split; [exact Hmissing|].
  exact (backup_message_lacking_a_key Fixtures.locked_with_archive
           [("body", PStr ""); ("date", PStr "0")] Fixtures.fresh Hmissing).
Defined.

(** ** [_parse_db] on its own *)

(** X9. [_parse_db] called while [SMS_DB_TYPE] is not set, or is neither 1
    nor 2, executes no query and raises ([AttributeError] on the missing
    attribute, [TypeError] on the cursor without description), after the
    connection was opened and without closing it. *)
Theorem _parse_db_without_schema_variant (E : Externals) (db_path : string)
    (conn : database) (st : state) :
  sqlite3_connect E db_path = Ok conn ->
  (SMS_DB_TYPE st = None ->
   SMS._parse_db E db_path st =
   mkOutcome st [EvConnect db_path] (Raise AttributeError)) /\
  (forall n, SMS_DB_TYPE st = Some n -> n <> 1 -> n <> 2 ->
   SMS._parse_db E db_path st =
   mkOutcome st [EvConnect db_path] (Raise TypeError)).
Proof.
  intros Hconn. unfold SMS._parse_db.
  rewrite Hconn, lift_ok_bind, emit_bind, get_bind. split.
  - intros ->. reflexivity.
  - intros n -> H1 H2.
    destruct (Z.eqb_spec n 1); [contradiction|].
    destruct (Z.eqb_spec n 2); [contradiction|].
    reflexivity.
Qed.

Lemma _parse_db_without_schema_variant_witness :
  sqlite3_connect Fixtures.inbox_device Fixtures.local_copy =
    Ok (Sql.mmssms_db Fixtures.inbox) /\
  SMS._parse_db Fixtures.inbox_device Fixtures.local_copy Fixtures.fresh =
    mkOutcome Fixtures.fresh [EvConnect Fixtures.local_copy]
      (Raise AttributeError) /\
  SMS._parse_db Fixtures.inbox_device Fixtures.local_copy (mkState [] (Some 3)) =
    mkOutcome (mkState [] (Some 3)) [EvConnect Fixtures.local_copy]
      (Raise TypeError).
Proof.
  split; [reflexivity|].
  destruct (_parse_db_without_schema_variant Fixtures.inbox_device
              Fixtures.local_copy (Sql.mmssms_db Fixtures.inbox)
              Fixtures.fresh eq_refl) as (Hunset & _).
  destruct (_parse_db_without_schema_variant Fixtures.inbox_device
              Fixtures.local_copy (Sql.mmssms_db Fixtures.inbox)
              (mkState [] (Some 3)) eq_refl) as (_ & Hother).
  split; [apply Hunset; reflexivity|].
  apply (Hother 3); [reflexivity|lia|lia].
Defined.

(** X10. When [_parse_db] returns normally, the results are the results
    there were followed by the records of the rows that the filter keeps,
    in the order in which the cursor gave the rows. *)
Theorem _parse_db_keeps_row_order (E : Externals) (db_path : string)
    (conn : database) (query : string) (cur : cursor) (names : list string)
    (st : state) :
  sqlite3_connect E db_path = Ok conn ->
  (SMS_DB_TYPE st = Some 1 /\ query = SMS_BUGLE_QUERY \/
   SMS_DB_TYPE st = Some 2 /\ query = SMS_MMSMS_QUERY) ->
  execute conn query = Ok cur ->
  description cur = Some names ->
  value (SMS._parse_db E db_path st) = Ok tt ->
  results (final (SMS._parse_db E db_path st)) =
  results st ++ kept_rows E names (fetched cur).
Proof.
  intros Hconn Hvariant Hexec Hnames Hret.
  now apply (_parse_db_results E db_path conn query cur names st).
Qed.

Lemma _parse_db_keeps_row_order_witness :
  sqlite3_connect Fixtures.inbox_device Fixtures.local_copy =
    Ok (Sql.mmssms_db Fixtures.inbox) /\
  execute (Sql.mmssms_db Fixtures.inbox) SMS_MMSMS_QUERY =
    Ok (mkCursor (Some query_columns) (Sql.mmssms_rows Fixtures.inbox) None) /\
  value (SMS._parse_db Fixtures.inbox_device Fixtures.local_copy
           (mkState [] (Some 2))) = Ok tt /\
  results (final (SMS._parse_db Fixtures.inbox_device Fixtures.local_copy
                    (mkState [] (Some 2)))) =
  [] ++ kept_rows Fixtures.inbox_device query_columns
          (Sql.mmssms_rows Fixtures.inbox).
Proof.
  split; [reflexivity|]. split; [reflexivity|]. split; [reflexivity|].
  apply (_parse_db_keeps_row_order Fixtures.inbox_device Fixtures.local_copy
           (Sql.mmssms_db Fixtures.inbox) SMS_MMSMS_QUERY
           (mkCursor (Some query_columns) (Sql.mmssms_rows Fixtures.inbox) None)
           query_columns (mkState [] (Some 2)));
    try reflexivity.
  right. split; reflexivity.
Defined.

(** ** Rows of the legacy store *)

(** X11. For a row of the query on the [sms] table, the record has
    direction [received] exactly when the [type] column equals 1, and
    [sent] for every other value, NULL included; its [isodate] is the
    conversion of the [date_sent] column, which the query selects as the
    timestamp. *)
Theorem legacy_row_direction_and_isodate (E : Externals) (row : Sql.sms_row)
    (record : sms_record) :
  SMS.normalize_row E query_columns
    [Sql.sms_address row; Sql.sms_date_sent row; Sql.sms_type row;
     Sql.sms_body row] = Ok record ->
  dict_get record "direction" =
    Some (PStr (if SMS.py_eq_int E (Sql.sms_type row) 1
                then "received" else "sent")) /\
  (Sql.sms_type row = PNone -> dict_get record "direction" = Some (PStr "sent")) /\
  (exists isodate,
     convert_timestamp_to_iso E (Sql.sms_date_sent row) = Ok isodate /\
     dict_get record "isodate" = Some isodate) /\
  dict_get record "body" = Some (Sql.sms_body row) /\
  dict_get record "address" = Some (Sql.sms_address row).
Proof.
  unfold SMS.normalize_row; simpl.
  destruct (convert_timestamp_to_iso E (Sql.sms_date_sent row)) as [iso|e] eqn:Hiso;
    simpl; [|discriminate].
  intros H. injection H as <-. simpl.
  repeat split; eauto.
  intros ->. reflexivity.
Qed.

Lemma legacy_row_direction_and_isodate_witness :
  SMS.normalize_row Fixtures.inbox_device query_columns
    [PStr "+1555"; PInt 0; PInt 1; PStr "click http://evil.example"] =
    Ok Fixtures.inbox_record /\
  dict_get Fixtures.inbox_record "direction" = Some (PStr "received").
Proof.
  split; [reflexivity|].
  destruct (legacy_row_direction_and_isodate Fixtures.inbox_device
              (Sql.mkSms (PStr "+1555") (PInt 0) (PInt 1)
                 (PStr "click http://evil.example"))
              Fixtures.inbox_record eq_refl) as (Hdirection & _).
  exact Hdirection.
Defined.

(** ** What [run] does not do *)

(** X12. When neither store is found, [run] returns normally after the
    two probes and does nothing else: nothing is extracted, and the backup
    is not attempted. *)
Theorem run_without_store_does_nothing (E : Externals) (st : state) :
  _adb_check_file_exists E bugle_path = Ok false ->
  _adb_check_file_exists E mmssms_path = Ok false ->
  SMS.run E st =
  mkOutcome st [EvCheckFile bugle_path; EvCheckFile mmssms_path] (Ok tt).
Proof.
  intros Hchat Hlegacy.
  assert (Hdirect : SMS.direct_access E st =
                    mkOutcome st [EvCheckFile bugle_path; EvCheckFile mmssms_path]
                      (Ok tt))
    by now rewrite direct_access_shape, Hchat, Hlegacy.
  rewrite run_without_denial; rewrite Hdirect; [reflexivity|discriminate].
Qed.

Lemma run_without_store_does_nothing_witness :
  _adb_check_file_exists (Fixtures.rooted "/none" (Sql.mmssms_db [])) bugle_path =
    Ok false /\
  _adb_check_file_exists (Fixtures.rooted "/none" (Sql.mmssms_db [])) mmssms_path =
    Ok false /\
  SMS.run (Fixtures.rooted "/none" (Sql.mmssms_db [])) Fixtures.fresh =
  mkOutcome Fixtures.fresh [EvCheckFile bugle_path; EvCheckFile mmssms_path]
    (Ok tt).
Proof.
  split; [reflexivity|]. split; [reflexivity|].
  apply (run_without_store_does_nothing
           (Fixtures.rooted "/none" (Sql.mmssms_db [])) Fixtures.fresh);
    reflexivity.
Defined.

(** The methods, once more: what they emit and what they append, for any
    property [P] of events that holds of the events each method emits and
    any property [Q] of records that holds of what the two normalizations
    give and the filter lets through. *)
Section MethodsEmitAndAppend.

Variable E : Externals.
Variable P : event -> Prop.
Variable Q : sms_record -> Prop.

Hypothesis Q_row : forall names item m,
  SMS.normalize_row E names item = Ok m ->
  SMS.links_or_empty E m = Ok true -> Q m.
Hypothesis Q_backup : forall d m,
  SMS.normalize_backup_message E d = Ok m ->
  SMS.links_or_empty E m = Ok true -> Q m.
Hypothesis P_log : forall lvl text, P (EvLog lvl text).
Hypothesis P_store : forall ev, store_event ev -> P ev.
Hypothesis P_probe : forall path, P (EvCheckFile path).
Hypothesis P_backup : P (EvShell SMS.backup_command).

Local Abbreviation fine m := (respects (fun _ => True) P Q m).

Ltac fine_step :=
  lazymatch goal with
  | |- forall _, _ => intro
  | |- respects _ _ _ (bind get_SMS_DB_TYPE _) => apply respects_get; intros ? _
  | |- respects _ _ _ (bind _ _) => apply respects_bind
  | |- respects _ _ _ (lift _) => apply respects_pure
  | |- respects _ _ _ (ret _) => apply respects_ret
  | |- respects _ _ _ (raise _) => apply respects_raise
  | |- respects _ _ _ (for_each _ _) => apply respects_for_each
  | |- respects _ _ _ (set_SMS_DB_TYPE _) => apply respects_set; exact I
  | |- respects _ _ _ (emit (EvLog _ _)) => apply respects_emit, P_log
  | |- respects _ _ _ (emit (EvCheckFile _)) => apply respects_emit, P_probe
  | |- respects _ _ _ (emit (EvShell _)) => apply respects_emit, P_backup
  | |- respects _ _ _ (emit _) => apply respects_emit, P_store; exact I
  end.

Ltac fine_steps := repeat fine_step.

Lemma append_kept (m : sms_record) :
  (SMS.links_or_empty E m = Ok true -> Q m) -> fine (SMS.append_if_kept E m).
Proof.
  intros HQ st _. unfold SMS.append_if_kept, bind, lift; simpl.
  destruct (SMS.links_or_empty E m) as [[|]|e] eqn:Hkeep; simpl;
    repeat split; auto.
  - exists [m]. split; auto.
  - exists []. now rewrite app_nil_r.
  - exists []. now rewrite app_nil_r.
Qed.

Lemma parse_db_item_fine (names : list string) (item : list pyval) :
  fine (SMS.parse_db_item E names item).
Proof.
  unfold SMS.parse_db_item.
  destruct (SMS.normalize_row E names item) as [m|e] eqn:Hrow.
  - intros st HT. rewrite lift_ok_bind. apply append_kept; eauto.
  - intros st HT. rewrite lift_raise_bind. simpl. repeat split; auto.
    exists []. now rewrite app_nil_r.
Qed.

Lemma parse_backup_message_fine (item : pyval) :
  fine (SMS.parse_backup_message E item).
Proof.
  unfold SMS.parse_backup_message.
  destruct item; try apply respects_raise.
  destruct (SMS.normalize_backup_message E d) as [m|e] eqn:Hmessage.
  - intros st HT. rewrite lift_ok_bind. apply append_kept; eauto.
  - intros st HT. rewrite lift_raise_bind. simpl. repeat split; auto.
    exists []. now rewrite app_nil_r.
Qed.

Lemma _extract_sms_from_backup_tar_fine (tar_data : bytes) :
  fine (SMS._extract_sms_from_backup_tar E tar_data).
Proof.
  unfold SMS._extract_sms_from_backup_tar, log. fine_steps.
  unfold SMS.parse_backup_member, log.
  destruct (negb (endswith (name x) "_sms_backup")); fine_steps.
  apply parse_backup_message_fine.
Qed.

Lemma _extract_sms_adb_fine : fine (SMS._extract_sms_adb E).
Proof.
  unfold SMS._extract_sms_adb, log. fine_steps.
  destruct (negb (startswith _ _)); [fine_steps|].
  destruct (bytes_split _ _ _) as [|f1 [|f2 [|f3 [|f4 [|f5 [|f6 fs]]]]]];
    try apply respects_raise.
  fine_steps.
  match goal with |- context [if ?c then _ else _] => destruct c end.
  - fine_steps.
  - apply _extract_sms_from_backup_tar_fine.
Qed.

Lemma _parse_db_fine (db_path : string) : fine (SMS._parse_db E db_path).
Proof.
  unfold SMS._parse_db, log. fine_steps.
  - destruct (_ =? 1); [|destruct (_ =? 2)]; fine_steps.
  - apply parse_db_item_fine.
  - destruct (iteration_error _); fine_steps.
Qed.

Lemma direct_access_fine : fine (SMS.direct_access E).
Proof.
  unfold SMS.direct_access, SMS._adb_process_file. fine_steps.
  match goal with |- context [if ?c then _ else _] => destruct c end.
  - fine_steps. apply _parse_db_fine.
  - fine_steps.
    match goal with |- context [if ?c then _ else _] => destruct c end.
    + fine_steps. apply _parse_db_fine.
    + fine_steps.
Qed.

Lemma run_fine : fine (SMS.run E).
Proof.
  unfold SMS.run. apply respects_try.
  - apply direct_access_fine.
  - unfold log. fine_steps. apply _extract_sms_adb_fine.
Qed.

End MethodsEmitAndAppend.

(** X13. [run] sends the device a command only after the direct-access
    path raised the privilege signal, and then no command but the backup
    command; an error of the direct-access path that is not the privilege
    signal leaves [run] as it is. *)
Theorem backup_only_after_privilege_denial (E : Externals) (st : state) :
  (forall command,
     In (EvShell command) (emitted (SMS.run E st)) ->
     value (SMS.direct_access E st) = Raise InsufficientPrivileges /\
     command = SMS.backup_command) /\
  (forall e,
     value (SMS.direct_access E st) = Raise e ->
     e <> InsufficientPrivileges ->
     value (SMS.run E st) = Raise e).
Proof.
  assert (Hdirect : Forall no_command (emitted (SMS.direct_access E st))).
  { assert (Hfine : respects (fun _ => True) no_command (fun _ => True)
                      (SMS.direct_access E))
      by (apply direct_access_fine; simpl; auto; now intros []).
    now destruct (Hfine st I) as (_ & HP & _). }
  assert (Hrun : Forall backup_command_only (emitted (SMS.run E st))).
  { assert (Hfine : respects (fun _ => True) backup_command_only
                      (fun _ => True) (SMS.run E))
      by (apply run_fine; simpl; auto; now intros []).
    now destruct (Hfine st I) as (_ & HP & _). }
  rewrite Forall_forall in Hdirect, Hrun.
  split.
  - intros command Hin. split; [|exact (Hrun _ Hin)].
    destruct (value (SMS.direct_access E st)) as [u|e] eqn:Hvalue.
    + rewrite run_without_denial in Hin by congruence.
      now destruct (Hdirect _ Hin).
    + destruct e; try reflexivity;
        (rewrite run_without_denial in Hin by congruence;
         now destruct (Hdirect _ Hin)).
  - intros e Hvalue Hother.
    rewrite run_without_denial by congruence. exact Hvalue.
Qed.

Lemma backup_only_after_privilege_denial_witness :
  In (EvShell SMS.backup_command)
     (emitted (SMS.run Fixtures.locked_with_archive Fixtures.fresh)) /\
  value (SMS.direct_access Fixtures.locked_with_archive Fixtures.fresh) =
    Raise InsufficientPrivileges /\
  value (SMS.direct_access Fixtures.null_body_device Fixtures.fresh) =
    Raise TypeError /\
  value (SMS.run Fixtures.null_body_device Fixtures.fresh) = Raise TypeError.
Proof.
  assert (Hin : In (EvShell SMS.backup_command)
                  (emitted (SMS.run Fixtures.locked_with_archive Fixtures.fresh)))
    by (vm_compute; tauto).
  split; [exact Hin|].
  destruct (backup_only_after_privilege_denial Fixtures.locked_with_archive
              Fixtures.fresh) as (Hcommand & _).
  destruct (backup_only_after_privilege_denial Fixtures.null_body_device
              Fixtures.fresh) as (_ & Hother).
  split; [exact (proj1 (Hcommand _ Hin))|].
  split; [reflexivity|].
  apply Hother; [reflexivity|discriminate].
Defined.

(** ** The records [run] appends *)

Lemma normalize_row_fields (E : Externals) (names : list string)
    (item : list pyval) (m : sms_record) :
  SMS.normalize_row E names item = Ok m ->
  (dict_get m "direction" = Some (PStr "sent") \/
   dict_get m "direction" = Some (PStr "received")) /\
  exists timestamp isodate,
    convert_timestamp_to_iso E timestamp = Ok isodate /\
    dict_get m "isodate" = Some isodate.
Proof.
  unfold SMS.normalize_row.
  destruct (SMS.fill_message names 0 item []) as [message|]; simpl;
    [|discriminate].
  destruct (dict_get message "incoming") as [incoming|]; simpl; [|discriminate].
  rewrite dict_get_set_other by discriminate.
  destruct (dict_get message "timestamp") as [timestamp|]; simpl; [|discriminate].
  destruct (convert_timestamp_to_iso E timestamp) as [iso|] eqn:Hiso; simpl;
    [|discriminate].
  intros H. injection H as <-. split.
  - rewrite dict_get_set_other, dict_get_set_same by discriminate.
    destruct (SMS.py_eq_int E incoming 1); auto.
  - exists timestamp, iso. split; [exact Hiso|apply dict_get_set_same].
Qed.

Lemma normalize_backup_message_fields (E : Externals) (d : dict)
    (m : sms_record) :
  SMS.normalize_backup_message E d = Ok m ->
  (dict_get m "direction" = Some (PStr "sent") \/
   dict_get m "direction" = Some (PStr "received")) /\
  exists timestamp isodate,
    convert_timestamp_to_iso E timestamp = Ok isodate /\
    dict_get m "isodate" = Some isodate.
Proof.
  unfold SMS.normalize_backup_message; simpl.
  destruct (dict_get d "date") as [date|]; simpl; [|discriminate].
  destruct (py_int (float_to_int E) date); simpl; [|discriminate].
  destruct (int_truediv _ 1000); simpl; [|discriminate].
  destruct (utcfromtimestamp E _) as [utc|]; simpl; [|discriminate].
  destruct (convert_timestamp_to_iso E _) as [iso|] eqn:Hiso; simpl;
    [|discriminate].
  rewrite dict_get_set_other by discriminate.
  destruct (dict_get d "date_sent") as [date_sent|]; simpl; [|discriminate].
  destruct (py_int (float_to_int E) date_sent) as [sent|]; simpl; [|discriminate].
  intros H. injection H as <-. split.
  - rewrite dict_get_set_same. destruct (sent =? 0); auto.
  - exists (PDatetime utc), iso. split; [exact Hiso|].
    rewrite dict_get_set_other by discriminate.
    apply dict_get_set_same.
Qed.

Lemma links_or_empty_body (E : Externals) (m : sms_record) (keep : bool) :
  SMS.links_or_empty E m = Ok keep ->
  exists body links,
    dict_get m "body" = Some body /\ check_for_links E body = Ok links.
Proof.
  unfold SMS.links_or_empty; simpl.
  destruct (dict_get m "body") as [body|]; simpl; [|discriminate].
  destruct (check_for_links E body) as [links|] eqn:Hlinks; simpl;
    [|discriminate].
  intros _. exists body, links. split; [reflexivity|exact Hlinks].
Qed.

Lemma produced_fields (E : Externals) (m : sms_record) :
  produced E m ->
  (dict_get m "direction" = Some (PStr "sent") \/
   dict_get m "direction" = Some (PStr "received")) /\
  (exists timestamp isodate,
     convert_timestamp_to_iso E timestamp = Ok isodate /\
     dict_get m "isodate" = Some isodate) /\
  (exists body links,
     dict_get m "body" = Some body /\ check_for_links E body = Ok links).
Proof.
  intros ([(names & item & Hrow)|(d & Hmessage)] & Hkeep).
  - destruct (normalize_row_fields E names item m Hrow). 
    split; auto. split; auto. eapply links_or_empty_body; eauto.
  - destruct (normalize_backup_message_fields E d m Hmessage).
    split; auto. split; auto. eapply links_or_empty_body; eauto.
Qed.

Lemma run_appends_produced (E : Externals) (st : state) :
  exists new,
    results (final (SMS.run E st)) = results st ++ new /\
    Forall (produced E) new.
Proof.
  assert (Hfine : respects (fun _ => True) (fun _ => True) (produced E)
                    (SMS.run E)).
  { apply run_fine; auto.
    - intros names item m Hrow Hkeep. split; eauto.
    - intros d m Hmessage Hkeep. split; eauto. }
  now destruct (Hfine st I) as (_ & _ & Hnew).
Qed.

(** X14. Every record that [run] appends, by either path, has a direction
    that is [sent] or [received], an [isodate] entry holding what the
    timestamp converter returned (whatever that value is, a string or
    [None]), and a body on which the link detector returned. *)
Theorem run_appends_complete_records (E : Externals) (st : state) :
  exists new,
    results (final (SMS.run E st)) = results st ++ new /\
    Forall (fun m =>
              (dict_get m "direction" = Some (PStr "sent") \/
               dict_get m "direction" = Some (PStr "received")) /\
              (exists timestamp isodate,
                 convert_timestamp_to_iso E timestamp = Ok isodate /\
                 dict_get m "isodate" = Some isodate) /\
              (exists body links,
                 dict_get m "body" = Some body /\
                 check_for_links E body = Ok links)) new.
Proof.
  destruct (run_appends_produced E st) as (new & Hres & Hnew).
  exists new. split; auto.
  eapply Forall_impl; [|exact Hnew]. apply produced_fields.
Qed.

(** ** Serialization *)

Lemma chars_append (s t : string) :
  list_ascii_of_string (String.append s t) =
  list_ascii_of_string s ++ list_ascii_of_string t.
Proof. induction s as [|c s IH]; simpl; auto. now rewrite IH. Qed.

Lemma escape_newlines_no_newline (s : string) :
  ~ In "010"%char (list_ascii_of_string (SMS.escape_newlines s)).
Proof.
  induction s as [|c s IH]; simpl; auto.
  destruct (Ascii.eqb_spec c "010"%char) as [->|Hc]; simpl.
  - intros [H|[H|H]]; try discriminate. auto.
  - intros [H|H]; auto.
Qed.

Lemma escape_newlines_same (s : string) :
  ~ In "010"%char (list_ascii_of_string s) -> SMS.escape_newlines s = s.
Proof.
  induction s as [|c s IH]; simpl; auto.
  intros Hnone. destruct (Ascii.eqb_spec c "010"%char) as [->|Hc].
  - destruct Hnone. now left.
  - rewrite IH; auto.
Qed.

(** X15. [serialize] returns an event exactly for a record whose body is
    a [str] and that has the keys [isodate], [direction] and [address];
    on every other record it raises [KeyError] (a key is missing),
    [TypeError] or [AttributeError] (the body is not a [str]). *)
Theorem serialize_succeeds_iff (format_other : pyval -> string) (record : dict) :
  ((exists out, SMS.serialize format_other record = Ok out) <->
   (exists s, dict_get record "body" = Some (PStr s)) /\
   dict_get record "isodate" <> None /\
   dict_get record "direction" <> None /\
   dict_get record "address" <> None) /\
  (forall e, SMS.serialize format_other record = Raise e ->
   e = KeyError \/ e = TypeError \/ e = AttributeError).
Proof.
  unfold SMS.serialize; simpl.
  destruct (dict_get record "body") as [body|]; simpl.
  2: { split; [split|].
       - intros (out & H). discriminate.
       - intros ((s & H) & _). discriminate.
       - intros e H. injection H as <-. auto. }
  destruct body as [| | | |s| | | |]; simpl;
    try (split; [split; [intros (out & H); discriminate
                        |intros ((s & H) & _); discriminate]
                |intros e H; injection H as <-; auto]).
  destruct (dict_get record "isodate") as [isodate|]; simpl.
  2: { split; [split|].
       - intros (out & H). discriminate.
       - intros (_ & H & _). congruence.
       - intros e H. injection H as <-. auto. }
  destruct (dict_get record "direction") as [direction|]; simpl.
  2: { split; [split|].
       - intros (out & H). discriminate.
       - intros (_ & _ & H & _). congruence.
       - intros e H. injection H as <-. auto. }
  destruct (dict_get record "address") as [address|]; simpl.
  2: { split; [split|].
       - intros (out & H). discriminate.
       - intros (_ & _ & _ & H). congruence.
       - intros e H. injection H as <-. auto. }
  split; [split|].
  - intros _. repeat split; eauto; discriminate.
  - intros _. eauto.
  - intros e H. discriminate.
Qed.

(** X16. In the event [serialize] returns, [data] is the address, a
    colon and the body between double quotes, the newlines of the body
    written as backslash-n: the text between the quotes holds no newline,
    and [data] is one line whenever the address is. *)
Theorem serialize_data_one_line (format_other : pyval -> string)
    (record out : dict) :
  SMS.serialize format_other record = Ok out ->
  exists address s,
    dict_get record "address" = Some address /\
    dict_get record "body" = Some (PStr s) /\
    dict_get out "data" =
      Some (PStr (String.append (SMS.py_format format_other address)
                    (String.append ": "
                       (String "034"%char
                          (String.append (SMS.escape_newlines s)
                             (String "034"%char EmptyString)))))) /\
    ~ In "010"%char (list_ascii_of_string (SMS.escape_newlines s)) /\
    (~ In "010"%char
         (list_ascii_of_string (SMS.py_format format_other address)) ->
     forall data, dict_get out "data" = Some (PStr data) ->
     ~ In "010"%char (list_ascii_of_string data)).
Proof.
  unfold SMS.serialize; simpl.
  destruct (dict_get record "body") as [body|]; simpl; [|discriminate].
  destruct body as [| | | |s| | | |]; simpl; try discriminate.
  destruct (dict_get record "isodate") as [isodate|]; simpl; [|discriminate].
  destruct (dict_get record "direction") as [direction|]; simpl; [|discriminate].
  destruct (dict_get record "address") as [address|]; simpl; [|discriminate].
  intros H. injection H as <-.
  exists address, s. repeat split.
  - apply escape_newlines_no_newline.
  - intros Haddress data Hdata. simpl in Hdata. injection Hdata as <-.
    rewrite chars_append. simpl. rewrite chars_append. simpl.
    rewrite in_app_iff. simpl. rewrite in_app_iff. simpl.
    pose proof (escape_newlines_no_newline s) as Hbody.
    intros [H|[H|[H|[H|[H|[H|[]]]]]]]; auto; discriminate.
Qed.

Lemma serialize_data_one_line_witness :
  SMS.serialize (fun _ => "")
    [("address", PStr "+1555");
     ("body", PStr (String "a" (String "010" "b")));
     ("direction", PStr "sent");
     ("isodate", PStr "2022-02-23 12:00:00.000000")] =
    Ok [("timestamp", PStr "2022-02-23 12:00:00.000000");
        ("module", PStr "SMS");
        ("event", PStr "sms_sent");
        ("data", PStr (String.append "+1555: "
                         (String "034" (String.append "a\nb"
                                          (String "034" EmptyString)))))] /\
  forall data,
    dict_get [("timestamp", PStr "2022-02-23 12:00:00.000000");
              ("module", PStr "SMS");
              ("event", PStr "sms_sent");
              ("data", PStr (String.append "+1555: "
                               (String "034" (String.append "a\nb"
                                                (String "034" EmptyString)))))]
      "data" = Some (PStr data) ->
    ~ In "010"%char (list_ascii_of_string data).
Proof.
  split; [reflexivity|].
  destruct (serialize_data_one_line (fun _ => "")
              [("address", PStr "+1555");
               ("body", PStr (String "a" (String "010" "b")));
               ("direction", PStr "sent");
               ("isodate", PStr "2022-02-23 12:00:00.000000")] _ eq_refl)
    as (address & s & Haddress & _ & _ & _ & Hline).
  apply Hline. simpl in Haddress. injection Haddress as <-. simpl.
  intros [H|[H|[H|[H|[H|[]]]]]]; discriminate.
Defined.

(** X17. Every record that [run] appends and that has an address and a
    [str] body serializes: the event is [sms_sent] or [sms_received], and
    its timestamp is the [isodate] of the record. *)
Theorem appended_records_serialize (E : Externals)
    (format_other : pyval -> string) (st : state) :
  exists new,
    results (final (SMS.run E st)) = results st ++ new /\
    Forall (fun m =>
              forall address s,
                dict_get m "address" = Some address ->
                dict_get m "body" = Some (PStr s) ->
                exists isodate out,
                  SMS.serialize format_other m = Ok out /\
                  dict_get m "isodate" = Some isodate /\
                  dict_get out "timestamp" = Some isodate /\
                  dict_get out "module" = Some (PStr "SMS") /\
                  (dict_get out "event" = Some (PStr "sms_sent") \/
                   dict_get out "event" = Some (PStr "sms_received"))) new.
Proof.
  destruct (run_appends_produced E st) as (new & Hres & Hnew).
  exists new. split; auto.
  eapply Forall_impl; [|exact Hnew].
  intros m Hm address s Haddress Hbody.
  destruct (produced_fields E m Hm) as (Hdirection & (ts & iso & _ & Hiso) & _).
  exists iso. unfold SMS.serialize; simpl.
  rewrite Hbody, Hiso, Haddress; simpl.
  destruct Hdirection as [Hd|Hd]; rewrite Hd; simpl;
    eexists; (split; [reflexivity|]); simpl; auto.
Qed.

(** ** Matching against the indicators *)

Lemma check_messages_appends (E : Externals)
    (check_domains : list string -> result bool)
    (messages detected : list sms_record) :
  exists added,
    fst (SMS.check_messages E check_domains messages detected) =
      detected ++ added /\
    Forall (fun m => In m messages /\ flagged E check_domains m) added /\
    (snd (SMS.check_messages E check_domains messages detected) = Ok tt ->
     added = filter (flaggedb E check_domains) messages).
Proof.
  revert detected. induction messages as [|m messages IH]; intros detected.
  - exists []. simpl. rewrite app_nil_r. auto.
  - simpl. unfold flaggedb at 1.
    destruct (dict_get m "body") as [body|] eqn:Hbody.
    2: { destruct (IH detected) as (added & Hfst & Hall & Hok).
         exists added. repeat split; auto.
         eapply Forall_impl; [|exact Hall]. intros x (Hin & Hx). auto. }
    destruct (check_for_links E body) as [links|e] eqn:Hlinks.
    2: { exists []. simpl. rewrite app_nil_r. repeat split; auto. discriminate. }
    destruct (check_domains links) as [[|]|e] eqn:Hmatch.
    + destruct (IH (detected ++ [m])) as (added & Hfst & Hall & Hok).
      exists (m :: added). rewrite Hfst, <- app_assoc. repeat split; auto.
      * constructor.
        -- split; [now left|]. exists body, links. auto.
        -- eapply Forall_impl; [|exact Hall]. intros x (Hin & Hx). auto.
      * intros Hvalue. now rewrite (Hok Hvalue).
    + destruct (IH detected) as (added & Hfst & Hall & Hok).
      exists added. repeat split; auto.
      eapply Forall_impl; [|exact Hall]. intros x (Hin & Hx). auto.
    + exists []. simpl. rewrite app_nil_r. repeat split; auto. discriminate.
Qed.

(** X18. [check_indicators] only adds to the detected messages, and what
    it adds are messages of the results that have a body whose links the
    indicators matched; without indicators it adds nothing; when it
    returns normally it has added every such message, in the order of the
    results (a message without body is passed over). *)
Theorem check_indicators_adds_matches (E : Externals)
    (indicators : option (list string -> result bool))
    (messages detected : list sms_record) :
  (indicators = None ->
   SMS.check_indicators E indicators messages detected = (detected, Ok tt)) /\
  (forall check_domains, indicators = Some check_domains ->
   exists added,
     fst (SMS.check_indicators E indicators messages detected) =
       detected ++ added /\
     Forall (fun m => In m messages /\ flagged E check_domains m) added /\
     (snd (SMS.check_indicators E indicators messages detected) = Ok tt ->
      added = filter (flaggedb E check_domains) messages)).
Proof.
  split.
  - intros ->. reflexivity.
  - intros check_domains ->. apply check_messages_appends.
Qed.

Lemma check_indicators_adds_matches_witness :
  exists added,
    fst (SMS.check_indicators Fixtures.inbox_device
           (Some (fun links => Ok (negb (Nat.eqb (List.length links) 0))))
           [Fixtures.inbox_record; [("address", PStr "+1555")];
            [("body", PStr "")]] []) = [] ++ added /\
    added = [Fixtures.inbox_record].
Proof.
  destruct (check_indicators_adds_matches Fixtures.inbox_device
              (Some (fun links => Ok (negb (Nat.eqb (List.length links) 0))))
              [Fixtures.inbox_record; [("address", PStr "+1555")];
               [("body", PStr "")]] []) as (_ & Hsome).
  destruct (Hsome _ eq_refl) as (added & Hfst & _ & Hok).
  exists added. split; [exact Hfst|].
  rewrite (Hok eq_refl). reflexivity.
Defined.

Lemma check_messages_of_produced (E : Externals)
    (check_domains : list string -> result bool)
    (messages detected : list sms_record) :
  Forall (produced E) messages ->
  (forall links, exists matched, check_domains links = Ok matched) ->
  SMS.check_messages E check_domains messages detected =
  (detected ++ filter (flaggedb E check_domains) messages, Ok tt).
Proof.
  intros Hproduced Htotal. revert detected.
  induction Hproduced as [|m messages Hm _ IH]; intros detected; simpl.
  - now rewrite app_nil_r.
  - destruct (produced_fields E m Hm) as (_ & _ & body & links & Hbody & Hlinks).
    unfold flaggedb at 1. rewrite Hbody, Hlinks.
    destruct (Htotal links) as ([|] & ->).
    + rewrite IH. simpl. now rewrite <- app_assoc.
    + apply IH.
Qed.

(** X19. Over results that [run] produced, [check_indicators] does not
    fail in the link detector: when the indicators answer for every list
    of links, it returns normally, having added the matching messages in
    order. *)
Theorem check_indicators_after_run (E : Externals)
    (check_domains : list string -> result bool) (st : state)
    (detected : list sms_record) :
  Forall (produced E) (results st) ->
  (forall links, exists matched, check_domains links = Ok matched) ->
  SMS.check_indicators E (Some check_domains) (results (final (SMS.run E st)))
    detected =
  (detected ++
     filter (flaggedb E check_domains) (results (final (SMS.run E st))),
   Ok tt).
Proof.
  intros Hbefore Htotal. simpl.
  destruct (run_appends_produced E st) as (new & -> & Hnew).
  apply check_messages_of_produced; auto.
  apply Forall_app. auto.
Qed.

Lemma check_indicators_after_run_witness :
  Forall (produced Fixtures.inbox_device) (results Fixtures.fresh) /\
  (forall links : list string,
     exists matched,
       (fun l => Ok (negb (Nat.eqb (List.length l) 0))) links = Ok matched) /\
  SMS.check_indicators Fixtures.inbox_device
    (Some (fun l => Ok (negb (Nat.eqb (List.length l) 0))))
    (results (final (SMS.run Fixtures.inbox_device Fixtures.fresh))) [] =
  ([] ++
     filter (flaggedb Fixtures.inbox_device
               (fun l => Ok (negb (Nat.eqb (List.length l) 0))))
       (results (final (SMS.run Fixtures.inbox_device Fixtures.fresh))),
   Ok tt).
Proof.
  assert (Hbefore : Forall (produced Fixtures.inbox_device)
                      (results Fixtures.fresh)) by constructor.
  assert (Htotal : forall links : list string,
             exists matched,
               (fun l : list string => @Ok bool (negb (Nat.eqb (List.length l) 0)))
                 links = Ok matched) by (intros links; eauto).
  split; [exact Hbefore|]. split; [exact Htotal|].
  exact (check_indicators_after_run Fixtures.inbox_device _ Fixtures.fresh []
           Hbefore Htotal).
Defined.

(** ** A malformed member after good ones *)

Lemma for_each_app {A} (l1 l2 : list A) (body : A -> M unit) (st : state) :
  value (for_each l1 body st) = Ok tt ->
  for_each (l1 ++ l2) body st =
  prepend (emitted (for_each l1 body st))
    (for_each l2 body (final (for_each l1 body st))).
Proof.
  revert st. induction l1 as [|x l1 IH]; intros st; simpl.
  - intros _. unfold prepend. simpl. now destruct (for_each l2 body st).
  - unfold bind. destruct (value (body x st)) as [[]|e]; cbn [value final emitted];
      [|discriminate].
    intros Hrest. rewrite (IH _ Hrest). unfold prepend. cbn [value final emitted].
    now rewrite app_assoc.
Qed.

(** X22. The archive decoder stops at the first SMS member that does not
    inflate or does not parse: the error leaves the decoder, the members
    after it are not read, and the results keep the records of the members
    before it. *)
Theorem decoder_stops_at_malformed_member (E : Externals) (tar_data : bytes)
    (before after : list tar_member) (member : tar_member) (raw : bytes)
    (e : exn) (st : state) :
  tarfile_open E tar_data = Ok (before ++ member :: after) ->
  value (for_each before (SMS.parse_backup_member E) st) = Ok tt ->
  endswith (name member) "_sms_backup" = true ->
  content member = Some raw ->
  zlib_decompress E raw = Raise e \/
  (exists text, zlib_decompress E raw = Ok text /\ json_loads E text = Raise e) ->
  value (SMS._extract_sms_from_backup_tar E tar_data st) = Raise e /\
  final (SMS._extract_sms_from_backup_tar E tar_data st) =
    final (for_each before (SMS.parse_backup_member E) st) /\
  ~ In rows_extracted (emitted (SMS._extract_sms_from_backup_tar E tar_data st)).
Proof.
  intros Hopen Hbefore Hname Hraw Herror.
  unfold SMS._extract_sms_from_backup_tar. rewrite Hopen, lift_ok_bind.
  assert (Hloop : for_each (before ++ member :: after)
                    (SMS.parse_backup_member E) st =
                  mkOutcome (final (for_each before (SMS.parse_backup_member E) st))
                    (emitted (for_each before (SMS.parse_backup_member E) st)
                       ++ [extracting_member])
                    (Raise e)).
  { rewrite (for_each_app before _ _ st Hbefore).
    now rewrite (member_decode_error E member after raw e _ Hname Hraw Herror). }
  rewrite (bind_raise _ _ st e) by now rewrite Hloop.
  rewrite Hloop. cbn [value final emitted].
  repeat split.
  assert (Hquiet : respects (fun _ => True)
                     (fun ev => ev <> rows_extracted) (fun _ => True)
                     (for_each before (SMS.parse_backup_member E))).
  { apply respects_for_each. intro m.
    unfold SMS.parse_backup_member, log.
    destruct (negb (endswith (name m) "_sms_backup")); [apply respects_ret|].
    apply respects_bind; [apply respects_emit; discriminate|]. intros _.
    apply respects_bind; [apply respects_pure|]. intros raw'.
    apply respects_bind; [apply respects_pure|]. intros text.
    apply respects_bind; [apply respects_pure|]. intros json_data.
    apply respects_bind; [apply respects_pure|]. intros items.
    apply respects_for_each. intro item.
    apply parse_backup_message_fine; auto. }
  destruct (Hquiet st I) as (_ & Hevents & _).
  rewrite Forall_forall in Hevents.
  rewrite in_app_iff. intros [Hin|[Hin|[]]].
  - now apply (Hevents _ Hin).
  - discriminate.
Qed.

Lemma decoder_stops_at_malformed_member_witness :
  tarfile_open
    (Sample.device (fun _ => Fixtures.unused) (fun _ => Fixtures.unused)
       (fun _ => Fixtures.unused) (fun _ => Fixtures.unused)
       (fun _ => Ok [Fixtures.sms_member;
                     mkMember "1_sms_backup" (Some (b "BAD"))])
       Fixtures.inflate Fixtures.loads) (b "TAR") =
    Ok ([Fixtures.sms_member] ++ mkMember "1_sms_backup" (Some (b "BAD")) :: []) /\
  value (SMS._extract_sms_from_backup_tar
           (Sample.device (fun _ => Fixtures.unused) (fun _ => Fixtures.unused)
              (fun _ => Fixtures.unused) (fun _ => Fixtures.unused)
              (fun _ => Ok [Fixtures.sms_member;
                            mkMember "1_sms_backup" (Some (b "BAD"))])
              Fixtures.inflate Fixtures.loads) (b "TAR") Fixtures.fresh) =
    Raise ZlibError /\
  results (final (SMS._extract_sms_from_backup_tar
                    (Sample.device (fun _ => Fixtures.unused)
                       (fun _ => Fixtures.unused) (fun _ => Fixtures.unused)
                       (fun _ => Fixtures.unused)
                       (fun _ => Ok [Fixtures.sms_member;
                                     mkMember "1_sms_backup" (Some (b "BAD"))])
                       Fixtures.inflate Fixtures.loads) (b "TAR")
                    Fixtures.fresh)) = [Fixtures.backup_record].
Proof.
  split; [reflexivity|].
  destruct (decoder_stops_at_malformed_member
              (Sample.device (fun _ => Fixtures.unused)
                 (fun _ => Fixtures.unused) (fun _ => Fixtures.unused)
                 (fun _ => Fixtures.unused)
                 (fun _ => Ok [Fixtures.sms_member;
                               mkMember "1_sms_backup" (Some (b "BAD"))])
                 Fixtures.inflate Fixtures.loads) (b "TAR")
              [Fixtures.sms_member] [] (mkMember "1_sms_backup" (Some (b "BAD")))
              (b "BAD") ZlibError Fixtures.fresh)
    as (Hvalue & Hfinal & _); try reflexivity.
  - left. reflexivity.
  - split; [exact Hvalue|]. rewrite Hfinal. reflexivity.
Defined.

(** ** NULL keys in the chat store *)

(** X23. In the bugle query a NULL [sender_id] is in no subselect, and a
    participant whose [contact_id] is NULL is not selected by
    [contact_id=-1]: a message with a NULL sender, or whose sender is only
    such a participant, gives a record with direction [received]. *)
Theorem chat_null_keys_are_received (E : Externals) (t : Sql.bugle_tables)
    (m : Sql.message_row) (p : Sql.part_row) (ppl : Sql.participant_row)
    (record : sms_record) :
  Sql.m_sender_id m = None \/
  Forall (fun r => Sql.ppl_contact_id r = None) (Sql.participants t) ->
  SMS.normalize_row E query_columns (Sql.bugle_select t m p ppl) = Ok record ->
  Sql.sender_in_subselect t m = false /\
  dict_get record "incoming" = Some (PInt 1) /\
  dict_get record "direction" = Some (PStr "received").
Proof.
  intros Hnull Hrow.
  assert (Hout : Sql.sender_in_subselect t m = false).
  { unfold Sql.sender_in_subselect. destruct Hnull as [Hsender|Hcontacts].
    - rewrite Hsender. unfold Sql.isin.
      now destruct (Sql.contact_minus_one t).
    - assert (Hempty : Sql.contact_minus_one t = []).
      { unfold Sql.contact_minus_one.
        induction Hcontacts as [|r rs Hr _ IH]; simpl; auto.
        now rewrite Hr. }
      now rewrite Hempty. }
  split; auto.
  rewrite normalize_bugle_row, Hout in Hrow.
  destruct (convert_timestamp_to_iso E (Sql.p_timestamp p)); simpl in Hrow;
    [|discriminate].
  injection Hrow as <-. split; reflexivity.
Qed.

Lemma chat_null_keys_are_received_witness :
  (Sql.m_sender_id (Sql.mkMessage (Some 100) (Some 10) None) = None \/
   Forall (fun r => Sql.ppl_contact_id r = None)
     (Sql.participants Fixtures.chat)) /\
  Sql.sender_in_subselect Fixtures.chat
    (Sql.mkMessage (Some 100) (Some 10) None) = false.
Proof.
  assert (Hnull : Sql.m_sender_id (Sql.mkMessage (Some 100) (Some 10) None) = None \/
                  Forall (fun r => Sql.ppl_contact_id r = None)
                    (Sql.participants Fixtures.chat)) by (left; reflexivity).
  split; [exact Hnull|].
  exact (proj1 (chat_null_keys_are_received Fixtures.chat_device Fixtures.chat
                  (Sql.mkMessage (Some 100) (Some 10) None) Fixtures.chat_part
                  Fixtures.chat_peer _ Hnull eq_refl)).
Defined.

(** ** The magic header *)

Lemma startswith_prefix (s p : bytes) :
  startswith s p = true <-> exists rest, s = p ++ rest.
Proof.
  revert s. induction p as [|x p IH]; intros s; simpl.
  - split; [intros _; now exists s|intros _; now destruct s].
  - destruct s as [|y s]; simpl.
    + split; [discriminate|]. intros (rest & H). discriminate.
    + rewrite andb_true_iff, IH. unfold byte_eqb. split.
      * intros (Hx & rest & ->). apply Byte.byte_dec_bl in Hx as ->. eauto.
      * intros (rest & H). injection H as -> ->.
        split; [now apply Byte.byte_dec_lb|eauto].
Qed.

(** The archive decoder, when it returns, has logged its closing line
    last. *)
Lemma archive_decoded_last_event (E : Externals) (tar_data : bytes) (st : state) :
  value (SMS._extract_sms_from_backup_tar E tar_data st) = Ok tt ->
  exists evs,
    emitted (SMS._extract_sms_from_backup_tar E tar_data st) =
    evs ++ [rows_extracted].
Proof.
  unfold SMS._extract_sms_from_backup_tar.
  destruct (tarfile_open E tar_data) as [members|e];
    [rewrite lift_ok_bind | rewrite lift_raise_bind; discriminate].
  unfold bind.
  destruct (value (for_each members (SMS.parse_backup_member E) st));
    cbn [value emitted]; [|discriminate].
  intros _. eexists. reflexivity.
Qed.

(** X24. The backup extraction reports "no valid backup data" and returns
    normally, the state as it was, exactly for the streams that do not
    begin with the fourteen bytes [ANDROID BACKUP]; the empty stream is
    one of them. *)
Theorem stream_without_magic_is_reported (E : Externals) (st : state)
    (text : string) (stream : bytes) :
  _adb_command E SMS.backup_command = Ok text ->
  b64decode E text = Ok stream ->
  (SMS._extract_sms_adb E st =
   mkOutcome st [backup_prompt; EvShell SMS.backup_command; no_valid_backup]
     (Ok tt) <->
   ~ exists rest, stream = b "ANDROID BACKUP" ++ rest).
Proof.
  intros Hshell Hb64.
  rewrite <- startswith_prefix.
  destruct (startswith stream (b "ANDROID BACKUP")) eqn:Hmagic.
  - split; [|intros H; now destruct H].
    intros Hout _.
    assert (Hevents : In no_valid_backup (emitted (SMS._extract_sms_adb E st)))
      by (rewrite Hout; simpl; auto).
    revert Hevents. unfold SMS._extract_sms_adb, log.
    rewrite emit_bind, emit_bind, Hshell, lift_ok_bind, Hb64, lift_ok_bind, Hmagic.
    cbn [negb emitted].
    destruct (bytes_split stream x0a 4) as [|f1 [|f2 [|f3 [|f4 [|f5 [|f6 fs]]]]]]
      eqn:Hsplit;
      try (simpl; intros [H|[H|[]]]; discriminate).
    destruct (SMS.encrypted_or_compressed f4 f3) as [[|]|e] eqn:Hcheck.
    + rewrite lift_ok_bind. simpl. intros [H|[H|[H|[]]]]; discriminate.
    + rewrite lift_ok_bind. intros _.
      assert (Hsame : SMS._extract_sms_adb E st =
                      prepend [backup_prompt; EvShell SMS.backup_command]
                        (SMS._extract_sms_from_backup_tar E f5 st)).
      { rewrite (_extract_sms_adb_five_fields E st text stream f1 f2 f3 f4 f5
                   Hshell Hb64 Hmagic Hsplit).
        now rewrite Hcheck. }
      rewrite Hsame in Hout. unfold prepend in Hout.
      injection Hout as _ Hevents Hvalue.
      destruct (archive_decoded_last_event E f5 st Hvalue) as (evs & Hlast).
      rewrite Hlast in Hevents.
      destruct evs as [|ev [|ev' evs]]; simpl in Hevents; discriminate.
    + rewrite lift_raise_bind. simpl. intros [H|[H|[]]]; discriminate.
  - split; [intros _; discriminate|]. intros _.
    apply (_extract_sms_adb_bad_magic E st text stream Hshell Hb64 Hmagic).
Qed.

Lemma stream_without_magic_is_reported_witness :
  _adb_command (Fixtures.locked Fixtures.stream_not_a_backup) SMS.backup_command =
    Ok Fixtures.stream_not_a_backup /\
  b64decode (Fixtures.locked Fixtures.stream_not_a_backup)
    Fixtures.stream_not_a_backup = Ok (b "NOT A BACKUP" ++ [x0a]) /\
  SMS._extract_sms_adb (Fixtures.locked Fixtures.stream_not_a_backup)
    Fixtures.fresh =
  mkOutcome Fixtures.fresh
    [backup_prompt; EvShell SMS.backup_command; no_valid_backup] (Ok tt).
Proof.
  split; [reflexivity|]. split; [reflexivity|].
  apply (stream_without_magic_is_reported
           (Fixtures.locked Fixtures.stream_not_a_backup) Fixtures.fresh
           Fixtures.stream_not_a_backup (b "NOT A BACKUP" ++ [x0a]));
    try reflexivity.
  intros (rest & H). discriminate H.
Defined.
